(** * A shallow embedding of the PPU core of the alphanes NES emulator
    ([src/ppu.cpp]): register interface, video-memory mapping, the
    background/sprite pipelines, the pixel compositor and the beat driver. *)

From Stdlib Require Import ZArith Bool List Lia.
Import ListNotations.
Open Scope Z_scope.

(** ** Bit-packed registers

    The source overlays named bitfields [RegBit<offset,length>] on raw
    words.  A field is read by shifting and masking; assigning a field
    truncates the value to the field's width and leaves the other bits of
    the word alone. *)

Record RegBit := mkRegBit { rb_off : Z; rb_len : Z }.

Definition bits (w off n : Z) : Z := Z.land (Z.shiftr w off) (Z.ones n).

Definition setbits (w off n v : Z) : Z :=
  Z.lor (Z.land w (Z.lnot (Z.shiftl (Z.ones n) off)))
        (Z.shiftl (Z.land v (Z.ones n)) off).

Definition get (f : RegBit) (w : Z) : Z := bits w (rb_off f) (rb_len f).
Definition put (f : RegBit) (v w : Z) : Z := setbits w (rb_off f) (rb_len f) v.
(** C++ truth value of a field. *)
Definition flag (f : RegBit) (w : Z) : bool := negb (get f w =? 0).
(** [++field]: the incremented field, wrapping at its width. *)
Definition incr (f : RegBit) (w : Z) : Z := put f (get f w + 1) w.

(** Modelled from the spec: the layout of [union regtype reg], declared in
    the header [nes.h], which is not part of the sources.  The eight-bit
    ports sysctrl, dispctrl, status and OAMaddr are packed in one 32-bit
    word, each with the named bits the spec lists in section 3 (status: sprite
    overflow, sprite-0 hit and InVBlank in its upper 3 bits; OAMdata and
    OAMindex are the low 2 and high 6 bits of OAMaddr). *)
Module Regtype.
Definition value      := mkRegBit 0 32.
Definition sysctrl    := mkRegBit 0 8.
Definition dispctrl   := mkRegBit 8 8.
Definition status     := mkRegBit 16 8.
Definition OAMaddr    := mkRegBit 24 8.
Definition BaseNTA    := mkRegBit 0 2.
Definition Inc        := mkRegBit 2 1.
Definition SPaddr     := mkRegBit 3 1.
Definition BGaddr     := mkRegBit 4 1.
Definition SPsize     := mkRegBit 5 1.
Definition SlaveFlag  := mkRegBit 6 1.
Definition NMIenabled := mkRegBit 7 1.
Definition Grayscale  := mkRegBit 8 1.
Definition ShowBG8    := mkRegBit 9 1.
Definition ShowSP8    := mkRegBit 10 1.
Definition ShowBG     := mkRegBit 11 1.
Definition ShowSP     := mkRegBit 12 1.
Definition ShowBGSP   := mkRegBit 11 2.
Definition EmpRGB     := mkRegBit 13 3.
Definition SPoverflow := mkRegBit 21 1.
Definition SP0hit     := mkRegBit 22 1.
Definition InVBlank   := mkRegBit 23 1.
Definition OAMdata    := mkRegBit 24 2.
Definition OAMindex   := mkRegBit 26 6.
End Regtype.

(** Modelled from the spec: the layout of [union scrolltype scroll, vaddr]
    (header [nes.h], not part of the sources).  Fine-X occupies the low 3
    bits, separate from the 15-bit address [raw] = fine-Y | nametable-V |
    nametable-H | coarse-Y | coarse-X.  The first port-6 write fills the
    high part of the address ([vaddrhi]), the second its low 8 bits
    ([vaddrlo]); the first port-5 write ([xscroll]) holds fine-X and
    coarse-X. *)
Module Scrolltype.
Definition raw       := mkRegBit 3 15.
Definition xscroll   := mkRegBit 0 8.
Definition xfine     := mkRegBit 0 3.
Definition xcoarse   := mkRegBit 3 5.
Definition ycoarse   := mkRegBit 8 5.
Definition basenta   := mkRegBit 13 2.
Definition basenta_h := mkRegBit 13 1.
Definition basenta_v := mkRegBit 14 1.
Definition yfine     := mkRegBit 15 3.
Definition vaddrlo   := mkRegBit 3 8.
Definition vaddrhi   := mkRegBit 11 7.
End Scrolltype.

(** ** State *)

(** One entry of the secondary / tertiary OAM. *)
Module Sprite.
Record t := mk {
  sprindex : Z;
  y : Z;
  index : Z;
  attr : Z;
  x : Z;
  pattern : Z
}.

Definition set_sprindex (v : Z) (s : t) : t :=
  {| sprindex := v; y := y s; index := index s; attr := attr s; x := x s; pattern := pattern s |}.
Definition set_y (v : Z) (s : t) : t :=
  {| sprindex := sprindex s; y := v; index := index s; attr := attr s; x := x s; pattern := pattern s |}.
Definition set_index (v : Z) (s : t) : t :=
  {| sprindex := sprindex s; y := y s; index := v; attr := attr s; x := x s; pattern := pattern s |}.
Definition set_attr (v : Z) (s : t) : t :=
  {| sprindex := sprindex s; y := y s; index := index s; attr := v; x := x s; pattern := pattern s |}.
Definition set_x (v : Z) (s : t) : t :=
  {| sprindex := sprindex s; y := y s; index := index s; attr := attr s; x := v; pattern := pattern s |}.
Definition set_pattern (v : Z) (s : t) : t :=
  {| sprindex := sprindex s; y := y s; index := index s; attr := attr s; x := x s; pattern := v |}.
End Sprite.

Inductive Mode := NTSC | PAL.

(** Modelled from the spec: the video memory of the cartridge collaborator
    ([nes_->gamepak()], not part of the sources).  [chr_banks] and [Nta]
    map the eight 1 KiB pattern slots and the four 1 KiB nametable slots
    to base offsets in the pattern memory [chr] and the nametable RAM
    [NRAM]; the mapper controls these tables (mirroring, bank switching). *)
Record Gamepak := mkGamepak {
  chr_banks : Z -> Z;
  chr : Z -> Z;
  Nta : Z -> Z;
  NRAM : Z -> Z
}.

(** Calls made by the PPU to its collaborators that have a host-visible
    effect only. *)
Inductive Event := OnRender | OnVerticalBlank.

(** The members of class [Ppu]. *)
Record Ppu := mkPpu {
  reg : Z;
  scroll : Z;
  vaddr : Z;
  offset_toggle_ : bool;
  read_buffer : Z;
  open_bus_ : Z;
  open_bus_decay_timer : Z;
  VBlankState : Z;
  scanline : Z;
  x : Z;
  scanline_end : Z;
  cycle_counter : Z;
  even_odd_toggle : bool;
  cycles : Z;
  palette : Z -> Z;
  OAM : Z -> Z;
  OAM2 : Z -> Sprite.t;
  OAM3 : Z -> Sprite.t;
  sprinpos : Z;
  sproutpos : Z;
  sprrenpos : Z;
  sprtmp : Z;
  pat_addr : Z;
  ioaddr : Z;
  tilepat : Z;
  tileattr : Z;
  bg_shift_pat : Z;
  bg_shift_attr : Z;
  mode_ : Mode
}.

Definition set_reg (v : Z) (s : Ppu) : Ppu :=
  {| reg := v; scroll := scroll s; vaddr := vaddr s; offset_toggle_ := offset_toggle_ s; read_buffer := read_buffer s; open_bus_ := open_bus_ s; open_bus_decay_timer := open_bus_decay_timer s; VBlankState := VBlankState s; scanline := scanline s; x := x s; scanline_end := scanline_end s; cycle_counter := cycle_counter s; even_odd_toggle := even_odd_toggle s; cycles := cycles s; palette := palette s; OAM := OAM s; OAM2 := OAM2 s; OAM3 := OAM3 s; sprinpos := sprinpos s; sproutpos := sproutpos s; sprrenpos := sprrenpos s; sprtmp := sprtmp s; pat_addr := pat_addr s; ioaddr := ioaddr s; tilepat := tilepat s; tileattr := tileattr s; bg_shift_pat := bg_shift_pat s; bg_shift_attr := bg_shift_attr s; mode_ := mode_ s |}.
Definition set_scroll (v : Z) (s : Ppu) : Ppu :=
  {| reg := reg s; scroll := v; vaddr := vaddr s; offset_toggle_ := offset_toggle_ s; read_buffer := read_buffer s; open_bus_ := open_bus_ s; open_bus_decay_timer := open_bus_decay_timer s; VBlankState := VBlankState s; scanline := scanline s; x := x s; scanline_end := scanline_end s; cycle_counter := cycle_counter s; even_odd_toggle := even_odd_toggle s; cycles := cycles s; palette := palette s; OAM := OAM s; OAM2 := OAM2 s; OAM3 := OAM3 s; sprinpos := sprinpos s; sproutpos := sproutpos s; sprrenpos := sprrenpos s; sprtmp := sprtmp s; pat_addr := pat_addr s; ioaddr := ioaddr s; tilepat := tilepat s; tileattr := tileattr s; bg_shift_pat := bg_shift_pat s; bg_shift_attr := bg_shift_attr s; mode_ := mode_ s |}.
Definition set_vaddr (v : Z) (s : Ppu) : Ppu :=
  {| reg := reg s; scroll := scroll s; vaddr := v; offset_toggle_ := offset_toggle_ s; read_buffer := read_buffer s; open_bus_ := open_bus_ s; open_bus_decay_timer := open_bus_decay_timer s; VBlankState := VBlankState s; scanline := scanline s; x := x s; scanline_end := scanline_end s; cycle_counter := cycle_counter s; even_odd_toggle := even_odd_toggle s; cycles := cycles s; palette := palette s; OAM := OAM s; OAM2 := OAM2 s; OAM3 := OAM3 s; sprinpos := sprinpos s; sproutpos := sproutpos s; sprrenpos := sprrenpos s; sprtmp := sprtmp s; pat_addr := pat_addr s; ioaddr := ioaddr s; tilepat := tilepat s; tileattr := tileattr s; bg_shift_pat := bg_shift_pat s; bg_shift_attr := bg_shift_attr s; mode_ := mode_ s |}.
Definition set_offset_toggle_ (v : bool) (s : Ppu) : Ppu :=
  {| reg := reg s; scroll := scroll s; vaddr := vaddr s; offset_toggle_ := v; read_buffer := read_buffer s; open_bus_ := open_bus_ s; open_bus_decay_timer := open_bus_decay_timer s; VBlankState := VBlankState s; scanline := scanline s; x := x s; scanline_end := scanline_end s; cycle_counter := cycle_counter s; even_odd_toggle := even_odd_toggle s; cycles := cycles s; palette := palette s; OAM := OAM s; OAM2 := OAM2 s; OAM3 := OAM3 s; sprinpos := sprinpos s; sproutpos := sproutpos s; sprrenpos := sprrenpos s; sprtmp := sprtmp s; pat_addr := pat_addr s; ioaddr := ioaddr s; tilepat := tilepat s; tileattr := tileattr s; bg_shift_pat := bg_shift_pat s; bg_shift_attr := bg_shift_attr s; mode_ := mode_ s |}.
Definition set_read_buffer (v : Z) (s : Ppu) : Ppu :=
  {| reg := reg s; scroll := scroll s; vaddr := vaddr s; offset_toggle_ := offset_toggle_ s; read_buffer := v; open_bus_ := open_bus_ s; open_bus_decay_timer := open_bus_decay_timer s; VBlankState := VBlankState s; scanline := scanline s; x := x s; scanline_end := scanline_end s; cycle_counter := cycle_counter s; even_odd_toggle := even_odd_toggle s; cycles := cycles s; palette := palette s; OAM := OAM s; OAM2 := OAM2 s; OAM3 := OAM3 s; sprinpos := sprinpos s; sproutpos := sproutpos s; sprrenpos := sprrenpos s; sprtmp := sprtmp s; pat_addr := pat_addr s; ioaddr := ioaddr s; tilepat := tilepat s; tileattr := tileattr s; bg_shift_pat := bg_shift_pat s; bg_shift_attr := bg_shift_attr s; mode_ := mode_ s |}.
Definition set_open_bus_ (v : Z) (s : Ppu) : Ppu :=
  {| reg := reg s; scroll := scroll s; vaddr := vaddr s; offset_toggle_ := offset_toggle_ s; read_buffer := read_buffer s; open_bus_ := v; open_bus_decay_timer := open_bus_decay_timer s; VBlankState := VBlankState s; scanline := scanline s; x := x s; scanline_end := scanline_end s; cycle_counter := cycle_counter s; even_odd_toggle := even_odd_toggle s; cycles := cycles s; palette := palette s; OAM := OAM s; OAM2 := OAM2 s; OAM3 := OAM3 s; sprinpos := sprinpos s; sproutpos := sproutpos s; sprrenpos := sprrenpos s; sprtmp := sprtmp s; pat_addr := pat_addr s; ioaddr := ioaddr s; tilepat := tilepat s; tileattr := tileattr s; bg_shift_pat := bg_shift_pat s; bg_shift_attr := bg_shift_attr s; mode_ := mode_ s |}.
Definition set_open_bus_decay_timer (v : Z) (s : Ppu) : Ppu :=
  {| reg := reg s; scroll := scroll s; vaddr := vaddr s; offset_toggle_ := offset_toggle_ s; read_buffer := read_buffer s; open_bus_ := open_bus_ s; open_bus_decay_timer := v; VBlankState := VBlankState s; scanline := scanline s; x := x s; scanline_end := scanline_end s; cycle_counter := cycle_counter s; even_odd_toggle := even_odd_toggle s; cycles := cycles s; palette := palette s; OAM := OAM s; OAM2 := OAM2 s; OAM3 := OAM3 s; sprinpos := sprinpos s; sproutpos := sproutpos s; sprrenpos := sprrenpos s; sprtmp := sprtmp s; pat_addr := pat_addr s; ioaddr := ioaddr s; tilepat := tilepat s; tileattr := tileattr s; bg_shift_pat := bg_shift_pat s; bg_shift_attr := bg_shift_attr s; mode_ := mode_ s |}.
Definition set_VBlankState (v : Z) (s : Ppu) : Ppu :=
  {| reg := reg s; scroll := scroll s; vaddr := vaddr s; offset_toggle_ := offset_toggle_ s; read_buffer := read_buffer s; open_bus_ := open_bus_ s; open_bus_decay_timer := open_bus_decay_timer s; VBlankState := v; scanline := scanline s; x := x s; scanline_end := scanline_end s; cycle_counter := cycle_counter s; even_odd_toggle := even_odd_toggle s; cycles := cycles s; palette := palette s; OAM := OAM s; OAM2 := OAM2 s; OAM3 := OAM3 s; sprinpos := sprinpos s; sproutpos := sproutpos s; sprrenpos := sprrenpos s; sprtmp := sprtmp s; pat_addr := pat_addr s; ioaddr := ioaddr s; tilepat := tilepat s; tileattr := tileattr s; bg_shift_pat := bg_shift_pat s; bg_shift_attr := bg_shift_attr s; mode_ := mode_ s |}.
Definition set_scanline (v : Z) (s : Ppu) : Ppu :=
  {| reg := reg s; scroll := scroll s; vaddr := vaddr s; offset_toggle_ := offset_toggle_ s; read_buffer := read_buffer s; open_bus_ := open_bus_ s; open_bus_decay_timer := open_bus_decay_timer s; VBlankState := VBlankState s; scanline := v; x := x s; scanline_end := scanline_end s; cycle_counter := cycle_counter s; even_odd_toggle := even_odd_toggle s; cycles := cycles s; palette := palette s; OAM := OAM s; OAM2 := OAM2 s; OAM3 := OAM3 s; sprinpos := sprinpos s; sproutpos := sproutpos s; sprrenpos := sprrenpos s; sprtmp := sprtmp s; pat_addr := pat_addr s; ioaddr := ioaddr s; tilepat := tilepat s; tileattr := tileattr s; bg_shift_pat := bg_shift_pat s; bg_shift_attr := bg_shift_attr s; mode_ := mode_ s |}.
Definition set_x (v : Z) (s : Ppu) : Ppu :=
  {| reg := reg s; scroll := scroll s; vaddr := vaddr s; offset_toggle_ := offset_toggle_ s; read_buffer := read_buffer s; open_bus_ := open_bus_ s; open_bus_decay_timer := open_bus_decay_timer s; VBlankState := VBlankState s; scanline := scanline s; x := v; scanline_end := scanline_end s; cycle_counter := cycle_counter s; even_odd_toggle := even_odd_toggle s; cycles := cycles s; palette := palette s; OAM := OAM s; OAM2 := OAM2 s; OAM3 := OAM3 s; sprinpos := sprinpos s; sproutpos := sproutpos s; sprrenpos := sprrenpos s; sprtmp := sprtmp s; pat_addr := pat_addr s; ioaddr := ioaddr s; tilepat := tilepat s; tileattr := tileattr s; bg_shift_pat := bg_shift_pat s; bg_shift_attr := bg_shift_attr s; mode_ := mode_ s |}.
Definition set_scanline_end (v : Z) (s : Ppu) : Ppu :=
  {| reg := reg s; scroll := scroll s; vaddr := vaddr s; offset_toggle_ := offset_toggle_ s; read_buffer := read_buffer s; open_bus_ := open_bus_ s; open_bus_decay_timer := open_bus_decay_timer s; VBlankState := VBlankState s; scanline := scanline s; x := x s; scanline_end := v; cycle_counter := cycle_counter s; even_odd_toggle := even_odd_toggle s; cycles := cycles s; palette := palette s; OAM := OAM s; OAM2 := OAM2 s; OAM3 := OAM3 s; sprinpos := sprinpos s; sproutpos := sproutpos s; sprrenpos := sprrenpos s; sprtmp := sprtmp s; pat_addr := pat_addr s; ioaddr := ioaddr s; tilepat := tilepat s; tileattr := tileattr s; bg_shift_pat := bg_shift_pat s; bg_shift_attr := bg_shift_attr s; mode_ := mode_ s |}.
Definition set_cycle_counter (v : Z) (s : Ppu) : Ppu :=
  {| reg := reg s; scroll := scroll s; vaddr := vaddr s; offset_toggle_ := offset_toggle_ s; read_buffer := read_buffer s; open_bus_ := open_bus_ s; open_bus_decay_timer := open_bus_decay_timer s; VBlankState := VBlankState s; scanline := scanline s; x := x s; scanline_end := scanline_end s; cycle_counter := v; even_odd_toggle := even_odd_toggle s; cycles := cycles s; palette := palette s; OAM := OAM s; OAM2 := OAM2 s; OAM3 := OAM3 s; sprinpos := sprinpos s; sproutpos := sproutpos s; sprrenpos := sprrenpos s; sprtmp := sprtmp s; pat_addr := pat_addr s; ioaddr := ioaddr s; tilepat := tilepat s; tileattr := tileattr s; bg_shift_pat := bg_shift_pat s; bg_shift_attr := bg_shift_attr s; mode_ := mode_ s |}.
Definition set_even_odd_toggle (v : bool) (s : Ppu) : Ppu :=
  {| reg := reg s; scroll := scroll s; vaddr := vaddr s; offset_toggle_ := offset_toggle_ s; read_buffer := read_buffer s; open_bus_ := open_bus_ s; open_bus_decay_timer := open_bus_decay_timer s; VBlankState := VBlankState s; scanline := scanline s; x := x s; scanline_end := scanline_end s; cycle_counter := cycle_counter s; even_odd_toggle := v; cycles := cycles s; palette := palette s; OAM := OAM s; OAM2 := OAM2 s; OAM3 := OAM3 s; sprinpos := sprinpos s; sproutpos := sproutpos s; sprrenpos := sprrenpos s; sprtmp := sprtmp s; pat_addr := pat_addr s; ioaddr := ioaddr s; tilepat := tilepat s; tileattr := tileattr s; bg_shift_pat := bg_shift_pat s; bg_shift_attr := bg_shift_attr s; mode_ := mode_ s |}.
Definition set_cycles (v : Z) (s : Ppu) : Ppu :=
  {| reg := reg s; scroll := scroll s; vaddr := vaddr s; offset_toggle_ := offset_toggle_ s; read_buffer := read_buffer s; open_bus_ := open_bus_ s; open_bus_decay_timer := open_bus_decay_timer s; VBlankState := VBlankState s; scanline := scanline s; x := x s; scanline_end := scanline_end s; cycle_counter := cycle_counter s; even_odd_toggle := even_odd_toggle s; cycles := v; palette := palette s; OAM := OAM s; OAM2 := OAM2 s; OAM3 := OAM3 s; sprinpos := sprinpos s; sproutpos := sproutpos s; sprrenpos := sprrenpos s; sprtmp := sprtmp s; pat_addr := pat_addr s; ioaddr := ioaddr s; tilepat := tilepat s; tileattr := tileattr s; bg_shift_pat := bg_shift_pat s; bg_shift_attr := bg_shift_attr s; mode_ := mode_ s |}.
Definition set_palette (v : Z -> Z) (s : Ppu) : Ppu :=
  {| reg := reg s; scroll := scroll s; vaddr := vaddr s; offset_toggle_ := offset_toggle_ s; read_buffer := read_buffer s; open_bus_ := open_bus_ s; open_bus_decay_timer := open_bus_decay_timer s; VBlankState := VBlankState s; scanline := scanline s; x := x s; scanline_end := scanline_end s; cycle_counter := cycle_counter s; even_odd_toggle := even_odd_toggle s; cycles := cycles s; palette := v; OAM := OAM s; OAM2 := OAM2 s; OAM3 := OAM3 s; sprinpos := sprinpos s; sproutpos := sproutpos s; sprrenpos := sprrenpos s; sprtmp := sprtmp s; pat_addr := pat_addr s; ioaddr := ioaddr s; tilepat := tilepat s; tileattr := tileattr s; bg_shift_pat := bg_shift_pat s; bg_shift_attr := bg_shift_attr s; mode_ := mode_ s |}.
Definition set_OAM (v : Z -> Z) (s : Ppu) : Ppu :=
  {| reg := reg s; scroll := scroll s; vaddr := vaddr s; offset_toggle_ := offset_toggle_ s; read_buffer := read_buffer s; open_bus_ := open_bus_ s; open_bus_decay_timer := open_bus_decay_timer s; VBlankState := VBlankState s; scanline := scanline s; x := x s; scanline_end := scanline_end s; cycle_counter := cycle_counter s; even_odd_toggle := even_odd_toggle s; cycles := cycles s; palette := palette s; OAM := v; OAM2 := OAM2 s; OAM3 := OAM3 s; sprinpos := sprinpos s; sproutpos := sproutpos s; sprrenpos := sprrenpos s; sprtmp := sprtmp s; pat_addr := pat_addr s; ioaddr := ioaddr s; tilepat := tilepat s; tileattr := tileattr s; bg_shift_pat := bg_shift_pat s; bg_shift_attr := bg_shift_attr s; mode_ := mode_ s |}.
Definition set_OAM2 (v : Z -> Sprite.t) (s : Ppu) : Ppu :=
  {| reg := reg s; scroll := scroll s; vaddr := vaddr s; offset_toggle_ := offset_toggle_ s; read_buffer := read_buffer s; open_bus_ := open_bus_ s; open_bus_decay_timer := open_bus_decay_timer s; VBlankState := VBlankState s; scanline := scanline s; x := x s; scanline_end := scanline_end s; cycle_counter := cycle_counter s; even_odd_toggle := even_odd_toggle s; cycles := cycles s; palette := palette s; OAM := OAM s; OAM2 := v; OAM3 := OAM3 s; sprinpos := sprinpos s; sproutpos := sproutpos s; sprrenpos := sprrenpos s; sprtmp := sprtmp s; pat_addr := pat_addr s; ioaddr := ioaddr s; tilepat := tilepat s; tileattr := tileattr s; bg_shift_pat := bg_shift_pat s; bg_shift_attr := bg_shift_attr s; mode_ := mode_ s |}.
Definition set_OAM3 (v : Z -> Sprite.t) (s : Ppu) : Ppu :=
  {| reg := reg s; scroll := scroll s; vaddr := vaddr s; offset_toggle_ := offset_toggle_ s; read_buffer := read_buffer s; open_bus_ := open_bus_ s; open_bus_decay_timer := open_bus_decay_timer s; VBlankState := VBlankState s; scanline := scanline s; x := x s; scanline_end := scanline_end s; cycle_counter := cycle_counter s; even_odd_toggle := even_odd_toggle s; cycles := cycles s; palette := palette s; OAM := OAM s; OAM2 := OAM2 s; OAM3 := v; sprinpos := sprinpos s; sproutpos := sproutpos s; sprrenpos := sprrenpos s; sprtmp := sprtmp s; pat_addr := pat_addr s; ioaddr := ioaddr s; tilepat := tilepat s; tileattr := tileattr s; bg_shift_pat := bg_shift_pat s; bg_shift_attr := bg_shift_attr s; mode_ := mode_ s |}.
Definition set_sprinpos (v : Z) (s : Ppu) : Ppu :=
  {| reg := reg s; scroll := scroll s; vaddr := vaddr s; offset_toggle_ := offset_toggle_ s; read_buffer := read_buffer s; open_bus_ := open_bus_ s; open_bus_decay_timer := open_bus_decay_timer s; VBlankState := VBlankState s; scanline := scanline s; x := x s; scanline_end := scanline_end s; cycle_counter := cycle_counter s; even_odd_toggle := even_odd_toggle s; cycles := cycles s; palette := palette s; OAM := OAM s; OAM2 := OAM2 s; OAM3 := OAM3 s; sprinpos := v; sproutpos := sproutpos s; sprrenpos := sprrenpos s; sprtmp := sprtmp s; pat_addr := pat_addr s; ioaddr := ioaddr s; tilepat := tilepat s; tileattr := tileattr s; bg_shift_pat := bg_shift_pat s; bg_shift_attr := bg_shift_attr s; mode_ := mode_ s |}.
Definition set_sproutpos (v : Z) (s : Ppu) : Ppu :=
  {| reg := reg s; scroll := scroll s; vaddr := vaddr s; offset_toggle_ := offset_toggle_ s; read_buffer := read_buffer s; open_bus_ := open_bus_ s; open_bus_decay_timer := open_bus_decay_timer s; VBlankState := VBlankState s; scanline := scanline s; x := x s; scanline_end := scanline_end s; cycle_counter := cycle_counter s; even_odd_toggle := even_odd_toggle s; cycles := cycles s; palette := palette s; OAM := OAM s; OAM2 := OAM2 s; OAM3 := OAM3 s; sprinpos := sprinpos s; sproutpos := v; sprrenpos := sprrenpos s; sprtmp := sprtmp s; pat_addr := pat_addr s; ioaddr := ioaddr s; tilepat := tilepat s; tileattr := tileattr s; bg_shift_pat := bg_shift_pat s; bg_shift_attr := bg_shift_attr s; mode_ := mode_ s |}.
Definition set_sprrenpos (v : Z) (s : Ppu) : Ppu :=
  {| reg := reg s; scroll := scroll s; vaddr := vaddr s; offset_toggle_ := offset_toggle_ s; read_buffer := read_buffer s; open_bus_ := open_bus_ s; open_bus_decay_timer := open_bus_decay_timer s; VBlankState := VBlankState s; scanline := scanline s; x := x s; scanline_end := scanline_end s; cycle_counter := cycle_counter s; even_odd_toggle := even_odd_toggle s; cycles := cycles s; palette := palette s; OAM := OAM s; OAM2 := OAM2 s; OAM3 := OAM3 s; sprinpos := sprinpos s; sproutpos := sproutpos s; sprrenpos := v; sprtmp := sprtmp s; pat_addr := pat_addr s; ioaddr := ioaddr s; tilepat := tilepat s; tileattr := tileattr s; bg_shift_pat := bg_shift_pat s; bg_shift_attr := bg_shift_attr s; mode_ := mode_ s |}.
Definition set_sprtmp (v : Z) (s : Ppu) : Ppu :=
  {| reg := reg s; scroll := scroll s; vaddr := vaddr s; offset_toggle_ := offset_toggle_ s; read_buffer := read_buffer s; open_bus_ := open_bus_ s; open_bus_decay_timer := open_bus_decay_timer s; VBlankState := VBlankState s; scanline := scanline s; x := x s; scanline_end := scanline_end s; cycle_counter := cycle_counter s; even_odd_toggle := even_odd_toggle s; cycles := cycles s; palette := palette s; OAM := OAM s; OAM2 := OAM2 s; OAM3 := OAM3 s; sprinpos := sprinpos s; sproutpos := sproutpos s; sprrenpos := sprrenpos s; sprtmp := v; pat_addr := pat_addr s; ioaddr := ioaddr s; tilepat := tilepat s; tileattr := tileattr s; bg_shift_pat := bg_shift_pat s; bg_shift_attr := bg_shift_attr s; mode_ := mode_ s |}.
Definition set_pat_addr (v : Z) (s : Ppu) : Ppu :=
  {| reg := reg s; scroll := scroll s; vaddr := vaddr s; offset_toggle_ := offset_toggle_ s; read_buffer := read_buffer s; open_bus_ := open_bus_ s; open_bus_decay_timer := open_bus_decay_timer s; VBlankState := VBlankState s; scanline := scanline s; x := x s; scanline_end := scanline_end s; cycle_counter := cycle_counter s; even_odd_toggle := even_odd_toggle s; cycles := cycles s; palette := palette s; OAM := OAM s; OAM2 := OAM2 s; OAM3 := OAM3 s; sprinpos := sprinpos s; sproutpos := sproutpos s; sprrenpos := sprrenpos s; sprtmp := sprtmp s; pat_addr := v; ioaddr := ioaddr s; tilepat := tilepat s; tileattr := tileattr s; bg_shift_pat := bg_shift_pat s; bg_shift_attr := bg_shift_attr s; mode_ := mode_ s |}.
Definition set_ioaddr (v : Z) (s : Ppu) : Ppu :=
  {| reg := reg s; scroll := scroll s; vaddr := vaddr s; offset_toggle_ := offset_toggle_ s; read_buffer := read_buffer s; open_bus_ := open_bus_ s; open_bus_decay_timer := open_bus_decay_timer s; VBlankState := VBlankState s; scanline := scanline s; x := x s; scanline_end := scanline_end s; cycle_counter := cycle_counter s; even_odd_toggle := even_odd_toggle s; cycles := cycles s; palette := palette s; OAM := OAM s; OAM2 := OAM2 s; OAM3 := OAM3 s; sprinpos := sprinpos s; sproutpos := sproutpos s; sprrenpos := sprrenpos s; sprtmp := sprtmp s; pat_addr := pat_addr s; ioaddr := v; tilepat := tilepat s; tileattr := tileattr s; bg_shift_pat := bg_shift_pat s; bg_shift_attr := bg_shift_attr s; mode_ := mode_ s |}.
Definition set_tilepat (v : Z) (s : Ppu) : Ppu :=
  {| reg := reg s; scroll := scroll s; vaddr := vaddr s; offset_toggle_ := offset_toggle_ s; read_buffer := read_buffer s; open_bus_ := open_bus_ s; open_bus_decay_timer := open_bus_decay_timer s; VBlankState := VBlankState s; scanline := scanline s; x := x s; scanline_end := scanline_end s; cycle_counter := cycle_counter s; even_odd_toggle := even_odd_toggle s; cycles := cycles s; palette := palette s; OAM := OAM s; OAM2 := OAM2 s; OAM3 := OAM3 s; sprinpos := sprinpos s; sproutpos := sproutpos s; sprrenpos := sprrenpos s; sprtmp := sprtmp s; pat_addr := pat_addr s; ioaddr := ioaddr s; tilepat := v; tileattr := tileattr s; bg_shift_pat := bg_shift_pat s; bg_shift_attr := bg_shift_attr s; mode_ := mode_ s |}.
Definition set_tileattr (v : Z) (s : Ppu) : Ppu :=
  {| reg := reg s; scroll := scroll s; vaddr := vaddr s; offset_toggle_ := offset_toggle_ s; read_buffer := read_buffer s; open_bus_ := open_bus_ s; open_bus_decay_timer := open_bus_decay_timer s; VBlankState := VBlankState s; scanline := scanline s; x := x s; scanline_end := scanline_end s; cycle_counter := cycle_counter s; even_odd_toggle := even_odd_toggle s; cycles := cycles s; palette := palette s; OAM := OAM s; OAM2 := OAM2 s; OAM3 := OAM3 s; sprinpos := sprinpos s; sproutpos := sproutpos s; sprrenpos := sprrenpos s; sprtmp := sprtmp s; pat_addr := pat_addr s; ioaddr := ioaddr s; tilepat := tilepat s; tileattr := v; bg_shift_pat := bg_shift_pat s; bg_shift_attr := bg_shift_attr s; mode_ := mode_ s |}.
Definition set_bg_shift_pat (v : Z) (s : Ppu) : Ppu :=
  {| reg := reg s; scroll := scroll s; vaddr := vaddr s; offset_toggle_ := offset_toggle_ s; read_buffer := read_buffer s; open_bus_ := open_bus_ s; open_bus_decay_timer := open_bus_decay_timer s; VBlankState := VBlankState s; scanline := scanline s; x := x s; scanline_end := scanline_end s; cycle_counter := cycle_counter s; even_odd_toggle := even_odd_toggle s; cycles := cycles s; palette := palette s; OAM := OAM s; OAM2 := OAM2 s; OAM3 := OAM3 s; sprinpos := sprinpos s; sproutpos := sproutpos s; sprrenpos := sprrenpos s; sprtmp := sprtmp s; pat_addr := pat_addr s; ioaddr := ioaddr s; tilepat := tilepat s; tileattr := tileattr s; bg_shift_pat := v; bg_shift_attr := bg_shift_attr s; mode_ := mode_ s |}.
Definition set_bg_shift_attr (v : Z) (s : Ppu) : Ppu :=
  {| reg := reg s; scroll := scroll s; vaddr := vaddr s; offset_toggle_ := offset_toggle_ s; read_buffer := read_buffer s; open_bus_ := open_bus_ s; open_bus_decay_timer := open_bus_decay_timer s; VBlankState := VBlankState s; scanline := scanline s; x := x s; scanline_end := scanline_end s; cycle_counter := cycle_counter s; even_odd_toggle := even_odd_toggle s; cycles := cycles s; palette := palette s; OAM := OAM s; OAM2 := OAM2 s; OAM3 := OAM3 s; sprinpos := sprinpos s; sproutpos := sproutpos s; sprrenpos := sprrenpos s; sprtmp := sprtmp s; pat_addr := pat_addr s; ioaddr := ioaddr s; tilepat := tilepat s; tileattr := tileattr s; bg_shift_pat := bg_shift_pat s; bg_shift_attr := v; mode_ := mode_ s |}.
Definition set_mode_ (v : Mode) (s : Ppu) : Ppu :=
  {| reg := reg s; scroll := scroll s; vaddr := vaddr s; offset_toggle_ := offset_toggle_ s; read_buffer := read_buffer s; open_bus_ := open_bus_ s; open_bus_decay_timer := open_bus_decay_timer s; VBlankState := VBlankState s; scanline := scanline s; x := x s; scanline_end := scanline_end s; cycle_counter := cycle_counter s; even_odd_toggle := even_odd_toggle s; cycles := cycles s; palette := palette s; OAM := OAM s; OAM2 := OAM2 s; OAM3 := OAM3 s; sprinpos := sprinpos s; sproutpos := sproutpos s; sprrenpos := sprrenpos s; sprtmp := sprtmp s; pat_addr := pat_addr s; ioaddr := ioaddr s; tilepat := tilepat s; tileattr := tileattr s; bg_shift_pat := bg_shift_pat s; bg_shift_attr := bg_shift_attr s; mode_ := v |}.

(** The PPU together with the collaborator state it touches: the
    cartridge video memory, the CPU's NMI line and cycle counter, the host
    frame buffer and the trace of callbacks. *)
Record Nes := mkNes {
  ppu : Ppu;
  pak : Gamepak;
  nmi : bool;
  cpu_cycles : Z;
  frame_buffer : Z -> Z;
  events : list Event
}.

Definition set_ppu (v : Ppu) (s : Nes) : Nes :=
  {| ppu := v; pak := pak s; nmi := nmi s; cpu_cycles := cpu_cycles s; frame_buffer := frame_buffer s; events := events s |}.
Definition set_pak (v : Gamepak) (s : Nes) : Nes :=
  {| ppu := ppu s; pak := v; nmi := nmi s; cpu_cycles := cpu_cycles s; frame_buffer := frame_buffer s; events := events s |}.
Definition set_nmi (v : bool) (s : Nes) : Nes :=
  {| ppu := ppu s; pak := pak s; nmi := v; cpu_cycles := cpu_cycles s; frame_buffer := frame_buffer s; events := events s |}.
Definition set_cpu_cycles (v : Z) (s : Nes) : Nes :=
  {| ppu := ppu s; pak := pak s; nmi := nmi s; cpu_cycles := v; frame_buffer := frame_buffer s; events := events s |}.
Definition set_frame_buffer (v : Z -> Z) (s : Nes) : Nes :=
  {| ppu := ppu s; pak := pak s; nmi := nmi s; cpu_cycles := cpu_cycles s; frame_buffer := v; events := events s |}.
Definition set_events (v : list Event) (s : Nes) : Nes :=
  {| ppu := ppu s; pak := pak s; nmi := nmi s; cpu_cycles := cpu_cycles s; frame_buffer := frame_buffer s; events := v |}.

Definition set_ppu_with (g : Ppu -> Ppu) (n : Nes) : Nes := set_ppu (g (ppu n)) n.

(** Functional update of an array / memory at one index. *)
Definition upd {A} (f : Z -> A) (k : Z) (v : A) : Z -> A :=
  fun j => if j =? k then v else f j.

Import Regtype Scrolltype.

(** ** Video memory: [Ppu::mmap]

    [mmap] returns a reference; it is modelled by the location it denotes,
    which [load] reads and [store] assigns. *)
Inductive Loc := LPalette (k : Z) | LChr (a : Z) | LNta (a : Z).

Definition mmap (pak : Gamepak) (i : Z) : Loc :=
  let i := Z.land i 0x3FFF in
  if 0x3F00 <=? i then
    let i := if i mod 4 =? 0 then Z.land i 0x0F else i in
    LPalette (Z.land i 0x1F)
  else if i <? 0x2000 then LChr (chr_banks pak (Z.shiftr i 10) + Z.land i 0x3FF)
  else LNta (Nta pak (Z.land (Z.shiftr i 10) 3) + Z.land i 0x3FF).

Definition loadp (p : Ppu) (g : Gamepak) (l : Loc) : Z :=
  match l with
  | LPalette k => palette p k
  | LChr a => chr g a
  | LNta a => NRAM g a
  end.

Definition load (n : Nes) (l : Loc) : Z := loadp (ppu n) (pak n) l.

Definition store (l : Loc) (v : Z) (n : Nes) : Nes :=
  match l with
  | LPalette k => set_ppu_with (fun p => set_palette (upd (palette p) k v) p) n
  | LChr a => let g := pak n in
              set_pak (mkGamepak (chr_banks g) (upd (chr g) a v) (Nta g) (NRAM g)) n
  | LNta a => let g := pak n in
              set_pak (mkGamepak (chr_banks g) (chr g) (Nta g) (upd (NRAM g) a v)) n
  end.

(** [mmap(i)] used as an rvalue. *)
Definition vram (n : Nes) (i : Z) : Z := load n (mmap (pak n) i).

(** ** Register interface: [Ppu::Read] and [Ppu::Write] *)

Definition open_bus_decay_full : Z := 77777.

Definition RefreshOpenBus (v : Z) (p : Ppu) : Ppu :=
  set_open_bus_ v (set_open_bus_decay_timer open_bus_decay_full p).

(** [vaddr.raw = vaddr.raw + (reg.Inc ? 32 : 1)] *)
Definition vaddr_advance (p : Ppu) : Ppu :=
  set_vaddr (put raw (get raw (vaddr p) + (if flag Inc (reg p) then 32 else 1)) (vaddr p)) p.

Definition Read (address : Z) (n : Nes) : Nes * Z :=
  let p := ppu n in
  let res := open_bus_ p in
  match Z.land address 7 with
  | 2 =>
      let res := Z.lor (get status (reg p)) (Z.land (open_bus_ p) 0x1F) in
      let p := set_reg (put InVBlank 0 (reg p)) p in
      let p := set_offset_toggle_ false p in
      let p := if VBlankState p =? -5 then p else set_VBlankState 0 p in
      (set_ppu p n, res)
  | 4 =>
      let v := Z.land (OAM p (get OAMaddr (reg p)))
                      (if get OAMdata (reg p) =? 2 then 0xE3 else 0xFF) in
      (set_ppu (RefreshOpenBus v p) n, v)
  | 7 =>
      let res := read_buffer p in
      let t := mmap (pak n) (get raw (vaddr p)) in
      let '(res, p) :=
        if Z.land (get raw (vaddr p)) 0x3F00 =? 0x3F00 then
          let res := Z.lor (Z.land (open_bus_ p) 0xC0) (Z.land (load n t) 0x3F) in
          (res, set_read_buffer (vram n (Z.land (get raw (vaddr p)) 0x2FFF)) p)
        else (res, set_read_buffer (load n t) p) in
      let p := RefreshOpenBus res p in
      let p := vaddr_advance p in
      (set_ppu p n, res)
  | _ => (n, res)
  end.

Definition Write (address data : Z) (n : Nes) : Nes :=
  let data := Z.land data 0xFF in
  let n := set_ppu (RefreshOpenBus data (ppu n)) n in
  let p := ppu n in
  match Z.land address 7 with
  | 0 =>
      let r := put sysctrl data (reg p) in
      set_ppu (set_scroll (put basenta (get BaseNTA r) (scroll p)) (set_reg r p)) n
  | 1 => set_ppu (set_reg (put dispctrl data (reg p)) p) n
  | 3 => set_ppu (set_reg (put OAMaddr data (reg p)) p) n
  | 4 =>
      let p := set_OAM (upd (OAM p) (get OAMaddr (reg p)) data) p in
      set_ppu (set_reg (incr OAMaddr (reg p)) p) n
  | 5 =>
      let sc := if offset_toggle_ p
                then put ycoarse (Z.shiftr data 3) (put yfine (Z.land data 7) (scroll p))
                else put xscroll data (scroll p) in
      set_ppu (set_offset_toggle_ (negb (offset_toggle_ p)) (set_scroll sc p)) n
  | 6 =>
      let p :=
        if offset_toggle_ p then
          let sc := put vaddrlo data (scroll p) in
          set_vaddr (put raw (get raw sc) (vaddr p)) (set_scroll sc p)
        else set_scroll (put vaddrhi (Z.land data 0x3F) (scroll p)) p in
      set_ppu (set_offset_toggle_ (negb (offset_toggle_ p)) p) n
  | 7 =>
      let t := mmap (pak n) (get raw (vaddr p)) in
      let n := store t data n in
      let n := set_ppu_with (RefreshOpenBus (load n t)) n in
      set_ppu_with vaddr_advance n
  | _ => n
  end.

(** ** Background and sprite pipelines: [Ppu::rendering_tick] *)

(** [0x10FFFF & (1u << (x>>4))]: true for x in 0..255 and 320..335. *)
Definition tile_decode_mode (x : Z) : bool :=
  negb (Z.land 0x10FFFF (Z.shiftl 1 (Z.shiftr x 4)) =? 0).

(** The three swap-mask stages of phase 7. *)
Definition interleave (p : Z) : Z :=
  let p := Z.lor (Z.lor (Z.land p 0xF00F) (Z.shiftr (Z.land p 0x0F00) 4))
                 (Z.shiftl (Z.land p 0x00F0) 4) in
  let p := Z.lor (Z.lor (Z.land p 0xC3C3) (Z.shiftr (Z.land p 0x3030) 2))
                 (Z.shiftl (Z.land p 0x0C0C) 2) in
  Z.lor (Z.lor (Z.land p 0x9999) (Z.shiftr (Z.land p 0x4444) 1))
        (Z.shiftl (Z.land p 0x2222) 1).

Definition u32 (v : Z) : Z := v mod 2 ^ 32.

Section RenderingTick.
Variable g : Gamepak.
(** [mmap(i)] as an rvalue inside [rendering_tick]. *)
Let rd (p : Ppu) (i : Z) : Z := loadp p g (mmap g i).

(** [case 0] of the fetch switch (also reached from [case 2] by
    fall-through). *)
Definition fetch_nametable (p : Ppu) : Ppu :=
  let p := set_ioaddr (0x2000 + Z.land (get raw (vaddr p)) 0xFFF) p in
  let p := if x p =? 0 then
             let p := set_sproutpos 0 (set_sprinpos 0 p) in
             if flag ShowSP (reg p) then set_reg (put OAMaddr 0 (reg p)) p else p
           else p in
  if negb (flag ShowBG (reg p)) then p else
  let p := if (x p =? 304) && (scanline p =? -1)
           then set_vaddr (put raw (get raw (scroll p)) (vaddr p)) p else p in
  if x p =? 256 then
    let v := put xcoarse (get xcoarse (scroll p)) (vaddr p) in
    let v := put basenta_h (get basenta_h (scroll p)) v in
    set_sprrenpos 0 (set_vaddr v p)
  else p.

(** [case 1]: name table access; push the current tile into the shift
    registers. *)
Definition nametable_access (p : Ppu) : Ppu :=
  let p := if (x p =? 337) && (scanline p =? -1) && even_odd_toggle p
              && flag ShowBG (reg p)
              && (match mode_ p with NTSC => true | PAL => false end)
           then set_scanline_end 340 p else p in
  let p := set_pat_addr (0x1000 * get BGaddr (reg p) + 16 * rd p (ioaddr p)
                         + get yfine (vaddr p)) p in
  if negb (tile_decode_mode (x p)) then p else
  let p := set_bg_shift_pat (u32 (Z.shiftr (bg_shift_pat p) 16 + 0x00010000 * tilepat p)) p in
  set_bg_shift_attr (u32 (Z.shiftr (bg_shift_attr p) 16 + 0x55550000 * tileattr p)) p.

(** [case 3] in tile-decode mode: attribute table access, then go to the
    next tile horizontally (and at x = 251 vertically). *)
Definition next_tile_vaddr (xx : Z) (v : Z) : Z :=
  let v := incr xcoarse v in
  let v := if get xcoarse v =? 0 then put basenta_h (1 - get basenta_h v) v else v in
  if xx =? 251 then
    let v := incr yfine v in
    if get yfine v =? 0 then
      let v := incr ycoarse v in
      if get ycoarse v =? 30
      then put basenta_v (1 - get basenta_v v) (put ycoarse 0 v)
      else v
    else v
  else v.

Definition attribute_access (p : Ppu) : Ppu :=
  let v := vaddr p in
  let sh := Z.land (get xcoarse v) 2 + 2 * Z.land (get ycoarse v) 2 in
  let p := set_tileattr (Z.land (Z.shiftr (rd p (ioaddr p)) sh) 3) p in
  set_vaddr (next_tile_vaddr (x p) v) p.

(** [case 3] outside tile-decode mode, when [sprrenpos < sproutpos]: select
    the sprite pattern instead of the background pattern. *)
Definition sprite_pattern_select (p : Ppu) : Ppu :=
  let k := Z.land (sprrenpos p) 7 in
  let o := OAM2 p k in
  let p := set_OAM3 (upd (OAM3 p) k o) p in
  let yy := u32 (scanline p - Sprite.y o) in
  let big := flag SPsize (reg p) in
  let yy := if Z.land (Sprite.attr o) 0x80 =? 0 then yy
            else Z.lxor yy (if big then 15 else 7) in
  let pa := 0x1000 * (if big then Z.land (Sprite.index o) 1 else get SPaddr (reg p)) in
  let pa := pa + 0x10 * (if big then Z.land (Sprite.index o) 0xFE
                         else Z.land (Sprite.index o) 0xFF) in
  let pa := pa + Z.land yy 7 + Z.land yy 8 * 2 in
  set_pat_addr pa p.

(** [case 7]: interleave the bits of the two pattern bytes; when decoding
    sprites, save the sprite graphics and move to the next sprite. *)
Definition pattern_high (p : Ppu) : Ppu :=
  let pv := Z.lor (tilepat p) (Z.shiftl (rd p (Z.lor (pat_addr p) 8)) 8) in
  let p := set_tilepat (Z.land (interleave pv) 0xFFFF) p in
  if negb (tile_decode_mode (x p)) && (sprrenpos p <? sproutpos p) then
    let k := Z.land (sprrenpos p) 7 in
    let p := set_OAM3 (upd (OAM3 p) k (Sprite.set_pattern (tilepat p) (OAM3 p k))) p in
    set_sprrenpos (sprrenpos p + 1) p
  else p.

(** The fetch switch [switch(x % 8)], with the fall-through from [case 2]
    into [case 0] outside tile-decode mode. *)
Definition fetch_phase (p : Ppu) : Ppu :=
  let decode := tile_decode_mode (x p) in
  match x p mod 8 with
  | 2 =>
      let v := vaddr p in
      let p := set_ioaddr (0x23C0 + 0x400 * get basenta v + 8 * (get ycoarse v / 4)
                           + get xcoarse v / 4) p in
      if decode then p else fetch_nametable p
  | 0 => fetch_nametable p
  | 1 => nametable_access p
  | 3 =>
      if decode then attribute_access p
      else if sprrenpos p <? sproutpos p then sprite_pattern_select p
      else p
  | 5 => set_tilepat (rd p (Z.lor (pat_addr p) 0)) p
  | 7 => pattern_high p
  | _ => p
  end.

(** Assign one field of [OAM2[sproutpos]] when [sproutpos < 8]. *)
Definition publish (f : Z -> Sprite.t -> Sprite.t) (v : Z) (p : Ppu) : Ppu :=
  if sproutpos p <? 8
  then set_OAM2 (upd (OAM2 p) (sproutpos p) (f v (OAM2 p (sproutpos p)))) p
  else p.

(** The sprite-evaluation switch. *)
Definition sprite_eval (p : Ppu) : Ppu :=
  let '(sel, p) :=
    if (64 <=? x p) && (x p <? 256) && (x p mod 2 =? 1)
    then (Z.land (get OAMaddr (reg p)) 3, set_reg (incr OAMaddr (reg p)) p)
    else (4, p) in
  match sel with
  | 0 =>
      if 64 <=? sprinpos p then set_reg (put OAMaddr 0 (reg p)) p else
      let p := set_sprinpos (sprinpos p + 1) p in
      let p := publish Sprite.set_y (sprtmp p) p in
      let p := publish Sprite.set_sprindex (get OAMindex (reg p)) p in
      let y1 := sprtmp p in
      let y2 := sprtmp p + (if flag SPsize (reg p) then 16 else 8) in
      if negb ((y1 <=? scanline p) && (scanline p <? y2))
      then set_reg (put OAMaddr (if negb (sprinpos p =? 2) then get OAMaddr (reg p) + 3 else 8)
                        (reg p)) p
      else p
  | 1 => publish Sprite.set_index (sprtmp p) p
  | 2 => publish Sprite.set_attr (sprtmp p) p
  | 3 =>
      let p := publish Sprite.set_x (sprtmp p) p in
      let p := if sproutpos p <? 8 then set_sproutpos (sproutpos p + 1) p
               else set_reg (put SPoverflow 1 (reg p)) p in
      if sprinpos p =? 2 then set_reg (put OAMaddr 8 (reg p)) p else p
  | _ => set_sprtmp (OAM p (get OAMaddr (reg p))) p
  end.

Definition rendering_tick (p : Ppu) : Ppu := sprite_eval (fetch_phase p).
End RenderingTick.

(** ** Pixel compositor: [Ppu::render_pixel] *)

(** Host capabilities used by the beat: [IO::PutPixel] and the mapper's
    [PpuTick] hook (modelled as acting on the cartridge state only). *)
Record Host := mkHost {
  put_pixel : Z -> Z -> Z -> Z -> Z;
  mapper_ppu_tick : Gamepak -> Gamepak
}.

(** The 2-bit pixel number [k] of an interleaved pattern:
    [(pattern >> (k*2)) & 3], as the compositor reads it. *)
Definition pattern_pixel (pat k : Z) : Z := Z.land (Z.shiftr pat (k * 2)) 3.

(** The loop [for(sno = 0; sno < sprrenpos; ++sno)] over [OAM3]; returns the
    pixel, the attribute and whether sprite-0 hit was registered. *)
Fixpoint sprite_overlay (o3 : Z -> Sprite.t) (xx sno : Z) (fuel : nat)
         (pixel attr : Z) (hit : bool) : Z * Z * bool :=
  match fuel with
  | O => (pixel, attr, hit)
  | S fuel =>
      let s := o3 sno in
      let xdiff := u32 (xx - Sprite.x s) in
      if 8 <=? xdiff then sprite_overlay o3 xx (sno + 1) fuel pixel attr hit else
      let xdiff := if Z.land (Sprite.attr s) 0x40 =? 0 then 7 - xdiff else xdiff in
      let spritepixel := pattern_pixel (Sprite.pattern s) xdiff in
      if spritepixel =? 0 then sprite_overlay o3 xx (sno + 1) fuel pixel attr hit else
      let hit := hit || ((xx <? 255) && negb (pixel =? 0) && (Sprite.sprindex s =? 0)) in
      if (Z.land (Sprite.attr s) 0x20 =? 0) || (pixel =? 0)
      then (spritepixel, Z.land (Sprite.attr s) 3 + 4, hit)
      else (pixel, attr, hit)
  end.

(** The body of [render_pixel]: the updated PPU, the frame-buffer index and
    the ARGB value stored there. *)
Definition compose_pixel (h : Host) (p : Ppu) : Ppu * Z * Z :=
  let r := reg p in
  let edge := Z.land (x p + 8) 0xFF <? 16 in
  let showbg := flag ShowBG r && (negb edge || flag ShowBG8 r) in
  let showsp := flag ShowSP r && (negb edge || flag ShowSP8 r) in
  let fx := get xfine (scroll p) in
  let x7 := Z.land (x p) 7 in
  let xpos := 15 - Z.land (x7 + fx + 8 * (if x7 =? 0 then 0 else 1)) 15 in
  let '(pixel, attr) :=
    if showbg then
      let pixel := pattern_pixel (bg_shift_pat p) xpos in
      (pixel, Z.land (Z.shiftr (bg_shift_attr p) (xpos * 2)) (if pixel =? 0 then 0 else 3))
    else if (Z.land (get raw (vaddr p)) 0x3F00 =? 0x3F00) && negb (flag ShowBGSP r)
    then (get raw (vaddr p), 0)
    else (0, 0) in
  let '(pixel, attr, hit) :=
    if showsp
    then sprite_overlay (OAM3 p) (x p) 0 (Z.to_nat (sprrenpos p)) pixel attr false
    else (pixel, attr, false) in
  let p := if hit then set_reg (put SP0hit 1 r) p else p in
  let pixel := Z.land (palette p (Z.land (attr * 4 + pixel) 0x1F))
                      (if flag Grayscale (reg p) then 0x30 else 0x3F) in
  let pal_pixel := put_pixel h (x p) (scanline p)
                     (Z.lor pixel (Z.shiftl (get EmpRGB (reg p)) 6)) (cycle_counter p) in
  (p, Z.shiftl (scanline p) 8 + x p, Z.lor 0xff000000 pal_pixel).

Definition render_pixel (h : Host) (n : Nes) : Nes :=
  let c := compose_pixel h (ppu n) in
  set_frame_buffer (upd (frame_buffer n) (snd (fst c)) (snd c)) (set_ppu (fst (fst c)) n).

(** ** Beat driver: [Ppu::TickNTSC], [Ppu::TickPAL] *)

(** "Set/clear vblank where needed". *)
Definition vblank_service (n : Nes) : Nes :=
  let p := ppu n in
  let n :=
    if VBlankState p =? -5 then set_ppu (set_reg (put status 0 (reg p)) p) n
    else if VBlankState p =? 2 then set_ppu (set_reg (put InVBlank 1 (reg p)) p) n
    else if VBlankState p =? 0
    then set_nmi (flag InVBlank (reg p) && flag NMIenabled (reg p)) n
    else n in
  let p := ppu n in
  let p := if VBlankState p =? 0 then p
           else set_VBlankState (VBlankState p + (if VBlankState p <? 0 then 1 else -1)) p in
  set_ppu p n.

(** [if(open_bus_decay_timer) if(!--open_bus_decay_timer) open_bus_ = 0;] *)
Definition open_bus_decay (p : Ppu) : Ppu :=
  if open_bus_decay_timer p =? 0 then p else
  let p := set_open_bus_decay_timer (open_bus_decay_timer p - 1) p in
  if open_bus_decay_timer p =? 0 then set_open_bus_ 0 p else p.

Definition graphics (h : Host) (n : Nes) : Nes :=
  if scanline (ppu n) <? 240 then
    let n := if flag ShowBGSP (reg (ppu n))
             then set_ppu (rendering_tick (pak n) (ppu n)) n else n in
    if (0 <=? scanline (ppu n)) && (x (ppu n) <? 256) then render_pixel h n else n
  else n.

(** [if(++x == scanline_end) ...]: [last] is the scanline number that
    wraps to the pre-render line (261 for NTSC, 311 for PAL). *)
Definition advance_column (last : Z) (n : Nes) : Nes :=
  let p := ppu n in
  let p := set_x (x p + 1) p in
  if x p =? scanline_end p then
    let n := if scanline p =? 239 then set_events (events n ++ [OnRender]) n else n in
    let p := set_x 0 (set_scanline_end 341 p) in
    let p := set_scanline (scanline p + 1) p in
    if scanline p =? last then
      set_ppu (set_VBlankState (-5)
                 (set_even_odd_toggle (negb (even_odd_toggle p)) (set_scanline (-1) p))) n
    else if scanline p =? 241 then
      set_events (events n ++ [OnVerticalBlank]) (set_ppu (set_VBlankState 2 p) n)
    else set_ppu p n
  else set_ppu p n.

Definition end_of_beat (h : Host) (n : Nes) : Nes :=
  set_ppu_with (fun p => set_cycles (cycles p + 1) p)
    (set_pak (mapper_ppu_tick h (pak n)) n).

(** The sprite-0 hit "timing hack" of [TickNTSC]. *)
Definition sp0_hack (p : Ppu) : Ppu :=
  if (scanline p =? 260) && (328 <=? x p) && (x p <=? 339)
  then set_reg (put SP0hit 0 (reg p)) p else p.

Definition beat_ntsc (h : Host) (n : Nes) : Nes :=
  let n := vblank_service n in
  let n := set_ppu_with open_bus_decay n in
  let n := graphics h n in
  let n := set_ppu_with (fun p =>
             let c := cycle_counter p + 1 in
             set_cycle_counter (if c =? 3 then 0 else c) p) n in
  let n := set_ppu_with sp0_hack n in
  let n := advance_column 261 n in
  end_of_beat h n.

Definition beat_pal (h : Host) (n : Nes) : Nes :=
  let n := vblank_service n in
  let n := set_ppu_with open_bus_decay n in
  let n := graphics h n in
  let n := advance_column 311 n in
  end_of_beat h n.

Fixpoint beats (b : Host -> Nes -> Nes) (h : Host) (k : nat) (n : Nes) : Nes :=
  match k with O => n | S k => beats b h k (b h n) end.

Definition TickNTSC (h : Host) (n : Nes) : Nes := beats beat_ntsc h 3 n.

Definition TickPAL (h : Host) (n : Nes) : Nes :=
  let tick_count := if cpu_cycles n mod 5 =? 4 then 4%nat else 3%nat in
  beats beat_pal h tick_count n.

Definition Tick (h : Host) (n : Nes) : Nes :=
  match mode_ (ppu n) with NTSC => TickNTSC h n | PAL => TickPAL h n end.

(** ** Lifecycle: [Ppu::Initialize] and [Ppu::Power] *)

Definition Initialize (p : Ppu) : Ppu :=
  let p := set_x 0 (set_scanline 241 p) in
  let p := set_scanline_end 341 p in
  let p := set_VBlankState 0 p in
  let p := set_cycle_counter 0 p in
  let p := set_read_buffer 0 p in
  let p := set_open_bus_ 0 p in
  let p := set_open_bus_decay_timer 0 p in
  let p := set_even_odd_toggle false p in
  let p := set_offset_toggle_ false p in
  set_reg (put value 0 (reg p)) p.

Definition power_palette : list Z :=
  [0x09;0x01;0x00;0x01;0x00;0x02;0x02;0x0D;0x08;0x10;0x08;0x24;0x00;0x00;0x04;0x2C;
   0x09;0x01;0x34;0x03;0x00;0x04;0x00;0x14;0x08;0x3A;0x00;0x02;0x00;0x20;0x2C;0x08].

Definition Power (n : Nes) : Nes :=
  let p := ppu n in
  let p := set_cycles 0 p in
  let r := put sysctrl 0 (reg p) in
  let r := put dispctrl (Z.land (get dispctrl r) 0x6) r in
  let r := put status (Z.land (get status r) 0x1F) r in
  let r := put OAMaddr 0 r in
  let p := set_reg r p in
  let p := set_offset_toggle_ false p in
  let p := set_scroll (put raw 0 (scroll p)) p in
  let p := set_vaddr (put raw 0 (vaddr p)) p in
  let p := set_vaddr (put vaddrlo 0 (put vaddrhi 0 (vaddr p))) p in
  let p := set_read_buffer 0 p in
  let g := pak n in
  let g := mkGamepak (chr_banks g) (chr g) (Nta g)
             (fun a => if (0 <=? a) && (a <? 0x1000) then 0xFF else NRAM g a) in
  let p := set_palette (fun k => if (0 <=? k) && (k <? 32)
                                 then nth (Z.to_nat k) power_palette 0
                                 else palette p k) p in
  set_pak g (set_ppu p n).

(** [Ppu::Reset]: as [Power], except that OAMaddr and the VRAM address are kept and nametable RAM is zeroed. *)
Definition Reset (n : Nes) : Nes :=
  let p := ppu n in
  let p := set_cycles 0 p in
  let r := put sysctrl 0 (reg p) in
  let r := put dispctrl (Z.land (get dispctrl r) 0x6) r in
  let r := put status (Z.land (get status r) 0x1F) r in
  let p := set_reg r p in
  let p := set_offset_toggle_ false p in
  let p := set_scroll (put raw 0 (scroll p)) p in
  let p := set_read_buffer 0 p in
  let p := set_palette (fun k => if (0 <=? k) && (k <? 32)
                                 then nth (Z.to_nat k) power_palette 0
                                 else palette p k) p in
  let g := pak n in
  let g := mkGamepak (chr_banks g) (chr g) (Nta g)
             (fun a => if (0 <=? a) && (a <? 0x1000) then 0 else NRAM g a) in
  set_pak g (set_ppu p n).

(** ** Concrete configurations used by the examples *)

Definition sprite0 : Sprite.t := Sprite.mk 0 0 0 0 0 0.

(** Vertical mirroring: nametable slots 0/2 and 1/3 share a page. *)
Definition pak0 : Gamepak :=
  mkGamepak (fun k => Z.shiftl k 10) (fun _ => 0)
            (fun k => Z.shiftl (Z.land k 1) 10) (fun _ => 0).

Definition ppu0 : Ppu :=
  mkPpu 0 0 0 false 0 0 0 0 241 0 341 0 false 0
        (fun _ => 0) (fun _ => 0) (fun _ => sprite0) (fun _ => sprite0)
        0 0 0 0 0 0 0 0 0 0 NTSC.

Definition nes0 : Nes := mkNes ppu0 pak0 false 0 (fun _ => 0) [].

Definition host0 : Host := mkHost (fun _ _ idx _ => idx) (fun g => g).

Definition power_on : Nes := Power (set_ppu_with Initialize nes0).

(** Run a sequence of register writes. *)
Definition writes (ws : list (Z * Z)) (n : Nes) : Nes :=
  fold_left (fun n '(a, b) => Write a b n) ws n.

(** Decide a property of every integer in [z, z + n) / in [0, n). *)
Fixpoint forall_from (n : nat) (z : Z) (f : Z -> bool) : bool :=
  match n with
  | O => true
  | S k => f z && forall_from k (z + 1) f
  end.

Definition forall_below (n : Z) (f : Z -> bool) : bool := forall_from (Z.to_nat n) 0 f.

(** Splitting an interleaved pattern back into its two bit planes, pixel
    by pixel as the compositor reads it: bit 0 of pixel [k] is bit [k] of
    the low plane, bit 1 is bit [k] of the high plane. *)
Fixpoint planes (pat : Z) (k : nat) : Z * Z :=
  match k with
  | O => (0, 0)
  | S k' =>
      let '(lo, hi) := planes pat k' in
      let px := pattern_pixel pat (Z.of_nat k') in
      (Z.lor lo (Z.shiftl (Z.land px 1) (Z.of_nat k')),
       Z.lor hi (Z.shiftl (Z.shiftr px 1) (Z.of_nat k')))
  end.

Definition deinterleave (pat : Z) : Z * Z := planes pat 8.

Definition interleave_ok (v : Z) : bool :=
  let lo := v mod 256 in
  let hi := v / 256 in
  let p := interleave (Z.lor lo (Z.shiftl hi 8)) in
  (0 <=? p) && (p <? 2 ^ 16) &&
  forall_below 8 (fun k => Bool.eqb (Z.testbit p (2 * k)) (Z.testbit lo k) &&
                            Bool.eqb (Z.testbit p (2 * k + 1)) (Z.testbit hi k)) &&
  (fst (deinterleave p) =? lo) && (snd (deinterleave p) =? hi).

(** ** Frames and invariants used by the properties *)

(** The low five bits of the status byte are not named by any field. *)
Definition status_low_clear (p : Ppu) : Prop := Z.land (get status (reg p)) 0x1F = 0.

(** What one step of the rendering pipeline leaves alone: the open-bus
    latch and its timer, the beam position and the sprite-0 hit flag. *)
Definition pipeline_frame (p q : Ppu) : Prop :=
  open_bus_ q = open_bus_ p /\ open_bus_decay_timer q = open_bus_decay_timer p /\
  x q = x p /\ scanline q = scanline p /\ get SP0hit (reg q) = get SP0hit (reg p).

(** The ranges of the sprite counters of [rendering_tick]. *)
Definition counters_ok (p : Ppu) : Prop :=
  0 <= sproutpos p <= 8 /\ 0 <= sprinpos p <= 64 /\ 0 <= sprrenpos p <= 8.

(** The beam positions where [TickNTSC] applies its sprite-0 hit hack. *)
Definition in_sp0_window (p : Ppu) : bool :=
  (scanline p =? 260) && (328 <=? x p) && (x p <=? 339).

(** The state reached from power-on, with NMI enabled by a write of 0x80 to
    port 0, by the Tick during which the next vblank starts: scanline 241,
    x = 1, VBlankState 1, InVBlank set. *)
Definition vblank_entry : Nes := Nat.iter (Z.to_nat 29781) (Tick host0) (Write 0x2000 0x80 power_on).
(** The state reached from power-on, with rendering enabled by a write of
    0x18 to port 1, after 2551 Ticks: scanline 1, x = 152, in the middle of
    sprite evaluation. *)
Definition rendering_run : Nes := Nat.iter 2551 (Tick host0) (Write 0x2001 0x18 power_on).
(** A state with the sprite-0 hit flag set, at scanline [line], column [col]. *)
Definition sp0_at (line col : Z) : Nes :=
  set_ppu (set_x col (set_scanline line (set_reg (put SP0hit 1 0) ppu0))) nes0.

(** What a step of the beat leaves alone: the NMI line, the register word,
    the open-bus latch and its timer, and the sprite counters. *)
Definition quiet (n m : Nes) : Prop :=
  nmi m = nmi n /\ reg (ppu m) = reg (ppu n) /\
  open_bus_ (ppu m) = open_bus_ (ppu n) /\
  open_bus_decay_timer (ppu m) = open_bus_decay_timer (ppu n) /\
  sproutpos (ppu m) = sproutpos (ppu n) /\ sprinpos (ppu m) = sprinpos (ppu n) /\
  sprrenpos (ppu m) = sprrenpos (ppu n).

(** Two PPU states with the same sprite counters. *)
Definition same_ctr (p q : Ppu) : Prop :=
  sproutpos q = sproutpos p /\ sprinpos q = sprinpos p /\ sprrenpos q = sprrenpos p.

(** The first three steps of a beat: vblank service, open-bus decay,
    rendering. *)
Definition pre_graphics (h : Host) (n : Nes) : Nes :=
  graphics h (set_ppu_with open_bus_decay (vblank_service n)).

(** ** Further frames and invariants *)

(** Equality test on memory locations. *)
Definition loc_eqb (l l' : Loc) : bool :=
  match l, l' with
  | LPalette k, LPalette k' => k =? k'
  | LChr a, LChr a' => a =? a'
  | LNta a, LNta a' => a =? a'
  | _, _ => false
  end.

(** Check of the palette mirroring at one address of [pak0]. *)
Definition palette_mirror_ok (a : Z) : bool :=
  loc_eqb (mmap pak0 a) (mmap pak0 (0x3F00 + Z.land a 0x1F)) &&
  match mmap pak0 a with LPalette k => (0 <=? k) && (k <? 32) | _ => false end.

(** Check of the decode window of [tile_decode_mode] at one column. *)
Definition tile_decode_ok (x : Z) : bool :=
  Bool.eqb (tile_decode_mode x) ((0 <=? x) && ((x <? 256) || ((320 <=? x) && (x <? 336)))).

(** What [rendering_tick] leaves alone. *)
Definition reg_keeps (w w' : Z) : Prop :=
  forall f : RegBit, 0 <= rb_off f -> 0 <= rb_len f ->
    rb_off f + rb_len f <= 21 \/ (22 <= rb_off f /\ rb_off f + rb_len f <= 24) ->
    get f w' = get f w.

Definition tick_frame (p q : Ppu) : Prop :=
  reg_keeps (reg p) (reg q) /\
  x q = x p /\ scanline q = scanline p /\ VBlankState q = VBlankState p /\
  cycles q = cycles p /\ cycle_counter q = cycle_counter p /\ mode_ q = mode_ p /\
  even_odd_toggle q = even_odd_toggle p /\ palette q = palette p /\
  (scanline_end q = scanline_end p \/
   (scanline_end q = 340 /\ x p = 337 /\ scanline p = -1)).

(** The step [vblank_service] applies to the VBlank countdown outside its -5 and 2 states: towards zero by one. *)
Definition vbs_step (v : Z) : Z := if v =? 0 then 0 else v + (if v <? 0 then 1 else -1).

(** What the stages of a beat before [advance_column] keep: the beam, the cycle counts, the mode, the toggle, the events, ShowBG, clear low status bits, and every frame-buffer entry except the pixel under the beam. *)
Definition beam_frame (n m : Nes) : Prop :=
  x (ppu m) = x (ppu n) /\ scanline (ppu m) = scanline (ppu n) /\
  (scanline_end (ppu m) = scanline_end (ppu n) \/
   (scanline_end (ppu m) = 340 /\ x (ppu n) = 337 /\ scanline (ppu n) = -1)) /\
  cycles (ppu m) = cycles (ppu n) /\ mode_ (ppu m) = mode_ (ppu n) /\
  even_odd_toggle (ppu m) = even_odd_toggle (ppu n) /\ events m = events n /\
  cpu_cycles m = cpu_cycles n /\
  (bits (reg (ppu n)) 16 5 = 0 -> bits (reg (ppu m)) 16 5 = 0) /\
  get ShowBG (reg (ppu m)) = get ShowBG (reg (ppu n)) /\
  (forall i, frame_buffer m i = frame_buffer n i \/
     (0 <= scanline (ppu n) < 240 /\ x (ppu n) < 256 /\
      i = 256 * scanline (ppu n) + x (ppu n))).

(** The pixel-counter update of [beat_ntsc]. *)
Definition cc_step (p : Ppu) : Ppu :=
  let c := cycle_counter p + 1 in set_cycle_counter (if c =? 3 then 0 else c) p.

(** When the odd-frame skip of [rendering_tick] shortens the pre-render line to 340 columns. *)
Definition skip_cond (p : Ppu) : bool :=
  (x p =? 337) && (scanline p =? -1) && even_odd_toggle p && flag ShowBG (reg p)
  && (match mode_ p with NTSC => true | PAL => false end).

(** The effect of one beat on the beam, the cycle count, the even/odd toggle, the VBlank countdown and the events, read off [advance_column] and [end_of_beat]. *)
Definition beat_spec (last : Z) (n m : Nes) : Prop :=
  let p := ppu n in
  let q := ppu m in
  let sl := scanline p + 1 in
  cycles q = cycles p + 1 /\ mode_ q = mode_ p /\ cpu_cycles m = cpu_cycles n /\
  (if x p + 1 =? scanline_end p then
     x q = 0 /\ scanline_end q = 341 /\
     scanline q = (if sl =? last then -1 else sl) /\
     even_odd_toggle q =
       (if sl =? last then negb (even_odd_toggle p) else even_odd_toggle p) /\
     VBlankState q =
       (if sl =? last then -5 else if sl =? 241 then 2 else vbs_step (VBlankState p)) /\
     events m = events n ++ (if scanline p =? 239 then [OnRender] else []) ++
                (if negb (sl =? last) && (sl =? 241) then [OnVerticalBlank] else [])
   else
     x q = x p + 1 /\ scanline q = scanline p /\
     scanline_end q = (if skip_cond p then 340 else scanline_end p) /\
     even_odd_toggle q = even_odd_toggle p /\
     VBlankState q = vbs_step (VBlankState p) /\ events m = events n).

(** The stages of [beat_ntsc] before [advance_column]. *)
Definition ntsc_mid (h : Host) (n : Nes) : Nes :=
  set_ppu_with sp0_hack (set_ppu_with cc_step (pre_graphics h n)).

(** The line after the last one of a frame, where [advance_column] wraps to -1. *)
Definition last_line (m : Mode) : Z := match m with NTSC => 261 | PAL => 311 end.

(** The beam is inside its line and the frame. *)
Definition beam_ok (last : Z) (p : Ppu) : Prop :=
  0 <= x p < scanline_end p /\ 340 <= scanline_end p <= 341 /\ -1 <= scanline p < last.

(** The PPU invariant: the beam in range, the VBlank countdown in -5..2, the pixel counter in 0..2 and the low five status bits clear. *)
Definition ppu_inv (p : Ppu) : Prop :=
  beam_ok (last_line (mode_ p)) p /\ -5 <= VBlankState p <= 2 /\
  0 <= cycle_counter p <= 2 /\ status_low_clear p.

(** What register reads and writes, [Power] and [Reset] keep of the fields [ppu_inv] constrains. *)
Definition inv_frame (p q : Ppu) : Prop :=
  x q = x p /\ scanline q = scanline p /\ scanline_end q = scanline_end p /\
  mode_ q = mode_ p /\ cycle_counter q = cycle_counter p /\
  bits (reg q) 16 5 = bits (reg p) 16 5 /\
  (VBlankState q = VBlankState p \/ VBlankState q = 0).

(** The index is the pixel under the beam, on a visible line below column 256. *)
Definition beam_pixel (n : Nes) (i : Z) : Prop :=
  0 <= scanline (ppu n) < 240 /\ x (ppu n) < 256 /\ i = 256 * scanline (ppu n) + x (ppu n).

(** * Properties *)

(** ** Bitfield lemmas *)

Lemma testbit_get (f : RegBit) (w i : Z) :
  0 <= rb_off f -> 0 <= rb_len f -> 0 <= i ->
  Z.testbit (get f w) i = (i <? rb_len f) && Z.testbit w (i + rb_off f).
Proof.
  intros Ho Hl Hi. unfold get, bits.
  rewrite Z.land_spec, Z.shiftr_spec, Z.testbit_ones_nonneg by lia.
  apply andb_comm.
Qed.

Lemma testbit_put (f : RegBit) (v w i : Z) :
  0 <= rb_off f -> 0 <= rb_len f -> 0 <= i ->
  Z.testbit (put f v w) i =
  if (rb_off f <=? i) && (i <? rb_off f + rb_len f)
  then Z.testbit v (i - rb_off f) else Z.testbit w i.
Proof.
  intros Ho Hl Hi. unfold put, setbits.
  rewrite Z.lor_spec, Z.land_spec, Z.lnot_spec by lia.
  destruct (Z.leb_spec (rb_off f) i) as [Hle|Hlt].
  - rewrite !Z.shiftl_spec, Z.land_spec, Z.testbit_ones_nonneg by lia.
    destruct (Z.ltb_spec (i - rb_off f) (rb_len f));
      destruct (Z.ltb_spec i (rb_off f + rb_len f)); try lia; cbn;
      destruct (Z.testbit w i), (Z.testbit v (i - rb_off f)); reflexivity.
  - rewrite !Z.shiftl_spec by lia.
    rewrite (Z.testbit_neg_r (Z.ones _)) by lia.
    rewrite (Z.testbit_neg_r (Z.land _ _)) by lia.
    cbn. destruct (Z.testbit w i); reflexivity.
Qed.

Lemma get_put_same (f : RegBit) (v w : Z) :
  0 <= rb_off f -> 0 <= rb_len f -> get f (put f v w) = v mod 2 ^ rb_len f.
Proof.
  intros Ho Hl. apply Z.bits_inj'. intros i Hi.
  rewrite testbit_get, testbit_put, Z.testbit_mod_pow2 by lia.
  destruct (Z.ltb_spec i (rb_len f)); cbn; [|reflexivity].
  destruct (Z.leb_spec (rb_off f) (i + rb_off f)); try lia.
  destruct (Z.ltb_spec (i + rb_off f) (rb_off f + rb_len f)); try lia. cbn.
  f_equal. lia.
Qed.

(** Fields that do not overlap in the word are independent. *)
Lemma get_put_other (f g : RegBit) (v w : Z) :
  0 <= rb_off f -> 0 <= rb_len f -> 0 <= rb_off g -> 0 <= rb_len g ->
  rb_off f + rb_len f <= rb_off g \/ rb_off g + rb_len g <= rb_off f ->
  get g (put f v w) = get g w.
Proof.
  intros Ho Hl Ho' Hl' Hd. apply Z.bits_inj'. intros i Hi.
  rewrite !testbit_get, testbit_put by lia.
  destruct (Z.ltb_spec i (rb_len g)); cbn; [|reflexivity].
  destruct (Z.leb_spec (rb_off f) (i + rb_off g));
    destruct (Z.ltb_spec (i + rb_off g) (rb_off f + rb_len f)); cbn; try reflexivity; lia.
Qed.

Lemma get_range (f : RegBit) (w : Z) :
  0 <= rb_len f -> 0 <= get f w < 2 ^ rb_len f.
Proof.
  intros Hl. unfold get, bits. rewrite Z.land_ones by lia.
  apply Z.mod_pos_bound. apply Z.pow_pos_nonneg; lia.
Qed.

Lemma byte_land (b : Z) : 0 <= b < 256 -> Z.land b 0xFF = b.
Proof.
  intros Hb. change 0xFF with (Z.ones 8). rewrite Z.land_ones by lia.
  apply Z.mod_small. change (2 ^ 8) with 256. lia.
Qed.

(** The address an auto-increment leaves in [vaddr.raw]. *)
Lemma vaddr_advance_raw (p : Ppu) :
  get raw (vaddr (vaddr_advance p))
  = (get raw (vaddr p) + (if flag Inc (reg p) then 32 else 1)) mod 2 ^ 15.
Proof. unfold vaddr_advance. cbn [vaddr set_vaddr]. apply get_put_same; cbn; lia. Qed.

(** Reduce record projections of the setters. *)
Ltac st := cbn [
  reg scroll vaddr offset_toggle_ read_buffer open_bus_ open_bus_decay_timer 
  VBlankState scanline x scanline_end cycle_counter even_odd_toggle cycles 
  palette OAM OAM2 OAM3 sprinpos sproutpos sprrenpos sprtmp pat_addr ioaddr 
  tilepat tileattr bg_shift_pat bg_shift_attr mode_ set_reg set_scroll 
  set_vaddr set_offset_toggle_ set_read_buffer set_open_bus_ 
  set_open_bus_decay_timer set_VBlankState set_scanline set_x 
  set_scanline_end set_cycle_counter set_even_odd_toggle set_cycles 
  set_palette set_OAM set_OAM2 set_OAM3 set_sprinpos set_sproutpos 
  set_sprrenpos set_sprtmp set_pat_addr set_ioaddr set_tilepat set_tileattr 
  set_bg_shift_pat set_bg_shift_attr set_mode_ ppu pak nmi cpu_cycles 
  frame_buffer events set_ppu set_pak set_nmi set_cpu_cycles 
  set_frame_buffer set_events set_ppu_with fst snd RefreshOpenBus] in *.

(** Split on every integer comparison in the goal. *)
Ltac cmp_cases :=
  repeat match goal with
  | |- context [?a <=? ?b] => destruct (Z.leb_spec a b); try lia
  | |- context [?a <? ?b] => destruct (Z.ltb_spec a b); try lia
  end; cbn [andb orb negb].

(** The two-bit-field lemmas instantiated on the fixed layout. *)
Ltac unfold_fields := cbv [Regtype.value sysctrl dispctrl status OAMaddr BaseNTA
  Inc SPaddr BGaddr SPsize SlaveFlag NMIenabled Grayscale ShowBG8 ShowSP8 ShowBG ShowSP
  ShowBGSP EmpRGB SPoverflow SP0hit InVBlank OAMdata OAMindex raw xscroll xfine xcoarse
  ycoarse basenta basenta_h basenta_v yfine vaddrlo vaddrhi] in *; cbn [rb_off rb_len] in *.
Ltac field_solve := unfold_fields; lia.

Lemma flag_put_same (f : RegBit) (v w : Z) :
  0 <= rb_off f -> rb_len f = 1 -> flag f (put f v w) = negb (v mod 2 =? 0).
Proof.
  intros Ho Hl. unfold flag. rewrite get_put_same by lia. rewrite Hl. reflexivity.
Qed.

Lemma status_low_bits (w : Z) :
  Z.land (get status w) 0x1F = bits w 16 5.
Proof.
  apply Z.bits_inj'. intros i Hi. change 0x1F with (Z.ones 5).
  rewrite Z.land_spec, testbit_get, Z.testbit_ones_nonneg by field_solve.
  unfold bits. rewrite Z.land_spec, Z.shiftr_spec, Z.testbit_ones_nonneg by lia.
  cbn [rb_off rb_len status].
  destruct (Z.ltb_spec i 5), (Z.ltb_spec i 8); try lia; cbn;
    destruct (Z.testbit w (i + 16)); reflexivity.
Qed.

Lemma read_status_low (address : Z) (n : Nes) :
  Z.land address 7 = 2 ->
  Z.land (snd (Read address n)) 0x1F
  = Z.lor (Z.land (get status (reg (ppu n))) 0x1F) (Z.land (open_bus_ (ppu n)) 0x1F).
Proof.
  intros H. unfold Read. rewrite H. cbn [snd].
  rewrite Z.land_lor_distr_l, <- Z.land_assoc. reflexivity.
Qed.

(** ** Register reads and writes *)

(** C1: a read of port 2 (status) clears InVBlank and the shared write
    toggle, cancels a pending VBlank raise (VBlankState becomes 0 unless it
    is -5, which is kept), and returns the pre-read status byte merged with
    the low 5 bits of the open-bus latch: its upper 3 bits are the status
    bits, and in every state whose unnamed low status bits are clear (see
    [status_low_clear_Read] and the following lemmas) its low 5 bits are
    those of the latch. *)
Theorem read_status_spec (address : Z) (n : Nes) :
  Z.land address 7 = 2 ->
  let p := ppu n in
  let n' := fst (Read address n) in
  let res := snd (Read address n) in
  flag InVBlank (reg (ppu n')) = false /\
  offset_toggle_ (ppu n') = false /\
  VBlankState (ppu n') = (if VBlankState p =? -5 then -5 else 0) /\
  res = Z.lor (get status (reg p)) (Z.land (open_bus_ p) 0x1F) /\
  Z.shiftr res 5 = Z.shiftr (get status (reg p)) 5 /\
  (status_low_clear p -> Z.land res 0x1F = Z.land (open_bus_ p) 0x1F).
Proof.
  intros H p n' res.
  assert (Hlow := read_status_low address n H).
  subst n' res p. unfold Read in *. rewrite H in *. cbn [fst snd] in *.
  split; [|split; [|split; [|split; [|split]]]].
  - st. destruct (VBlankState (ppu n) =? -5); st;
      rewrite flag_put_same by field_solve; reflexivity.
  - st. destruct (VBlankState (ppu n) =? -5); reflexivity.
  - st. destruct (Z.eqb_spec (VBlankState (ppu n)) (-5)); st; congruence.
  - reflexivity.
  - rewrite Z.shiftr_lor.
    replace (Z.shiftr (Z.land (open_bus_ (ppu n)) 0x1F) 5) with 0.
    + apply Z.lor_0_r.
    + symmetry. apply Z.bits_inj'. intros i Hi.
      rewrite Z.shiftr_spec, Z.land_spec, Z.bits_0 by lia.
      change 0x1F with (Z.ones 5). rewrite Z.testbit_ones_nonneg by lia.
      destruct (Z.ltb_spec (i + 5) 5); [lia|]. apply andb_false_r.
  - unfold status_low_clear. intros Hc. rewrite Hlow, Hc. reflexivity.
Qed.

(** Witness: reading port 2 right after power-on clears InVBlank. *)
Lemma read_status_spec_witness :
  Z.land 0x2002 7 = 2 /\ flag InVBlank (reg (ppu (fst (Read 0x2002 power_on)))) = false.
Proof.
  split; [reflexivity|].
  destruct (read_status_spec 0x2002 power_on eq_refl) as [H _]. exact H.
Defined.

Lemma testbit_small (a k i : Z) : 0 <= a < 2 ^ k -> 0 <= k <= i -> Z.testbit a i = false.
Proof.
  intros Ha Hk. rewrite <- (Z.mod_small a (2 ^ k)) by lia.
  apply Z.mod_pow2_bits_high. lia.
Qed.

(** The two port-6 halves together fill the whole address field. *)
Lemma raw_from_halves (lo h w : Z) :
  0 <= lo < 256 -> 0 <= h < 64 ->
  get raw (put vaddrlo lo (put vaddrhi h w)) = Z.lor (Z.shiftl h 8) lo.
Proof.
  intros Hlo Hh. apply Z.bits_inj'. intros i Hi.
  rewrite testbit_get, !testbit_put, Z.lor_spec, Z.shiftl_spec by field_solve.
  unfold_fields. cmp_cases.
  - rewrite (testbit_small lo 8 i) by (cbn; lia). rewrite orb_false_r. f_equal. lia.
  - rewrite (testbit_small lo 8 i), (testbit_small h 6 (i - 8)) by (cbn; lia). reflexivity.
  - rewrite (Z.testbit_neg_r h) by lia. cbn [orb]. f_equal. lia.
Qed.

(** C2: from a state whose write toggle is clear, two writes of [hi] and
    [lo] to port 6 leave [vaddr.raw = ((hi & 0x3F) << 8) | lo], equal to the
    address field [scroll.raw] of the temporary scroll latch. *)
Theorem vaddr_double_write (a1 a2 hi lo : Z) (n : Nes) :
  Z.land a1 7 = 6 -> Z.land a2 7 = 6 -> 0 <= hi < 256 -> 0 <= lo < 256 ->
  offset_toggle_ (ppu n) = false ->
  let p' := ppu (Write a2 lo (Write a1 hi n)) in
  get raw (vaddr p') = Z.lor (Z.shiftl (Z.land hi 0x3F) 8) lo /\
  get raw (vaddr p') = get raw (scroll p').
Proof.
  intros H1 H2 Hhi Hlo Ht p'. subst p'.
  unfold Write. rewrite H1, H2. do 2 (st; rewrite ?Ht; cbn [negb]). st.
  rewrite !byte_land by lia.
  assert (Hh : 0 <= Z.land hi 0x3F < 64).
  { change 0x3F with (Z.ones 6). rewrite Z.land_ones by lia.
    apply Z.mod_pos_bound. lia. }
  assert (Hr := get_range raw (put vaddrlo lo (put vaddrhi (Z.land hi 0x3F) (scroll (ppu n))))).
  rewrite get_put_same by field_solve. cbn [rb_len raw] in *.
  rewrite Z.mod_small by lia.
  split; [apply raw_from_halves; lia | reflexivity].
Qed.

(** Witness: writing 0x21 then 0x08 to port 6 after power-on. *)
Lemma vaddr_double_write_witness :
  offset_toggle_ (ppu power_on) = false /\
  get raw (vaddr (ppu (Write 0x2006 0x08 (Write 0x2006 0x21 power_on)))) =
  Z.lor (Z.shiftl (Z.land 0x21 0x3F) 8) 0x08.
Proof.
  split; [vm_compute; reflexivity|].
  destruct (vaddr_double_write 0x2006 0x2006 0x21 0x08 power_on eq_refl eq_refl
              ltac:(lia) ltac:(lia) ltac:(vm_compute; reflexivity)) as [H _].
  exact H.
Defined.

Lemma forall_from_spec (n : nat) (z : Z) (f : Z -> bool) :
  forall_from n z f = true -> forall w, z <= w < z + Z.of_nat n -> f w = true.
Proof.
  revert z. induction n as [|k IH]; cbn [forall_from]; intros z Hf w Hw; [lia|].
  apply andb_prop in Hf as [H1 H2].
  destruct (Z.eq_dec w z) as [->|Hne]; [exact H1|].
  apply (IH (z + 1)); [exact H2|lia].
Qed.

Lemma forall_below_spec (n : Z) (f : Z -> bool) :
  forall_below n f = true -> forall w, 0 <= w < n -> f w = true.
Proof.
  intros Hf w Hw. apply (forall_from_spec _ _ _ Hf). rewrite Z2Nat.id; lia.
Qed.

Lemma land_3FFF_idem (a : Z) : Z.land (Z.land a 0x3FFF) 0x3FFF = Z.land a 0x3FFF.
Proof. rewrite <- Z.land_assoc. reflexivity. Qed.

Lemma mmap_mask (g : Gamepak) (a : Z) : mmap g (Z.land a 0x3FFF) = mmap g a.
Proof. unfold mmap. rewrite land_3FFF_idem. reflexivity. Qed.

Lemma land_3FFF_range (a : Z) : 0 <= Z.land a 0x3FFF < 2 ^ 14.
Proof.
  change 0x3FFF with (Z.ones 14). rewrite Z.land_ones by lia.
  apply Z.mod_pos_bound. lia.
Qed.

(** An address the register interface treats as palette
    ([(a & 0x3F00) == 0x3F00]) is mapped to palette RAM. *)
Lemma palette_test_mmap (g : Gamepak) (a : Z) :
  Z.land a 0x3F00 = 0x3F00 -> exists k, mmap g a = LPalette k.
Proof.
  intros H. rewrite <- mmap_mask.
  assert (Hc : forall_below (2 ^ 14) (fun b =>
            negb (Z.land b 0x3F00 =? 0x3F00) || (0x3F00 <=? b)) = true)
    by (vm_compute; reflexivity).
  assert (Hb := forall_below_spec _ _ Hc (Z.land a 0x3FFF)).
  specialize (Hb (land_3FFF_range a)). cbv beta in Hb.
  replace (Z.land (Z.land a 0x3FFF) 0x3F00) with (Z.land a 0x3F00) in Hb
    by (rewrite <- Z.land_assoc; reflexivity).
  rewrite H in Hb. cbn in Hb.
  unfold mmap. rewrite land_3FFF_idem.
  destruct (0x3F00 <=? Z.land a 0x3FFF); [eexists; reflexivity | discriminate].
Qed.

(** C3: a read of port 7 returns the previously latched [read_buffer] and
    reloads it with the VRAM byte at [vaddr] outside palette space; inside
    palette space ([vaddr & 0x3F00 == 0x3F00]) it returns the palette byte's
    low 6 bits merged with the high 2 bits of the open-bus latch and
    reloads [read_buffer] from the nametable byte at [vaddr & 0x2FFF].  In
    both cases [vaddr] advances by 32 or 1 (wrapping in its 15-bit field)
    according to the increment bit, and no memory is written. *)
Theorem read_data_spec (address : Z) (n : Nes) :
  Z.land address 7 = 7 ->
  let p := ppu n in
  let a := get raw (vaddr p) in
  let n' := fst (Read address n) in
  let res := snd (Read address n) in
  (if Z.land a 0x3F00 =? 0x3F00 then
     (exists k, mmap (pak n) a = LPalette k /\
        res = Z.lor (Z.land (open_bus_ p) 0xC0) (Z.land (palette p k) 0x3F)) /\
     read_buffer (ppu n') = vram n (Z.land a 0x2FFF)
   else res = read_buffer p /\ read_buffer (ppu n') = vram n a) /\
  get raw (vaddr (ppu n')) = (a + (if flag Inc (reg p) then 32 else 1)) mod 2 ^ 15 /\
  pak n' = pak n /\ palette (ppu n') = palette p.
Proof.
  intros H p a n' res. subst p a n' res.
  unfold Read. rewrite H.
  destruct (Z.eqb_spec (Z.land (get raw (vaddr (ppu n))) 0x3F00) 0x3F00) as [Hp|Hp].
  - destruct (palette_test_mmap (pak n) _ Hp) as [k Hk].
    cbn [fst snd]. st. rewrite vaddr_advance_raw. unfold vaddr_advance. st.
    split; [|split; [|split]]; try reflexivity.
    split; [|reflexivity].
    exists k. split; [exact Hk|]. unfold load. rewrite Hk. reflexivity.
  - cbn [fst snd]. st. rewrite vaddr_advance_raw. unfold vaddr_advance. st.
    split; [|split; [|split]]; try reflexivity.
    split; reflexivity.
Qed.

(** Witness: reading port 7 right after power-on. *)
Lemma read_data_spec_witness :
  Z.land 0x2007 7 = 7 /\ pak (fst (Read 0x2007 power_on)) = pak power_on.
Proof.
  split; [reflexivity|].
  destruct (read_data_spec 0x2007 power_on eq_refl) as (_ & _ & H & _). exact H.
Defined.

(** C10: a write to port 2 (status, read-only) only refreshes the open-bus
    latch with the written byte and restarts its decay timer; every other
    component of the PPU and of the collaborators is left as it was. *)
Theorem write_status_frame (address b : Z) (n : Nes) :
  Z.land address 7 = 2 -> 0 <= b < 256 ->
  Write address b n
  = set_ppu (set_open_bus_ b (set_open_bus_decay_timer open_bus_decay_full (ppu n))) n.
Proof.
  intros H Hb. unfold Write. rewrite H, byte_land by exact Hb. reflexivity.
Qed.

(** Witness: writing 0x5A to port 2 right after power-on. *)
Lemma write_status_frame_witness :
  Write 0x2002 0x5A power_on =
  set_ppu (set_open_bus_ 0x5A (set_open_bus_decay_timer open_bus_decay_full (ppu power_on)))
    power_on.
Proof. apply write_status_frame; [reflexivity|lia]. Defined.

(** ** Palette mapping *)

(** C4 (counterexample): storing 0x2A at the location [mmap] gives for
    0x3F04 (here after power-on) is observed at 0x3F04 but not at 0x3F00:
    0x3F04 is a palette slot of its own. *)
Lemma palette_3F04_not_backdrop :
  let n := store (mmap (pak power_on) 0x3F04) 0x2A power_on in
  vram n 0x3F04 = 0x2A /\ vram n 0x3F00 <> 0x2A.
Proof. vm_compute. split; [reflexivity | discriminate]. Qed.

(** C4 (amended): [mmap] sends every palette address [a] (0x3F00 <= a &
    0x3FFF) with [a mod 4 = 0] to the slot [a & 0x0C], so a byte written
    there is read back at [0x3F00 + (a & 0x0C)]: 0x3F10, 0x3F14, 0x3F18 and
    0x3F1C (and their mirrors) alias 0x3F00, 0x3F04, 0x3F08 and 0x3F0C,
    which are four distinct slots. *)
Theorem palette_aliases (a b : Z) (n : Nes) :
  0x3F00 <= Z.land a 0x3FFF -> Z.land a 0x3FFF mod 4 = 0 ->
  vram (store (mmap (pak n) a) b n) (0x3F00 + Z.land a 0x0C) = b /\
  (forall g, NoDup [mmap g 0x3F00; mmap g 0x3F04; mmap g 0x3F08; mmap g 0x3F0C]).
Proof.
  intros H1 H2. split.
  - set (a' := Z.land a 0x3FFF) in *.
    assert (Hc : Z.land a 0x0C = Z.land (a' mod 16) 0x0C).
    { subst a'. change 16 with (2 ^ 4). rewrite <- Z.land_ones by lia.
      rewrite <- !Z.land_assoc. reflexivity. }
    assert (Hm : mmap (pak n) a = LPalette (a' mod 16)).
    { unfold mmap. fold a'.
      destruct (Z.leb_spec 0x3F00 a'); [|lia].
      rewrite H2. cbn [Z.eqb].
      rewrite <- Z.land_assoc. change (Z.land 0x0F 0x1F) with (Z.ones 4).
      rewrite Z.land_ones by lia. reflexivity. }
    rewrite Hc, Hm.
    assert (Hr : a' mod 16 = 0 \/ a' mod 16 = 4 \/ a' mod 16 = 8 \/ a' mod 16 = 12)
      by (Z.div_mod_to_equations; lia).
    destruct Hr as [Hr|[Hr|[Hr|Hr]]]; rewrite Hr; reflexivity.
  - intros g. repeat constructor; cbn; intuition discriminate.
Qed.

(** Witness: a store at 0x3F04 is read back at 0x3F04. *)
Lemma palette_aliases_witness :
  vram (store (mmap (pak power_on) 0x3F04) 0x2A power_on) (0x3F00 + Z.land 0x3F04 0x0C) = 0x2A.
Proof.
  destruct (palette_aliases 0x3F04 0x2A power_on ltac:(simpl; lia) ltac:(vm_compute; reflexivity))
    as [H _].
  exact H.
Defined.

(** ** Pattern interleaving *)

Lemma interleave_all : forall_below 65536 interleave_ok = true.
Proof. vm_compute. reflexivity. Qed.

(** C8: for bytes [low] and [high], the three swap-mask stages applied to
    [low | (high << 8)] give a 16-bit value whose bit [2k] is bit [k] of
    [low] and whose bit [2k+1] is bit [k] of [high] (k in 0..7), and
    splitting it back into its bit planes gives [(low, high)]. *)
Theorem interleave_spec (low high : Z) :
  0 <= low < 256 -> 0 <= high < 256 ->
  let p := interleave (Z.lor low (Z.shiftl high 8)) in
  0 <= p < 2 ^ 16 /\
  (forall k, 0 <= k < 8 ->
     Z.testbit p (2 * k) = Z.testbit low k /\ Z.testbit p (2 * k + 1) = Z.testbit high k) /\
  deinterleave p = (low, high).
Proof.
  intros Hl Hh p.
  assert (Hv := forall_below_spec _ _ interleave_all (low + 256 * high)).
  assert (Hr : 0 <= low + 256 * high < 65536) by lia.
  specialize (Hv Hr).
  unfold interleave_ok in Hv.
  replace ((low + 256 * high) mod 256) with low in Hv by (Z.div_mod_to_equations; lia).
  replace ((low + 256 * high) / 256) with high in Hv by (Z.div_mod_to_equations; lia).
  fold p in Hv.
  apply andb_prop in Hv as [Hv H5]. apply andb_prop in Hv as [Hv H4].
  apply andb_prop in Hv as [Hv H3]. apply andb_prop in Hv as [H1 H2].
  apply Z.leb_le in H1. apply Z.ltb_lt in H2. apply Z.eqb_eq in H4, H5.
  split; [lia|split].
  - intros k Hk.
    assert (Hb := forall_below_spec _ _ H3 k). cbv beta in Hb.
    specialize (Hb ltac:(lia)).
    apply andb_prop in Hb as [Ha Hb]. apply Bool.eqb_prop in Ha, Hb. auto.
  - destruct (deinterleave p). cbn in *. congruence.
Qed.

(** Witness: the bytes 0xA5 and 0x3C. *)
Lemma interleave_spec_witness :
  deinterleave (interleave (Z.lor 0xA5 (Z.shiftl 0x3C 8))) = (0xA5, 0x3C).
Proof.
  destruct (interleave_spec 0xA5 0x3C ltac:(lia) ltac:(lia)) as (_ & _ & H). exact H.
Defined.

(** ** Frames of the beat *)

Lemma frame_refl p : pipeline_frame p p.
Proof. repeat split. Qed.

Lemma frame_trans p q r : pipeline_frame p q -> pipeline_frame q r -> pipeline_frame p r.
Proof. unfold pipeline_frame. intuition congruence. Qed.

Lemma SP0hit_put_OAMaddr v w : get SP0hit (put OAMaddr v w) = get SP0hit w.
Proof. apply get_put_other; field_solve. Qed.
Lemma SP0hit_put_SPoverflow v w : get SP0hit (put SPoverflow v w) = get SP0hit w.
Proof. apply get_put_other; field_solve. Qed.
Lemma SP0hit_put_InVBlank v w : get SP0hit (put InVBlank v w) = get SP0hit w.
Proof. apply get_put_other; field_solve. Qed.

Lemma SP0hit_put_status_0 w : get SP0hit (put status 0 w) = 0.
Proof.
  apply Z.bits_inj'. intros i Hi.
  rewrite testbit_get, testbit_put by field_solve.
  unfold_fields. rewrite !Z.bits_0. destruct (Z.ltb_spec i 1); cbn; [|reflexivity].
  destruct (Z.ltb_spec (i + 22) 24); destruct (Z.leb_spec 16 (i + 22)); try lia. reflexivity.
Qed.

Lemma frame_reg_incr_OAMaddr p : pipeline_frame p (set_reg (incr OAMaddr (reg p)) p).
Proof. unfold pipeline_frame, incr. st. rewrite SP0hit_put_OAMaddr. repeat split. Qed.

Ltac frame_tac :=
  unfold pipeline_frame; cbv zeta;
  repeat (st; match goal with |- context [if ?b then _ else _] => destruct b end);
  st; unfold incr; repeat split;
  repeat (rewrite SP0hit_put_OAMaddr || rewrite SP0hit_put_SPoverflow); reflexivity.

Lemma fetch_nametable_frame p : pipeline_frame p (fetch_nametable p).
Proof. unfold fetch_nametable. frame_tac. Qed.
Lemma nametable_access_frame g p : pipeline_frame p (nametable_access g p).
Proof. unfold nametable_access. frame_tac. Qed.
Lemma attribute_access_frame g p : pipeline_frame p (attribute_access g p).
Proof. unfold attribute_access. frame_tac. Qed.
Lemma sprite_pattern_select_frame p : pipeline_frame p (sprite_pattern_select p).
Proof. unfold sprite_pattern_select. frame_tac. Qed.
Lemma pattern_high_frame g p : pipeline_frame p (pattern_high g p).
Proof. unfold pattern_high. frame_tac. Qed.

Lemma mod8_cases (z : Z) :
  z mod 8 = 0 \/ z mod 8 = 1 \/ z mod 8 = 2 \/ z mod 8 = 3 \/
  z mod 8 = 4 \/ z mod 8 = 5 \/ z mod 8 = 6 \/ z mod 8 = 7.
Proof. pose proof (Z.mod_pos_bound z 8). lia. Qed.

Lemma land3_cases (z : Z) :
  Z.land z 3 = 0 \/ Z.land z 3 = 1 \/ Z.land z 3 = 2 \/ Z.land z 3 = 3.
Proof.
  change 3 with (Z.ones 2). rewrite Z.land_ones by lia.
  pose proof (Z.mod_pos_bound z (2 ^ 2)). cbn in *. lia.
Qed.

Lemma land7_cases (z : Z) :
  Z.land z 7 = 0 \/ Z.land z 7 = 1 \/ Z.land z 7 = 2 \/ Z.land z 7 = 3 \/
  Z.land z 7 = 4 \/ Z.land z 7 = 5 \/ Z.land z 7 = 6 \/ Z.land z 7 = 7.
Proof.
  change 7 with (Z.ones 3). rewrite Z.land_ones by lia.
  pose proof (Z.mod_pos_bound z (2 ^ 3)). cbn in *. lia.
Qed.

Lemma fetch_phase_frame g p : pipeline_frame p (fetch_phase g p).
Proof.
  unfold fetch_phase.
  destruct (mod8_cases (x p)) as [H|[H|[H|[H|[H|[H|[H|H]]]]]]]; rewrite H; cbn iota.
  - apply fetch_nametable_frame.
  - apply nametable_access_frame.
  - destruct (tile_decode_mode (x p)); [frame_tac|].
    eapply frame_trans; [|apply fetch_nametable_frame]. frame_tac.
  - destruct (tile_decode_mode (x p)); [apply attribute_access_frame|].
    destruct (sprrenpos p <? sproutpos p); [apply sprite_pattern_select_frame|apply frame_refl].
  - apply frame_refl.
  - frame_tac.
  - apply frame_refl.
  - apply pattern_high_frame.
Qed.

Lemma sprite_eval_frame p : pipeline_frame p (sprite_eval p).
Proof.
  unfold sprite_eval.
  destruct ((64 <=? x p) && (x p <? 256) && (x p mod 2 =? 1)).
  - eapply frame_trans; [apply frame_reg_incr_OAMaddr|].
    destruct (land3_cases (get OAMaddr (reg p))) as [H|[H|[H|H]]]; rewrite H; cbn iota;
      unfold publish; frame_tac.
  - cbn iota. frame_tac.
Qed.

Lemma rendering_tick_frame g p : pipeline_frame p (rendering_tick g p).
Proof. eapply frame_trans; [apply fetch_phase_frame|apply sprite_eval_frame]. Qed.

(** counters *)
Ltac ctr_tac :=
  unfold counters_ok; cbv zeta; intros;
  repeat (st; match goal with |- context [if ?b then _ else _] => let E := fresh "E" in destruct b eqn:E end);
  st; unfold incr in *;
  repeat match goal with
  | H : (_ <? _) = true |- _ => apply Z.ltb_lt in H
  | H : (_ <? _) = false |- _ => apply Z.ltb_ge in H
  | H : (_ <=? _) = true |- _ => apply Z.leb_le in H
  | H : (_ <=? _) = false |- _ => apply Z.leb_gt in H
  end; lia.

Lemma fetch_nametable_ctr p : counters_ok p -> counters_ok (fetch_nametable p).
Proof. unfold fetch_nametable. ctr_tac. Qed.
Lemma nametable_access_ctr g p : counters_ok p -> counters_ok (nametable_access g p).
Proof. unfold nametable_access. ctr_tac. Qed.
Lemma attribute_access_ctr g p : counters_ok p -> counters_ok (attribute_access g p).
Proof. unfold attribute_access. ctr_tac. Qed.
Lemma sprite_pattern_select_ctr p : counters_ok p -> counters_ok (sprite_pattern_select p).
Proof. unfold sprite_pattern_select. ctr_tac. Qed.
Lemma pattern_high_ctr g p : counters_ok p -> counters_ok (pattern_high g p).
Proof. unfold pattern_high. ctr_tac. Qed.

Lemma fetch_phase_ctr g p : counters_ok p -> counters_ok (fetch_phase g p).
Proof.
  intros Hc. unfold fetch_phase.
  destruct (mod8_cases (x p)) as [H|[H|[H|[H|[H|[H|[H|H]]]]]]]; rewrite H; cbn iota.
  - apply fetch_nametable_ctr; exact Hc.
  - apply nametable_access_ctr; exact Hc.
  - destruct (tile_decode_mode (x p)); [revert Hc; ctr_tac|].
    apply fetch_nametable_ctr. revert Hc; ctr_tac.
  - destruct (tile_decode_mode (x p)); [apply attribute_access_ctr; exact Hc|].
    destruct (sprrenpos p <? sproutpos p); [apply sprite_pattern_select_ctr|]; exact Hc.
  - exact Hc.
  - revert Hc; ctr_tac.
  - exact Hc.
  - apply pattern_high_ctr; exact Hc.
Qed.

Lemma sprite_eval_ctr p : counters_ok p -> counters_ok (sprite_eval p).
Proof.
  intros Hc. unfold sprite_eval.
  destruct ((64 <=? x p) && (x p <? 256) && (x p mod 2 =? 1)).
  - destruct (land3_cases (get OAMaddr (reg p))) as [H|[H|[H|H]]]; rewrite H; cbn iota;
      unfold publish; revert Hc; ctr_tac.
  - cbn iota. revert Hc; ctr_tac.
Qed.

Lemma rendering_tick_ctr g p : counters_ok p -> counters_ok (rendering_tick g p).
Proof. intros Hc. apply sprite_eval_ctr, fetch_phase_ctr, Hc. Qed.

(** C5 (counterexample): after a write has refreshed the latch and a beat
    has run, reading port 2 or port 0 leaves the decay timer at 77776: these
    reads do not reset it to its full value. *)
Lemma read_status_keeps_decay_timer : let n := beat_ntsc host0 (Write 0x2003 0x5A power_on) in
  open_bus_decay_timer (ppu (fst (Read 0x2002 n))) = 77776 /\
  open_bus_decay_timer (ppu (fst (Read 0x2000 n))) = 77776.
Proof. vm_compute. split; reflexivity. Qed.

(** C6 (counterexample): running from power-on with NMI enabled, after the
    Tick during which vblank starts InVBlank and NMIenabled are both set but
    the NMI line still holds the earlier value false: it is only written on
    beats where VBlankState is 0, and the countdown is at 1. *)
Lemma nmi_not_written_on_tick : let n := vblank_entry in
  nmi n = false /\ flag InVBlank (reg (ppu n)) && flag NMIenabled (reg (ppu n)) = true /\
  VBlankState (ppu n) = 1.
Proof. vm_compute. repeat split; reflexivity. Qed.

(** C7 (counterexample): a beat on scanline 260 at x = 330, outside the
    stated window on the pre-render line, clears a set sprite-0 hit flag. *)
Lemma sp0hit_hack_off_prerender : get SP0hit (reg (ppu (sp0_at 260 330))) = 1 /\
  get SP0hit (reg (ppu (beat_ntsc host0 (sp0_at 260 330)))) = 0.
Proof. vm_compute. split; reflexivity. Qed.

(** C9 (counterexample): with rendering enabled by a write of 0x18 to port 1
    after power-on, 2501 Ticks reach scanline 1, x = 2, where sproutpos is 0
    but sprrenpos is 8: sprrenpos <= sproutpos does not hold. *)
Lemma sprrenpos_above_sproutpos : let n := Nat.iter 2501 (Tick host0) (Write 0x2001 0x18 power_on) in
  sproutpos (ppu n) = 0 /\ sprrenpos (ppu n) = 8.
Proof. vm_compute. split; reflexivity. Qed.

Lemma compose_pixel_ppu h p :
  fst (fst (compose_pixel h p)) = p \/
  fst (fst (compose_pixel h p)) = set_reg (put SP0hit 1 (reg p)) p.
Proof.
  unfold compose_pixel. cbv zeta.
  repeat match goal with |- context [let '(_, _) := ?e in _] => destruct e end.
  destruct b; cbn; auto.
Qed.

Lemma quiet_ctr n m : quiet n m -> counters_ok (ppu n) -> counters_ok (ppu m).
Proof. unfold quiet, counters_ok. intros (_ & _ & _ & _ & -> & -> & ->). exact (fun H => H). Qed.

Lemma advance_column_quiet last n : quiet n (advance_column last n).
Proof.
  unfold quiet, advance_column. cbv zeta.
  repeat (st; match goal with |- context [if ?b then _ else _] => destruct b end);
  st; repeat split.
Qed.

Lemma end_of_beat_quiet h n : quiet n (end_of_beat h n).
Proof. unfold quiet, end_of_beat. st. repeat split. Qed.

Lemma SP0hit_range w : 0 <= get SP0hit w <= 1.
Proof. pose proof (get_range SP0hit w ltac:(field_solve)). unfold_fields. cbn in *. lia. Qed.

Lemma get_SP0hit_put_1 w : get SP0hit (put SP0hit 1 w) = 1.
Proof. rewrite get_put_same by field_solve. unfold_fields. reflexivity. Qed.

Lemma render_pixel_shape h n :
  nmi (render_pixel h n) = nmi n /\
  (ppu (render_pixel h n) = ppu n \/
   ppu (render_pixel h n) = set_reg (put SP0hit 1 (reg (ppu n))) (ppu n)).
Proof. unfold render_pixel. st. split; [reflexivity|apply compose_pixel_ppu]. Qed.

Lemma set_SP0hit_frame q :
  open_bus_ (set_reg (put SP0hit 1 (reg q)) q) = open_bus_ q /\
  open_bus_decay_timer (set_reg (put SP0hit 1 (reg q)) q) = open_bus_decay_timer q /\
  x (set_reg (put SP0hit 1 (reg q)) q) = x q /\
  scanline (set_reg (put SP0hit 1 (reg q)) q) = scanline q /\
  (counters_ok q -> counters_ok (set_reg (put SP0hit 1 (reg q)) q)).
Proof. unfold counters_ok. st. intuition. Qed.

Lemma graphics_shape h n :
  nmi (graphics h n) = nmi n /\
  exists q, pipeline_frame (ppu n) q /\ (counters_ok (ppu n) -> counters_ok q) /\
    (ppu (graphics h n) = q \/
     (0 <= scanline (ppu n) /\ ppu (graphics h n) = set_reg (put SP0hit 1 (reg q)) q)).
Proof.
  unfold graphics.
  destruct (scanline (ppu n) <? 240); [|split; [reflexivity|exists (ppu n); auto using frame_refl]].
  set (n1 := if flag ShowBGSP (reg (ppu n)) then set_ppu (rendering_tick (pak n) (ppu n)) n else n).
  assert (H1 : nmi n1 = nmi n /\ pipeline_frame (ppu n) (ppu n1) /\
               (counters_ok (ppu n) -> counters_ok (ppu n1))).
  { subst n1. destruct (flag ShowBGSP (reg (ppu n))); st;
      auto using frame_refl, rendering_tick_frame, rendering_tick_ctr. }
  destruct H1 as (Hn & Hf & Hc).
  destruct ((0 <=? scanline (ppu n1)) && (x (ppu n1) <? 256)) eqn:E.
  - destruct (render_pixel_shape h n1) as [Hr [Hp|Hp]]; rewrite Hr; split; auto;
      exists (ppu n1); split; auto; split; auto.
    right. split; auto.
    apply andb_true_iff in E. destruct E as [E _]. apply Z.leb_le in E.
    destruct Hf as (_ & _ & _ & Hs & _). lia.
  - split; auto. exists (ppu n1); auto.
Qed.

Lemma vblank_service_facts n :
  nmi (vblank_service n) =
    (if VBlankState (ppu n) =? 0
     then flag InVBlank (reg (ppu n)) && flag NMIenabled (reg (ppu n)) else nmi n) /\
  open_bus_ (ppu (vblank_service n)) = open_bus_ (ppu n) /\
  open_bus_decay_timer (ppu (vblank_service n)) = open_bus_decay_timer (ppu n) /\
  x (ppu (vblank_service n)) = x (ppu n) /\
  scanline (ppu (vblank_service n)) = scanline (ppu n) /\
  get SP0hit (reg (ppu (vblank_service n))) =
    (if VBlankState (ppu n) =? -5 then 0 else get SP0hit (reg (ppu n))) /\
  (counters_ok (ppu n) -> counters_ok (ppu (vblank_service n))).
Proof.
  unfold vblank_service, counters_ok. cbv zeta.
  destruct (Z.eqb_spec (VBlankState (ppu n)) (-5)) as [E5|E5]; st.
  - rewrite E5. cbn. rewrite SP0hit_put_status_0. intuition.
  - destruct (Z.eqb_spec (VBlankState (ppu n)) 2) as [E2|E2]; st.
    + rewrite E2. cbn. rewrite SP0hit_put_InVBlank. intuition.
    + destruct (Z.eqb_spec (VBlankState (ppu n)) 0) as [E0|E0]; st.
      * rewrite E0. cbn. intuition.
      * destruct (VBlankState (ppu n) =? 0), (VBlankState (ppu n) <? 0); st; intuition.
Qed.

Lemma graphics_facts h n :
  nmi (graphics h n) = nmi n /\
  open_bus_ (ppu (graphics h n)) = open_bus_ (ppu n) /\
  open_bus_decay_timer (ppu (graphics h n)) = open_bus_decay_timer (ppu n) /\
  x (ppu (graphics h n)) = x (ppu n) /\
  scanline (ppu (graphics h n)) = scanline (ppu n) /\
  (counters_ok (ppu n) -> counters_ok (ppu (graphics h n))) /\
  get SP0hit (reg (ppu n)) <= get SP0hit (reg (ppu (graphics h n))) /\
  (scanline (ppu n) < 0 -> get SP0hit (reg (ppu (graphics h n))) = get SP0hit (reg (ppu n))).
Proof.
  destruct (graphics_shape h n) as [Hn [q [Hf [Hc [Hg|[Hs Hg]]]]]];
    destruct Hf as (Hb & Ht & Hx & Hl & Hh); rewrite Hg.
  - split; [exact Hn|]. split; [congruence|]. split; [congruence|].
    split; [congruence|]. split; [congruence|]. split; [exact Hc|].
    split; [lia|]. intros _. exact Hh.
  - destruct (set_SP0hit_frame q) as (Hb' & Ht' & Hx' & Hl' & Hc').
    split; [exact Hn|]. rewrite Hb', Ht', Hx', Hl'. st.
    rewrite get_SP0hit_put_1. pose proof (SP0hit_range (reg (ppu n))).
    split; [congruence|]. split; [congruence|].
    split; [congruence|]. split; [congruence|]. split; [intros Hk; apply Hc', Hc, Hk|].
    split; [lia|]. intros H'. lia.
Qed.

Lemma open_bus_decay_facts p :
  x (open_bus_decay p) = x p /\ scanline (open_bus_decay p) = scanline p /\
  reg (open_bus_decay p) = reg p /\
  (counters_ok p -> counters_ok (open_bus_decay p)) /\
  open_bus_decay_timer (open_bus_decay p) =
    (if open_bus_decay_timer p =? 0 then 0 else open_bus_decay_timer p - 1) /\
  open_bus_ (open_bus_decay p) =
    (if open_bus_decay_timer p =? 1 then 0 else open_bus_ p).
Proof.
  unfold open_bus_decay, counters_ok.
  destruct (Z.eqb_spec (open_bus_decay_timer p) 0) as [E0|E0]; st.
  - rewrite E0. cbn. intuition.
  - destruct (Z.eqb_spec (open_bus_decay_timer p - 1) 0);
      destruct (Z.eqb_spec (open_bus_decay_timer p) 1); st; try lia; intuition.
Qed.

Lemma open_bus_decay_congr p q :
  open_bus_ p = open_bus_ q -> open_bus_decay_timer p = open_bus_decay_timer q ->
  open_bus_ (open_bus_decay p) = open_bus_ (open_bus_decay q) /\
  open_bus_decay_timer (open_bus_decay p) = open_bus_decay_timer (open_bus_decay q).
Proof.
  intros Hb Ht. destruct (open_bus_decay_facts p) as (_ & _ & _ & _ & -> & ->).
  destruct (open_bus_decay_facts q) as (_ & _ & _ & _ & -> & ->). rewrite Hb, Ht. auto.
Qed.

Lemma sp0_hack_facts p :
  open_bus_ (sp0_hack p) = open_bus_ p /\
  open_bus_decay_timer (sp0_hack p) = open_bus_decay_timer p /\
  x (sp0_hack p) = x p /\ scanline (sp0_hack p) = scanline p /\
  (counters_ok p -> counters_ok (sp0_hack p)) /\
  get SP0hit (reg (sp0_hack p)) = (if in_sp0_window p then 0 else get SP0hit (reg p)).
Proof.
  unfold sp0_hack, in_sp0_window, counters_ok.
  destruct ((scanline p =? 260) && (328 <=? x p) && (x p <=? 339)); st.
  - rewrite get_put_same by field_solve. unfold_fields. intuition.
  - intuition.
Qed.

Lemma load_store_same l v n : load (store l v n) l = v.
Proof. destruct l; unfold store, load, loadp, upd; cbn; rewrite Z.eqb_refl; reflexivity. Qed.

Lemma Write_open_bus a b n :
  open_bus_ (ppu (Write a b n)) = Z.land b 0xFF /\
  open_bus_decay_timer (ppu (Write a b n)) = open_bus_decay_full.
Proof.
  unfold Write. cbv zeta.
  destruct (land7_cases a) as [H|[H|[H|[H|[H|[H|[H|H]]]]]]]; rewrite H; cbn iota; st;
    try (split; reflexivity).
  all: try (destruct (offset_toggle_ (ppu n)); st; split; reflexivity).
  unfold vaddr_advance. st. rewrite load_store_same. split; reflexivity.
Qed.

Lemma Read_open_bus a n :
  if (Z.land a 7 =? 4) || (Z.land a 7 =? 7)
  then open_bus_ (ppu (fst (Read a n))) = snd (Read a n) /\
       open_bus_decay_timer (ppu (fst (Read a n))) = open_bus_decay_full
  else open_bus_ (ppu (fst (Read a n))) = open_bus_ (ppu n) /\
       open_bus_decay_timer (ppu (fst (Read a n))) = open_bus_decay_timer (ppu n).
Proof.
  unfold Read. cbv zeta.
  destruct (land7_cases a) as [H|[H|[H|[H|[H|[H|[H|H]]]]]]]; rewrite H; cbn iota; cbn [orb Z.eqb]; st;
    try (split; reflexivity).
  - destruct (VBlankState (ppu n) =? -5); st; split; reflexivity.
  - destruct (Z.land (get raw (vaddr (ppu n))) 0x3F00 =? 0x3F00); unfold vaddr_advance; st;
      split; reflexivity.
Qed.

Lemma same_ctr_ok p q : same_ctr p q -> counters_ok p -> counters_ok q.
Proof. unfold same_ctr, counters_ok. intros (-> & -> & ->). exact (fun H => H). Qed.

Lemma store_ctr l v n : same_ctr (ppu n) (ppu (store l v n)).
Proof. unfold same_ctr. destruct l; unfold store; st; auto. Qed.

Lemma Write_ctr a b n : same_ctr (ppu n) (ppu (Write a b n)).
Proof.
  unfold Write. cbv zeta.
  destruct (land7_cases a) as [H|[H|[H|[H|[H|[H|[H|H]]]]]]]; rewrite H; cbn iota;
    unfold same_ctr; st; try (repeat split; reflexivity).
  all: try (destruct (offset_toggle_ (ppu n)); st; repeat split; reflexivity).
  unfold vaddr_advance. st.
  destruct (store_ctr (mmap (pak n) (get raw (vaddr (ppu n)))) (Z.land b 255)
              (set_ppu (RefreshOpenBus (Z.land b 255) (ppu n)) n)) as (-> & -> & ->).
  st. auto.
Qed.

Lemma Read_ctr a n : same_ctr (ppu n) (ppu (fst (Read a n))).
Proof.
  unfold Read. cbv zeta.
  destruct (land7_cases a) as [H|[H|[H|[H|[H|[H|[H|H]]]]]]]; rewrite H; cbn iota;
    unfold same_ctr; st; try (repeat split; reflexivity).
  - destruct (VBlankState (ppu n) =? -5); st; repeat split; reflexivity.
  - destruct (Z.land (get raw (vaddr (ppu n))) 0x3F00 =? 0x3F00); unfold vaddr_advance; st;
      repeat split; reflexivity.
Qed.

Lemma pre_graphics_facts h n :
  nmi (pre_graphics h n) = nmi (vblank_service n) /\
  open_bus_ (ppu (pre_graphics h n)) = open_bus_ (open_bus_decay (ppu n)) /\
  open_bus_decay_timer (ppu (pre_graphics h n)) = open_bus_decay_timer (open_bus_decay (ppu n)) /\
  x (ppu (pre_graphics h n)) = x (ppu n) /\
  scanline (ppu (pre_graphics h n)) = scanline (ppu n) /\
  (counters_ok (ppu n) -> counters_ok (ppu (pre_graphics h n))).
Proof.
  unfold pre_graphics.
  destruct (vblank_service_facts n) as (_ & Vb & Vt & Vx & Vs & _ & Vc).
  destruct (open_bus_decay_congr (ppu (vblank_service n)) (ppu n) Vb Vt) as [Db Dt].
  destruct (open_bus_decay_facts (ppu (vblank_service n))) as (Dx & Ds & _ & Dc & _ & _).
  destruct (graphics_facts h (set_ppu_with open_bus_decay (vblank_service n)))
    as (Gn & Gb & Gt & Gx & Gs & Gc & _ & _).
  st. rewrite Gn, Gb, Gt, Gx, Gs. st. rewrite Db, Dt, Dx, Ds, Vx, Vs.
  do 5 (split; [reflexivity|]). intros Hk. apply Gc. st. apply Dc, Vc, Hk.
Qed.

Lemma beat_ntsc_facts h n :
  nmi (beat_ntsc h n) = nmi (pre_graphics h n) /\
  open_bus_ (ppu (beat_ntsc h n)) = open_bus_ (ppu (pre_graphics h n)) /\
  open_bus_decay_timer (ppu (beat_ntsc h n)) = open_bus_decay_timer (ppu (pre_graphics h n)) /\
  (counters_ok (ppu (pre_graphics h n)) -> counters_ok (ppu (beat_ntsc h n))) /\
  get SP0hit (reg (ppu (beat_ntsc h n))) =
    (if in_sp0_window (ppu (pre_graphics h n)) then 0
     else get SP0hit (reg (ppu (pre_graphics h n)))).
Proof.
  unfold beat_ntsc. cbv zeta. fold (pre_graphics h n).
  set (n3 := pre_graphics h n).
  match goal with |- context [advance_column 261 ?m] => set (n5 := m) end.
  destruct (end_of_beat_quiet h (advance_column 261 n5)) as (En & Er & Eb & Et & E1 & E2 & E3).
  destruct (advance_column_quiet 261 n5) as (An & Ar & Ab & At & A1 & A2 & A3).
  rewrite En, Er, Eb, Et, An, Ar, Ab, At.
  assert (Hq : quiet (advance_column 261 n5) (end_of_beat h (advance_column 261 n5))) by
    apply end_of_beat_quiet.
  subst n5. st.
  set (q4 := set_cycle_counter (if cycle_counter (ppu n3) + 1 =? 3 then 0
                                else cycle_counter (ppu n3) + 1) (ppu n3)).
  destruct (sp0_hack_facts q4) as (Sb & St & Sx & Ss & Sc & Sh).
  rewrite Sb, St, Sh. subst q4. unfold in_sp0_window. st.
  split; [reflexivity|]. split; [reflexivity|]. split; [reflexivity|].
  split; [|reflexivity].
  intros Hc. apply (quiet_ctr _ _ Hq), (quiet_ctr _ _ (advance_column_quiet _ _)). st.
  apply Sc. unfold counters_ok in *. st. exact Hc.
Qed.

Lemma beat_pal_facts h n :
  nmi (beat_pal h n) = nmi (pre_graphics h n) /\
  open_bus_ (ppu (beat_pal h n)) = open_bus_ (ppu (pre_graphics h n)) /\
  open_bus_decay_timer (ppu (beat_pal h n)) = open_bus_decay_timer (ppu (pre_graphics h n)) /\
  (counters_ok (ppu (pre_graphics h n)) -> counters_ok (ppu (beat_pal h n))) /\
  get SP0hit (reg (ppu (beat_pal h n))) = get SP0hit (reg (ppu (pre_graphics h n))).
Proof.
  unfold beat_pal. cbv zeta. fold (pre_graphics h n).
  set (n3 := pre_graphics h n).
  destruct (end_of_beat_quiet h (advance_column 311 n3)) as (En & Er & Eb & Et & E1 & E2 & E3).
  destruct (advance_column_quiet 311 n3) as (An & Ar & Ab & At & A1 & A2 & A3).
  rewrite En, Er, Eb, Et, An, Ar, Ab, At.
  split; [reflexivity|]. split; [reflexivity|]. split; [reflexivity|].
  split; [|reflexivity].
  intros Hc. apply (quiet_ctr _ _ (end_of_beat_quiet h _)),
    (quiet_ctr _ _ (advance_column_quiet 311 _)), Hc.
Qed.

Lemma pre_graphics_sp0 h n :
  (if VBlankState (ppu n) =? -5 then 0 else get SP0hit (reg (ppu n))) <=
    get SP0hit (reg (ppu (pre_graphics h n))) /\
  (scanline (ppu n) < 0 ->
   get SP0hit (reg (ppu (pre_graphics h n))) =
   (if VBlankState (ppu n) =? -5 then 0 else get SP0hit (reg (ppu n)))) /\
  in_sp0_window (ppu (pre_graphics h n)) = in_sp0_window (ppu n).
Proof.
  unfold pre_graphics.
  destruct (vblank_service_facts n) as (_ & _ & _ & Vx & Vs & Vh & _).
  destruct (open_bus_decay_facts (ppu (vblank_service n))) as (Dx & Ds & Dr & _ & _ & _).
  destruct (graphics_facts h (set_ppu_with open_bus_decay (vblank_service n)))
    as (_ & _ & _ & Gx & Gs & _ & Gle & Geq).
  st. rewrite Dr, Vh in *. rewrite Ds, Vs in Geq.
  split; [exact Gle|]. split; [exact Geq|].
  unfold in_sp0_window. rewrite Gx, Gs. st. rewrite Dx, Ds, Vx, Vs. reflexivity.
Qed.

Lemma beats_ctr (b : Host -> Nes -> Nes) h :
  (forall n, counters_ok (ppu n) -> counters_ok (ppu (b h n))) ->
  forall k n, counters_ok (ppu n) -> counters_ok (ppu (beats b h k n)).
Proof. intros Hb k. induction k as [|k IH]; intros n Hn; cbn; auto. Qed.

Lemma beat_ntsc_ctr h n : counters_ok (ppu n) -> counters_ok (ppu (beat_ntsc h n)).
Proof.
  intros Hc. apply (proj1 (proj2 (proj2 (proj2 (beat_ntsc_facts h n))))).
  apply (proj2 (proj2 (proj2 (proj2 (proj2 (pre_graphics_facts h n)))))), Hc.
Qed.

Lemma beat_pal_ctr h n : counters_ok (ppu n) -> counters_ok (ppu (beat_pal h n)).
Proof.
  intros Hc. apply (proj1 (proj2 (proj2 (proj2 (beat_pal_facts h n))))).
  apply (proj2 (proj2 (proj2 (proj2 (proj2 (pre_graphics_facts h n)))))), Hc.
Qed.

(** C5 (amended): every Write sets the open-bus latch to the written byte
    and resets its decay timer to 77777; a Read does so, with the byte it
    returns, only for ports 4 and 7, and a Read of any other port leaves
    latch and timer unchanged; a beat decrements a non-zero timer and clears
    the latch when the timer goes from 1 to 0, and it changes latch and
    timer in no other way (NTSC and PAL). *)
Theorem open_bus_refresh :
  (forall a b n, open_bus_ (ppu (Write a b n)) = Z.land b 0xFF /\
                 open_bus_decay_timer (ppu (Write a b n)) = open_bus_decay_full) /\
  (forall a n,
     if (Z.land a 7 =? 4) || (Z.land a 7 =? 7)
     then open_bus_ (ppu (fst (Read a n))) = snd (Read a n) /\
          open_bus_decay_timer (ppu (fst (Read a n))) = open_bus_decay_full
     else open_bus_ (ppu (fst (Read a n))) = open_bus_ (ppu n) /\
          open_bus_decay_timer (ppu (fst (Read a n))) = open_bus_decay_timer (ppu n)) /\
  (forall p, open_bus_decay_timer (open_bus_decay p) =
               (if open_bus_decay_timer p =? 0 then 0 else open_bus_decay_timer p - 1) /\
             open_bus_ (open_bus_decay p) =
               (if open_bus_decay_timer p =? 1 then 0 else open_bus_ p)) /\
  (forall h n,
     open_bus_ (ppu (beat_ntsc h n)) = open_bus_ (open_bus_decay (ppu n)) /\
     open_bus_decay_timer (ppu (beat_ntsc h n)) = open_bus_decay_timer (open_bus_decay (ppu n)) /\
     open_bus_ (ppu (beat_pal h n)) = open_bus_ (open_bus_decay (ppu n)) /\
     open_bus_decay_timer (ppu (beat_pal h n)) = open_bus_decay_timer (open_bus_decay (ppu n))).
Proof.
  split; [exact Write_open_bus|]. split; [exact Read_open_bus|].
  split; [intros p; apply (proj2 (proj2 (proj2 (proj2 (open_bus_decay_facts p)))))|].
  intros h n.
  destruct (pre_graphics_facts h n) as (_ & Pb & Pt & _).
  destruct (beat_ntsc_facts h n) as (_ & Nb & Nt & _).
  destruct (beat_pal_facts h n) as (_ & Qb & Qt & _).
  rewrite Nb, Nt, Qb, Qt, Pb, Pt. repeat split.
Qed.

(** C6 (amended): a beat (NTSC or PAL) assigns the NMI line the value
    InVBlank && NMIenabled only when VBlankState is 0 at its start; on every
    other beat the line keeps its previous value. *)
Theorem nmi_beat h n :
  nmi (beat_ntsc h n) =
    (if VBlankState (ppu n) =? 0
     then flag InVBlank (reg (ppu n)) && flag NMIenabled (reg (ppu n)) else nmi n) /\
  nmi (beat_pal h n) =
    (if VBlankState (ppu n) =? 0
     then flag InVBlank (reg (ppu n)) && flag NMIenabled (reg (ppu n)) else nmi n).
Proof.
  destruct (pre_graphics_facts h n) as (Pn & _).
  destruct (beat_ntsc_facts h n) as (Nn & _).
  destruct (beat_pal_facts h n) as (Qn & _).
  rewrite Nn, Qn, Pn. split; apply vblank_service_facts.
Qed.

(** C7 (amended): an NTSC beat that starts on scanline 260 with x in
    [328, 339] clears the sprite-0 hit flag; a beat that starts with
    VBlankState = -5 on the pre-render line (scanline < 0) clears it with
    the whole status byte, and so does a PAL beat in that case; any other
    beat (VBlankState <> -5), NTSC outside that window or PAL, never clears
    it. *)
Theorem sp0hit_beat h n :
  (in_sp0_window (ppu n) = true -> get SP0hit (reg (ppu (beat_ntsc h n))) = 0) /\
  (VBlankState (ppu n) <> -5 -> in_sp0_window (ppu n) = false ->
   get SP0hit (reg (ppu n)) <= get SP0hit (reg (ppu (beat_ntsc h n)))) /\
  (VBlankState (ppu n) = -5 -> scanline (ppu n) < 0 ->
   get SP0hit (reg (ppu (beat_ntsc h n))) = 0) /\
  (VBlankState (ppu n) <> -5 ->
   get SP0hit (reg (ppu n)) <= get SP0hit (reg (ppu (beat_pal h n)))) /\
  (VBlankState (ppu n) = -5 -> scanline (ppu n) < 0 ->
   get SP0hit (reg (ppu (beat_pal h n))) = 0).
Proof.
  destruct (pre_graphics_sp0 h n) as (Hle & Heq & Hw).
  destruct (beat_ntsc_facts h n) as (_ & _ & _ & _ & Nh).
  destruct (beat_pal_facts h n) as (_ & _ & _ & _ & Qh).
  rewrite Nh, Qh, Hw.
  split; [intros Ht; rewrite Ht; reflexivity|].
  split; [intros Hv Hf; rewrite Hf; destruct (Z.eqb_spec (VBlankState (ppu n)) (-5)); [lia|exact Hle]|].
  split.
  - intros Hv Hs. assert (Hf : in_sp0_window (ppu n) = false).
    { unfold in_sp0_window. destruct (Z.eqb_spec (scanline (ppu n)) 260); [lia|reflexivity]. }
    rewrite Hf, (Heq Hs), Hv. reflexivity.
  - split; [intros Hv; destruct (Z.eqb_spec (VBlankState (ppu n)) (-5)); [lia|exact Hle]|].
    intros Hv Hs. rewrite (Heq Hs), Hv. reflexivity.
Qed.

(** C9 (amended): the bounds 0 <= sproutpos <= 8, 0 <= sprinpos <= 64 and
    0 <= sprrenpos <= 8 are preserved by every beat (NTSC and PAL), by Tick,
    and by every Read and Write. *)
Theorem counters_preserved h n :
  counters_ok (ppu n) ->
  counters_ok (ppu (beat_ntsc h n)) /\ counters_ok (ppu (beat_pal h n)) /\
  counters_ok (ppu (Tick h n)) /\
  (forall a, counters_ok (ppu (fst (Read a n)))) /\
  (forall a b, counters_ok (ppu (Write a b n))).
Proof.
  intros Hc.
  split; [apply beat_ntsc_ctr, Hc|]. split; [apply beat_pal_ctr, Hc|].
  split; [|split; [intros a; apply (same_ctr_ok _ _ (Read_ctr a n)), Hc
                  |intros a b; apply (same_ctr_ok _ _ (Write_ctr a b n)), Hc]].
  unfold Tick, TickNTSC, TickPAL. destruct (mode_ (ppu n)).
  - apply beats_ctr; [apply beat_ntsc_ctr|exact Hc].
  - apply beats_ctr; [apply beat_pal_ctr|exact Hc].
Qed.

(** Witness: in the middle of sprite evaluation on a rendered scanline
    (sproutpos 8, sprinpos 11, sprrenpos 8), the bounds hold, the next
    Tick moves sprinpos on to 12, and the bounds still hold after it. *)
Lemma counters_preserved_witness :
  counters_ok (ppu rendering_run) /\
  (sproutpos (ppu rendering_run), sprinpos (ppu rendering_run), sprrenpos (ppu rendering_run))
    = (8, 11, 8) /\
  sprinpos (ppu (Tick host0 rendering_run)) = 12 /\
  counters_ok (ppu (Tick host0 rendering_run)).
Proof.
  assert (E1 : sproutpos (ppu rendering_run) = 8) by (vm_compute; reflexivity).
  assert (E2 : sprinpos (ppu rendering_run) = 11) by (vm_compute; reflexivity).
  assert (E3 : sprrenpos (ppu rendering_run) = 8) by (vm_compute; reflexivity).
  assert (H : counters_ok (ppu rendering_run)).
  { unfold counters_ok. rewrite E1, E2, E3. lia. }
  split; [exact H|]. split; [rewrite E1, E2, E3; reflexivity|]. split; [vm_compute; reflexivity|].
  apply (proj1 (proj2 (proj2 (counters_preserved host0 rendering_run H)))).
Defined.

(** Witness: the window beat at scanline 260, x = 330 clears the flag. *)
Lemma sp0hit_beat_witness :
  in_sp0_window (ppu (sp0_at 260 330)) = true /\
  get SP0hit (reg (ppu (beat_ntsc host0 (sp0_at 260 330)))) = 0.
Proof.
  split; [vm_compute; reflexivity|].
  apply (proj1 (sp0hit_beat host0 (sp0_at 260 330))). vm_compute. reflexivity.
Defined.

(** * Further properties of the PPU *)

Lemma get_put_sub (f g : RegBit) (v w : Z) :
  0 <= rb_off f -> 0 <= rb_len g -> rb_off f <= rb_off g ->
  rb_off g + rb_len g <= rb_off f + rb_len f ->
  get g (put f v w) = bits v (rb_off g - rb_off f) (rb_len g).
Proof.
  intros H1 H2 H3 H4. apply Z.bits_inj'. intros i Hi.
  rewrite testbit_get, testbit_put by lia. unfold bits.
  rewrite Z.land_spec, Z.shiftr_spec, Z.testbit_ones_nonneg by lia.
  destruct (Z.ltb_spec i (rb_len g)); cbn; [|symmetry; apply andb_false_r].
  destruct (Z.leb_spec (rb_off f) (i + rb_off g)); try lia.
  destruct (Z.ltb_spec (i + rb_off g) (rb_off f + rb_len f)); try lia. cbn.
  rewrite andb_true_r. f_equal. lia.
Qed.

Lemma loc_eqb_spec l l' : loc_eqb l l' = true <-> l = l'.
Proof.
  destruct l, l'; cbn; rewrite ?Z.eqb_eq; split; intros H; try discriminate;
    try congruence; inversion H; auto.
Qed.

Lemma load_store l v n l' :
  load (store l v n) l' = if loc_eqb l' l then v else load n l'.
Proof. destruct l, l'; unfold store, load, loadp, upd; cbn; reflexivity. Qed.

Lemma store_pak_banks l v n :
  chr_banks (pak (store l v n)) = chr_banks (pak n) /\ Nta (pak (store l v n)) = Nta (pak n).
Proof. destruct l; unfold store; st; auto. Qed.

Lemma mmap_congr g g' i :
  chr_banks g = chr_banks g' -> Nta g = Nta g' -> mmap g i = mmap g' i.
Proof. intros H1 H2. unfold mmap. rewrite H1, H2. reflexivity. Qed.

Lemma bits_small (v off n : Z) : 0 <= v < 2 ^ off -> 0 <= off -> 0 <= n -> bits v off n = 0.
Proof.
  intros Hv Ho Hn. unfold bits. rewrite Z.shiftr_div_pow2 by lia.
  rewrite Z.div_small by lia. reflexivity.
Qed.

(** X1: reading through ports 0, 1, 3, 5 or 6 (address mod 8) leaves the machine unchanged and returns the open-bus latch. *)
Theorem Read_idle_ports (a : Z) (n : Nes) :
  In (Z.land a 7) [0; 1; 3; 5; 6] -> Read a n = (n, open_bus_ (ppu n)).
Proof.
  intros H. unfold Read.
  destruct (land7_cases a) as [E|[E|[E|[E|[E|[E|[E|E]]]]]]]; rewrite E in *; cbn in H;
    intuition discriminate.
Qed.

Lemma Read_idle_ports_witness : Read 0x2005 power_on = (power_on, open_bus_ (ppu power_on)).
Proof. apply Read_idle_ports. cbn. tauto. Defined.

(** X2: the two-write toggle flips on each write to ports 5 and 6, is cleared by a read of port 2, and is otherwise left unchanged by reads and writes. *)
Theorem toggle_after_access (a b : Z) (n : Nes) :
  offset_toggle_ (ppu (Write a b n)) =
    (if (Z.land a 7 =? 5) || (Z.land a 7 =? 6) then negb (offset_toggle_ (ppu n))
     else offset_toggle_ (ppu n)) /\
  offset_toggle_ (ppu (fst (Read a n))) =
    (if Z.land a 7 =? 2 then false else offset_toggle_ (ppu n)).
Proof.
  destruct n as [p g nm cc fb ev].
  unfold Write, Read. cbv zeta.
  destruct (land7_cases a) as [E|[E|[E|[E|[E|[E|[E|E]]]]]]]; rewrite E; cbn iota;
    cbn [Z.eqb Pos.eqb orb]; st; split; try reflexivity.
  all: try (destruct (VBlankState p =? -5); reflexivity).
  all: try (destruct (offset_toggle_ p) eqn:T; st; rewrite T; reflexivity).
  - unfold vaddr_advance.
    destruct (mmap g (get raw (vaddr p))); unfold store; st; reflexivity.
  - destruct (Z.land (get raw (vaddr p)) 0x3F00 =? 0x3F00); unfold vaddr_advance; st; reflexivity.
Qed.

Lemma get_OAMaddr_put v w : get OAMaddr (put OAMaddr v w) = Z.land v 0xFF.
Proof.
  rewrite get_put_same by field_solve. unfold_fields.
  change 0xFF with (Z.ones 8). rewrite Z.land_ones by lia. reflexivity.
Qed.

Lemma get_OAMdata_put v w : get OAMdata (put OAMaddr v w) = Z.land v 3.
Proof.
  rewrite get_put_sub by field_solve. unfold_fields. unfold bits.
  rewrite Z.shiftr_0_r. reflexivity.
Qed.

Lemma Write_eq3 a d n : Z.land a 7 = 3 ->
  Write a d n = set_ppu (set_reg (put OAMaddr (Z.land d 0xFF) (reg (ppu n)))
                           (RefreshOpenBus (Z.land d 0xFF) (ppu n))) n.
Proof. intros H. unfold Write. rewrite H. reflexivity. Qed.

Lemma Write_eq4 a d n : Z.land a 7 = 4 ->
  Write a d n =
  set_ppu (set_reg (incr OAMaddr (reg (ppu n)))
             (set_OAM (upd (OAM (ppu n)) (get OAMaddr (reg (ppu n))) (Z.land d 0xFF))
                (RefreshOpenBus (Z.land d 0xFF) (ppu n)))) n.
Proof. intros H. unfold Write. rewrite H. reflexivity. Qed.

Lemma Read_eq4 a n : Z.land a 7 = 4 ->
  Read a n =
  (let p := ppu n in
   let v := Z.land (OAM p (get OAMaddr (reg p)))
                   (if get OAMdata (reg p) =? 2 then 0xE3 else 0xFF) in
   (set_ppu (RefreshOpenBus v p) n, v)).
Proof. intros H. unfold Read. rewrite H. reflexivity. Qed.

(** X3: a port-3 write of an address followed by a port-4 write of a byte stores the low byte at that OAM slot, leaves every other slot alone and advances OAMaddr by one modulo 256. *)
Theorem oam_write (a3 a4 addr d : Z) (n : Nes) :
  Z.land a3 7 = 3 -> Z.land a4 7 = 4 ->
  let p' := ppu (Write a4 d (Write a3 addr n)) in
  OAM p' (Z.land addr 0xFF) = Z.land d 0xFF /\
  (forall j, j <> Z.land addr 0xFF -> OAM p' j = OAM (ppu n) j) /\
  get OAMaddr (reg p') = (Z.land addr 0xFF + 1) mod 256.
Proof.
  intros H3 H4 p'. subst p'. rewrite (Write_eq4 _ _ _ H4), (Write_eq3 _ _ _ H3). st.
  rewrite get_OAMaddr_put, <- Z.land_assoc. change (Z.land 255 255) with 255.
  split; [|split].
  - unfold upd. rewrite Z.eqb_refl. reflexivity.
  - intros j Hj. unfold upd. destruct (Z.eqb_spec j (Z.land addr 255)); [congruence|reflexivity].
  - unfold incr. rewrite get_put_same by field_solve. rewrite get_OAMaddr_put.
    rewrite <- Z.land_assoc. reflexivity.
Qed.

(** X4: after setting OAMaddr, writing a byte and setting OAMaddr again, a port-4 read returns the byte (masked with 0xE3 at attribute slots, address mod 4 = 2) and leaves OAMaddr in place. *)
Theorem oam_round_trip (a3 a4 a5 addr d : Z) (n : Nes) :
  Z.land a3 7 = 3 -> Z.land a4 7 = 4 -> Z.land a5 7 = 4 ->
  let n' := Write a3 addr (Write a4 d (Write a3 addr n)) in
  snd (Read a5 n') = Z.land (Z.land d 0xFF) (if Z.land addr 3 =? 2 then 0xE3 else 0xFF) /\
  get OAMaddr (reg (ppu (fst (Read a5 n')))) = Z.land addr 0xFF.
Proof.
  intros H3 H4 H5 n'. subst n'.
  rewrite (Read_eq4 _ _ H5), !(Write_eq3 _ _ _ H3), (Write_eq4 _ _ _ H4). cbv zeta. st.
  unfold incr. rewrite !get_OAMaddr_put, get_OAMdata_put, <- !Z.land_assoc.
  change (Z.land 255 255) with 255. change (Z.land 255 3) with 3.
  unfold upd. rewrite Z.eqb_refl. split; [symmetry; apply Z.land_assoc|reflexivity].
Qed.

Lemma oam_round_trip_witness :
  snd (Read 0x2004 (Write 0x2003 0x06 (Write 0x2004 0xFF (Write 0x2003 0x06 power_on)))) =
  Z.land (Z.land 0xFF 0xFF) (if Z.land 0x06 3 =? 2 then 0xE3 else 0xFF).
Proof. exact (proj1 (oam_round_trip 0x2003 0x2004 0x2004 0x06 0xFF power_on eq_refl eq_refl eq_refl)). Defined.

Lemma load_set_ppu_palette (q : Ppu) (n : Nes) l :
  palette q = palette (ppu n) -> load (set_ppu q n) l = load n l.
Proof. intros H. destruct l; unfold load, loadp; st; rewrite ?H; reflexivity. Qed.

Lemma load_set_ppu_with (f : Ppu -> Ppu) (n : Nes) l :
  (forall p, palette (f p) = palette p) -> load (set_ppu_with f n) l = load n l.
Proof. intros H. apply load_set_ppu_palette. apply H. Qed.

(** X5: a port-7 write stores the low byte of the data at the location [mmap] gives for the current VRAM address (and at every address mapped to the same location, nowhere else), advances the 15-bit address by 1 or 32 per the Inc bit, and latches the byte on the open bus. *)
Theorem write_data_store (a d : Z) (n : Nes) :
  Z.land a 7 = 7 ->
  let v := get raw (vaddr (ppu n)) in
  let n' := Write a d n in
  (forall i, vram n' i =
     if loc_eqb (mmap (pak n) i) (mmap (pak n) v) then Z.land d 0xFF else vram n i) /\
  get raw (vaddr (ppu n')) = (v + (if flag Inc (reg (ppu n)) then 32 else 1)) mod 2 ^ 15 /\
  open_bus_ (ppu n') = Z.land d 0xFF.
Proof.
  intros H v n'. subst n'. unfold Write. rewrite H. cbv zeta.
  set (n1 := set_ppu (RefreshOpenBus (Z.land d 255) (ppu n)) n).
  set (t := mmap (pak n1) (get raw (vaddr (ppu n1)))).
  set (n2 := store t (Z.land d 255) n1).
  assert (Hp : pak n1 = pak n) by reflexivity.
  assert (Hv : get raw (vaddr (ppu n1)) = v) by reflexivity.
  destruct (store_pak_banks t (Z.land d 255) n1) as [Hb Hn].
  split; [|split].
  - intros i. unfold vram. st.
    rewrite (mmap_congr (pak n2) (pak n) i) by (rewrite <- Hp; auto).
    rewrite !load_set_ppu_with by (intros; unfold vaddr_advance; st; reflexivity).
    unfold n2. rewrite load_store. subst t. rewrite Hv, Hp.
    destruct (loc_eqb (mmap (pak n) i) (mmap (pak n) v)); [reflexivity|].
    apply load_set_ppu_palette. reflexivity.
  - unfold set_ppu_with. st. rewrite vaddr_advance_raw. unfold n2.
    destruct t; unfold store; st; reflexivity.
  - unfold set_ppu_with, vaddr_advance. st.
    unfold n2. rewrite load_store_same. reflexivity.
Qed.

Lemma write_data_store_witness :
  vram (Write 0x2007 0x2A power_on) 0 = Z.land 0x2A 0xFF.
Proof.
  destruct (write_data_store 0x2007 0x2A power_on eq_refl) as [H _].
  rewrite H. vm_compute. reflexivity.
Defined.

Lemma Write_eq5 a d n : Z.land a 7 = 5 ->
  Write a d n =
  (let p := RefreshOpenBus (Z.land d 0xFF) (ppu n) in
   let sc := if offset_toggle_ p
             then put ycoarse (Z.shiftr (Z.land d 0xFF) 3) (put yfine (Z.land (Z.land d 0xFF) 7) (scroll p))
             else put xscroll (Z.land d 0xFF) (scroll p) in
   set_ppu (set_offset_toggle_ (negb (offset_toggle_ p)) (set_scroll sc p)) n).
Proof. intros H. unfold Write. rewrite H. reflexivity. Qed.

Lemma land_small_mask (v m k : Z) : 0 <= k -> 0 <= m < 2 ^ k -> Z.land v m mod 2 ^ k = Z.land v m.
Proof.
  intros Hk Hm. apply Z.bits_inj'. intros i Hi.
  rewrite Z.testbit_mod_pow2 by lia. destruct (Z.ltb_spec i k); [reflexivity|].
  rewrite Z.land_spec, (testbit_small m k i) by lia. symmetry. apply andb_false_r.
Qed.

Lemma byte_shiftr3 (v : Z) : Z.shiftr (Z.land v 0xFF) 3 mod 2 ^ 5 = Z.shiftr (Z.land v 0xFF) 3.
Proof.
  change 0xFF with (Z.ones 8). rewrite Z.land_ones, Z.shiftr_div_pow2 by lia.
  pose proof (Z.mod_pos_bound v (2 ^ 8)). apply Z.mod_small.
  change (2 ^ 8) with 256 in *. change (2 ^ 3) with 8. change (2 ^ 5) with 32.
  split; [apply Z.div_pos|apply Z.div_lt_upper_bound]; lia.
Qed.

(** X6: two port-5 writes with the toggle clear set the horizontal scroll to the first byte and the fine and coarse vertical scroll from the second, keep the nametable base and the VRAM address, and leave the toggle clear. *)
Theorem scroll_double_write (a1 a2 xs ys : Z) (n : Nes) :
  Z.land a1 7 = 5 -> Z.land a2 7 = 5 -> offset_toggle_ (ppu n) = false ->
  let p' := ppu (Write a2 ys (Write a1 xs n)) in
  get xscroll (scroll p') = Z.land xs 0xFF /\
  get yfine (scroll p') = Z.land ys 7 /\
  get ycoarse (scroll p') = Z.shiftr (Z.land ys 0xFF) 3 /\
  get basenta (scroll p') = get basenta (scroll (ppu n)) /\
  vaddr p' = vaddr (ppu n) /\ offset_toggle_ p' = false.
Proof.
  intros H1 H2 Ht p'. subst p'.
  rewrite (Write_eq5 _ _ _ H2), (Write_eq5 _ _ _ H1). cbv zeta. st. rewrite Ht. cbn [negb]. st.
  split; [|split; [|split; [|split; [|split]]]]; try reflexivity.
  - rewrite !get_put_other by field_solve. rewrite get_put_same by field_solve.
    unfold_fields. change 0xFF with (Z.ones 8). rewrite Z.land_ones by lia.
    apply Z.mod_mod. lia.
  - rewrite get_put_other by field_solve. rewrite get_put_same by field_solve.
    rewrite <- Z.land_assoc. unfold_fields. change (Z.land 255 7) with 7.
    apply land_small_mask; lia.
  - rewrite get_put_same by field_solve. unfold_fields. apply byte_shiftr3.
  - rewrite !get_put_other by field_solve. reflexivity.
Qed.

Lemma scroll_double_write_witness :
  offset_toggle_ (ppu power_on) = false /\
  get ycoarse (scroll (ppu (Write 0x2005 0xEF (Write 0x2005 0x7D power_on)))) =
  Z.shiftr (Z.land 0xEF 0xFF) 3.
Proof.
  split; [vm_compute; reflexivity|].
  destruct (scroll_double_write 0x2005 0x2005 0x7D 0xEF power_on eq_refl eq_refl
              ltac:(vm_compute; reflexivity)) as (_ & _ & H & _). exact H.
Defined.

Lemma Write_eq0 a d n : Z.land a 7 = 0 ->
  Write a d n =
  (let p := RefreshOpenBus (Z.land d 0xFF) (ppu n) in
   let r := put sysctrl (Z.land d 0xFF) (reg p) in
   set_ppu (set_scroll (put basenta (get BaseNTA r) (scroll p)) (set_reg r p)) n).
Proof. intros H. unfold Write. rewrite H. reflexivity. Qed.

(** X7: a port-0 write stores the byte in sysctrl and its low two bits in the scroll nametable base, leaving the other scroll fields, the other registers and the VRAM address unchanged. *)
Theorem write_ctrl (a d : Z) (n : Nes) :
  Z.land a 7 = 0 ->
  let p := ppu n in
  let p' := ppu (Write a d n) in
  get sysctrl (reg p') = Z.land d 0xFF /\
  get basenta (scroll p') = Z.land d 3 /\
  get xscroll (scroll p') = get xscroll (scroll p) /\
  get ycoarse (scroll p') = get ycoarse (scroll p) /\
  get yfine (scroll p') = get yfine (scroll p) /\
  get dispctrl (reg p') = get dispctrl (reg p) /\
  get status (reg p') = get status (reg p) /\
  get OAMaddr (reg p') = get OAMaddr (reg p) /\
  vaddr p' = vaddr p.
Proof.
  intros H p p'. subst p p'. rewrite (Write_eq0 _ _ _ H). cbv zeta. st.
  split; [|split].
  - rewrite get_put_same by field_solve. unfold_fields. apply land_small_mask; lia.
  - rewrite get_put_same by field_solve. rewrite get_put_sub by field_solve.
    unfold_fields. unfold bits. rewrite Z.shiftr_0_r, <- Z.land_assoc.
    change (Z.land 255 (Z.ones 2)) with (Z.ones 2). rewrite Z.land_ones by lia.
    rewrite Z.mod_mod by lia. rewrite <- Z.land_ones by lia. reflexivity.
  - repeat split; rewrite ?get_put_other by field_solve; reflexivity.
Qed.

Lemma write_ctrl_witness : get basenta (scroll (ppu (Write 0x2000 0x93 power_on))) = Z.land 0x93 3.
Proof. exact (proj1 (proj2 (write_ctrl 0x2000 0x93 power_on eq_refl))). Defined.

(** The register word the lifecycle functions leave: [sysctrl] zero,
    [dispctrl] masked with 6, the status byte masked with 0x1F. *)
Lemma lifecycle_reg (r : Z) :
  let r' := put status (Z.land (get status (put dispctrl (Z.land (get dispctrl (put sysctrl 0 r)) 0x6)
                                           (put sysctrl 0 r))) 0x1F)
              (put dispctrl (Z.land (get dispctrl (put sysctrl 0 r)) 0x6) (put sysctrl 0 r)) in
  get sysctrl r' = 0 /\
  get dispctrl r' = Z.land (get dispctrl r) 6 /\
  get status r' = Z.land (get status r) 0x1F /\
  get OAMaddr r' = get OAMaddr r /\
  flag NMIenabled r' = false /\ flag ShowBGSP r' = false /\
  flag InVBlank r' = false /\ get SP0hit r' = 0 /\ get SPoverflow r' = 0.
Proof.
  intros r'. subst r'.
  rewrite (get_put_other dispctrl status) by field_solve.
  rewrite !(get_put_other sysctrl dispctrl), !(get_put_other sysctrl status) by field_solve.
  set (D := Z.land (get dispctrl r) 6). set (S := Z.land (get status r) 0x1F).
  assert (HD : D mod 2 ^ 3 = D) by (apply land_small_mask; lia).
  assert (HS : S mod 2 ^ 5 = S) by (apply land_small_mask; lia).
  assert (HD' : 0 <= D < 2 ^ 3) by (rewrite <- HD; apply Z.mod_pos_bound; lia).
  assert (HS' : 0 <= S < 2 ^ 5) by (rewrite <- HS; apply Z.mod_pos_bound; lia).
  unfold flag.
  split; [|split; [|split; [|split; [|split; [|split; [|split; [|split]]]]]]].
  - rewrite !get_put_other by field_solve. rewrite get_put_same by field_solve. reflexivity.
  - rewrite get_put_other by field_solve. rewrite get_put_same by field_solve.
    unfold_fields. apply land_small_mask; lia.
  - rewrite get_put_same by field_solve. unfold_fields. apply land_small_mask; lia.
  - rewrite !get_put_other by field_solve. reflexivity.
  - rewrite !get_put_other by field_solve. rewrite get_put_sub by field_solve. reflexivity.
  - rewrite get_put_other by field_solve. rewrite get_put_sub by field_solve.
    unfold_fields. rewrite bits_small by lia. reflexivity.
  - rewrite get_put_sub by field_solve. unfold_fields. rewrite bits_small by lia. reflexivity.
  - rewrite get_put_sub by field_solve. unfold_fields. rewrite bits_small by lia. reflexivity.
  - rewrite get_put_sub by field_solve. unfold_fields. rewrite bits_small by lia. reflexivity.
Qed.

Lemma power_reg (r : Z) :
  let r' := put OAMaddr 0
              (put status (Z.land (get status (put dispctrl (Z.land (get dispctrl (put sysctrl 0 r)) 0x6)
                                           (put sysctrl 0 r))) 0x1F)
                 (put dispctrl (Z.land (get dispctrl (put sysctrl 0 r)) 0x6) (put sysctrl 0 r))) in
  get sysctrl r' = 0 /\
  get dispctrl r' = Z.land (get dispctrl r) 6 /\
  get status r' = Z.land (get status r) 0x1F /\
  get OAMaddr r' = 0 /\
  flag NMIenabled r' = false /\ flag ShowBGSP r' = false /\
  flag InVBlank r' = false /\ get SP0hit r' = 0 /\ get SPoverflow r' = 0.
Proof.
  destruct (lifecycle_reg r) as (R1 & R2 & R3 & _ & R5 & R6 & R7 & R8 & R9). cbv zeta in *.
  revert R1 R2 R3 R5 R6 R7 R8 R9. generalize (put status (Z.land (get status (put dispctrl (Z.land (get dispctrl (put sysctrl 0 r)) 0x6)
                                           (put sysctrl 0 r))) 0x1F)
    (put dispctrl (Z.land (get dispctrl (put sysctrl 0 r)) 0x6) (put sysctrl 0 r))). intros w R1 R2 R3 R5 R6 R7 R8 R9.
  unfold flag in *. rewrite !(get_put_other OAMaddr sysctrl), !(get_put_other OAMaddr dispctrl),
    !(get_put_other OAMaddr status), !(get_put_other OAMaddr NMIenabled),
    !(get_put_other OAMaddr ShowBGSP), !(get_put_other OAMaddr InVBlank),
    !(get_put_other OAMaddr SP0hit), !(get_put_other OAMaddr SPoverflow) by field_solve.
  rewrite get_OAMaddr_put. repeat split; auto.
Qed.

(** X8: [Power] loads the power-on palette, fills the first 4 KiB of nametable RAM with 0xFF, clears sysctrl, OAMaddr, the toggle, the scroll and VRAM addresses, the read buffer and the cycle count, keeps dispctrl masked with 6 and the low five status bits, and so clears NMI, rendering, VBlank, sprite-0 hit and overflow. *)
Theorem power_state (n : Nes) :
  let p := ppu n in
  let n' := Power n in
  let p' := ppu n' in
  (forall k, 0 <= k < 32 -> palette p' k = nth (Z.to_nat k) power_palette 0) /\
  (forall a, 0 <= a < 0x1000 -> NRAM (pak n') a = 0xFF) /\
  get sysctrl (reg p') = 0 /\ get dispctrl (reg p') = Z.land (get dispctrl (reg p)) 6 /\
  get status (reg p') = Z.land (get status (reg p)) 0x1F /\ get OAMaddr (reg p') = 0 /\
  flag NMIenabled (reg p') = false /\ flag ShowBGSP (reg p') = false /\
  flag InVBlank (reg p') = false /\ get SP0hit (reg p') = 0 /\ get SPoverflow (reg p') = 0 /\
  offset_toggle_ p' = false /\ get raw (scroll p') = 0 /\ get raw (vaddr p') = 0 /\
  read_buffer p' = 0 /\ cycles p' = 0.
Proof.
  intros p n' p'. subst p n' p'. unfold Power. cbv zeta. st.
  destruct (power_reg (reg (ppu n))) as (R1 & R2 & R3 & R4 & R5 & R6 & R7 & R8 & R9).
  cbv zeta in *. rewrite R1, R2, R3, R4, R5, R6, R7, R8, R9.
  split; [|split].
  - intros k Hk. destruct (Z.leb_spec 0 k), (Z.ltb_spec k 32); try lia. reflexivity.
  - intros a Ha. cbn [NRAM]. destruct (Z.leb_spec 0 a), (Z.ltb_spec a 0x1000); try lia. reflexivity.
  - do 10 (split; [reflexivity|]).
    split; [rewrite get_put_same by field_solve; reflexivity|].
    split; [apply raw_from_halves; lia|].
    split; reflexivity.
Qed.

(** X9: [Reset] does what [Power] does except that it fills nametable RAM with zeros and keeps OAMaddr and the VRAM address. *)
Theorem reset_state (n : Nes) :
  let p := ppu n in
  let n' := Reset n in
  let p' := ppu n' in
  (forall k, 0 <= k < 32 -> palette p' k = nth (Z.to_nat k) power_palette 0) /\
  (forall a, 0 <= a < 0x1000 -> NRAM (pak n') a = 0) /\
  get sysctrl (reg p') = 0 /\ get dispctrl (reg p') = Z.land (get dispctrl (reg p)) 6 /\
  get status (reg p') = Z.land (get status (reg p)) 0x1F /\
  get OAMaddr (reg p') = get OAMaddr (reg p) /\
  flag NMIenabled (reg p') = false /\ flag ShowBGSP (reg p') = false /\
  flag InVBlank (reg p') = false /\ get SP0hit (reg p') = 0 /\ get SPoverflow (reg p') = 0 /\
  offset_toggle_ p' = false /\ get raw (scroll p') = 0 /\ vaddr p' = vaddr p /\
  read_buffer p' = 0 /\ cycles p' = 0.
Proof.
  intros p n' p'. subst p n' p'. unfold Reset. cbv zeta. st.
  destruct (lifecycle_reg (reg (ppu n))) as (R1 & R2 & R3 & R4 & R5 & R6 & R7 & R8 & R9).
  cbv zeta in *. rewrite R1, R2, R3, R4, R5, R6, R7, R8, R9.
  split; [|split].
  - intros k Hk. destruct (Z.leb_spec 0 k), (Z.ltb_spec k 32); try lia. reflexivity.
  - intros a Ha. cbn [NRAM]. destruct (Z.leb_spec 0 a), (Z.ltb_spec a 0x1000); try lia. reflexivity.
  - do 10 (split; [reflexivity|]).
    split; [rewrite get_put_same by field_solve; reflexivity|].
    repeat split.
Qed.

Lemma oam_write_witness :
  OAM (ppu (Write 0x2004 0x5A (Write 0x2003 0x10 power_on))) (Z.land 0x10 0xFF) = Z.land 0x5A 0xFF.
Proof. exact (proj1 (oam_write 0x2003 0x2004 0x10 0x5A power_on eq_refl eq_refl)). Defined.

(** X10: the PPU address map repeats every 0x4000 bytes. *)
Theorem mmap_mirror (g : Gamepak) (a k : Z) : mmap g (a + 0x4000 * k) = mmap g a.
Proof.
  rewrite <- (mmap_mask g (a + _)), <- (mmap_mask g a). f_equal.
  change 0x3FFF with (Z.ones 14). rewrite !Z.land_ones by lia.
  rewrite Z.mul_comm. apply Z.mod_add. lia.
Qed.

(** X11: between 0x2000 and 0x2F00, an address and the address 0x1000 above it map to the same location, the nametable byte of the slot address bits 10-11 select. *)
Theorem nametable_mirror (g : Gamepak) (a : Z) :
  0x2000 <= a < 0x2F00 ->
  mmap g (a + 0x1000) = mmap g a /\
  mmap g a = LNta (Nta g (Z.shiftr a 10 mod 4) + a mod 0x400).
Proof.
  intros Ha. unfold mmap.
  change 0x3FFF with (Z.ones 14). change 0x3FF with (Z.ones 10). change 3 with (Z.ones 2).
  rewrite !Z.land_ones by lia. change (2 ^ 14) with 16384. change (2 ^ 10) with 1024.
  change (2 ^ 2) with 4.
  rewrite !(Z.mod_small _ 16384) by lia.
  destruct (Z.leb_spec 0x3F00 (a + 0x1000)); [lia|].
  destruct (Z.leb_spec 0x3F00 a); [lia|].
  destruct (Z.ltb_spec (a + 0x1000) 0x2000); [lia|].
  destruct (Z.ltb_spec a 0x2000); [lia|].
  rewrite !Z.shiftr_div_pow2 by lia. change (2 ^ 10) with 1024.
  replace (a + 0x1000) with (a + 4 * 1024) by lia.
  rewrite Z.div_add, Z.mod_add by lia.
  replace (a / 1024 + 4) with (a / 1024 + 1 * 4) by lia. rewrite Z.mod_add by lia.
  split; reflexivity.
Qed.

Lemma nametable_mirror_witness : mmap pak0 (0x2400 + 0x1000) = mmap pak0 0x2400.
Proof. exact (proj1 (nametable_mirror pak0 0x2400 ltac:(lia))). Defined.

Lemma mmap_palette_indep (g g' : Gamepak) (a : Z) :
  0x3F00 <= Z.land a 0x3FFF -> mmap g a = mmap g' a.
Proof. intros H. unfold mmap. destruct (Z.leb_spec 0x3F00 (Z.land a 0x3FFF)); [reflexivity|lia]. Qed.

Lemma palette_mirror_all : forall_from 256 0x3F00 palette_mirror_ok = true.
Proof. vm_compute. reflexivity. Qed.

(** X12: every address from 0x3F00 to 0x3FFF maps to the palette entry of its low five bits, an index below 32. *)
Theorem palette_mirror (g : Gamepak) (a : Z) :
  0x3F00 <= a < 0x4000 ->
  mmap g a = mmap g (0x3F00 + Z.land a 0x1F) /\
  exists k, 0 <= k < 32 /\ mmap g a = LPalette k.
Proof.
  intros Ha.
  assert (Hm : forall b, 0x3F00 <= b < 0x4000 -> mmap g b = mmap pak0 b).
  { intros b Hb. apply mmap_palette_indep.
    change 0x3FFF with (Z.ones 14). rewrite Z.land_ones by lia.
    rewrite Z.mod_small; change (2 ^ 14) with 16384; lia. }
  assert (H1 := forall_from_spec _ _ _ palette_mirror_all a ltac:(cbn; lia)).
  unfold palette_mirror_ok in H1. apply andb_prop in H1 as [H1 H2].
  apply loc_eqb_spec in H1.
  assert (Hl : 0 <= Z.land a 0x1F < 32).
  { change 0x1F with (Z.ones 5). rewrite Z.land_ones by lia.
    apply Z.mod_pos_bound. lia. }
  rewrite !Hm by lia. split; [exact H1|].
  destruct (mmap pak0 a); try discriminate.
  apply andb_prop in H2 as [H2 H3]. apply Z.leb_le in H2. apply Z.ltb_lt in H3.
  exists k. auto.
Qed.

Lemma palette_mirror_witness : mmap pak0 0x3F35 = mmap pak0 (0x3F00 + Z.land 0x3F35 0x1F).
Proof. exact (proj1 (palette_mirror pak0 0x3F35 ltac:(lia))). Defined.

Lemma tile_decode_all : forall_below 336 tile_decode_ok = true.
Proof. vm_compute. reflexivity. Qed.

(** X13: tile decoding is active exactly at columns 0 to 255 and 320 to 335. *)
Theorem tile_decode_window (x : Z) :
  tile_decode_mode x = (0 <=? x) && ((x <? 256) || ((320 <=? x) && (x <? 336))).
Proof.
  destruct (Z.ltb_spec x 0) as [Hn|Hn].
  - unfold tile_decode_mode. rewrite Z.shiftl_1_l.
    rewrite (Z.pow_neg_r 2 (Z.shiftr x 4)).
    + destruct (Z.leb_spec 0 x); [lia|]. reflexivity.
    + rewrite Z.shiftr_div_pow2 by lia. change (2 ^ 4) with 16.
      apply Z.div_lt_upper_bound; lia.
  - destruct (Z_lt_le_dec x 336) as [Hs|Hs].
    + apply Bool.eqb_prop. exact (forall_below_spec _ _ tile_decode_all x ltac:(lia)).
    + unfold tile_decode_mode. rewrite Z.shiftl_1_l.
      assert (Hk : 21 <= Z.shiftr x 4).
      { rewrite Z.shiftr_div_pow2 by lia. change (2 ^ 4) with 16.
        apply Z.div_le_lower_bound; lia. }
      replace (Z.land 0x10FFFF (2 ^ Z.shiftr x 4)) with 0.
      * destruct (Z.leb_spec 0 x), (Z.ltb_spec x 256), (Z.leb_spec 320 x), (Z.ltb_spec x 336);
          try lia; reflexivity.
      * symmetry. apply Z.bits_inj'. intros i Hi. rewrite Z.land_spec, Z.bits_0.
        rewrite Z.pow2_bits_eqb by lia.
        destruct (Z.eqb_spec (Z.shiftr x 4) i); [|apply andb_false_r].
        rewrite (testbit_small 0x10FFFF 21 i) by lia. reflexivity.
Qed.

Lemma tick_frame_refl p : tick_frame p p.
Proof. unfold tick_frame, reg_keeps. repeat split; auto. Qed.

Lemma tick_frame_trans p q r : tick_frame p q -> tick_frame q r -> tick_frame p r.
Proof.
  unfold tick_frame, reg_keeps.
  intros (R1 & X1 & S1 & V1 & C1 & K1 & M1 & E1 & P1 & L1)
         (R2 & X2 & S2 & V2 & C2 & K2 & M2 & E2 & P2 & L2).
  split; [intros f Ha Hb Hc; rewrite R2, R1 by auto; reflexivity|].
  repeat split; try congruence. lia.
Qed.

Ltac rframe_tac :=
  unfold tick_frame, reg_keeps; cbv zeta;
  repeat (st; match goal with |- context [if ?b then _ else _] =>
                let E := fresh "E" in destruct b eqn:E end);
  st; unfold incr;
  repeat match goal with
  | H : _ && _ = true |- _ => apply andb_prop in H as [? ?]
  | H : (_ =? _) = true |- _ => apply Z.eqb_eq in H
  end;
  (split; [intros ? ? ? ?; repeat (rewrite get_put_other by (unfold_fields; lia)); reflexivity|]);
  repeat split; auto.

Lemma fetch_nametable_rframe p : tick_frame p (fetch_nametable p).
Proof. unfold fetch_nametable. rframe_tac. Qed.

Lemma nametable_access_rframe g p : tick_frame p (nametable_access g p).
Proof. unfold nametable_access. rframe_tac. Qed.

Lemma attribute_access_rframe g p : tick_frame p (attribute_access g p).
Proof. unfold attribute_access. rframe_tac. Qed.

Lemma sprite_pattern_select_rframe p : tick_frame p (sprite_pattern_select p).
Proof. unfold sprite_pattern_select. rframe_tac. Qed.

Lemma pattern_high_rframe g p : tick_frame p (pattern_high g p).
Proof. unfold pattern_high. rframe_tac. Qed.

Lemma fetch_phase_rframe g p : tick_frame p (fetch_phase g p).
Proof.
  unfold fetch_phase.
  destruct (mod8_cases (x p)) as [H|[H|[H|[H|[H|[H|[H|H]]]]]]]; rewrite H; cbn iota.
  - apply fetch_nametable_rframe.
  - apply nametable_access_rframe.
  - destruct (tile_decode_mode (x p)); [rframe_tac|].
    eapply tick_frame_trans; [|apply fetch_nametable_rframe]. rframe_tac.
  - destruct (tile_decode_mode (x p)); [apply attribute_access_rframe|].
    destruct (sprrenpos p <? sproutpos p); [apply sprite_pattern_select_rframe|apply tick_frame_refl].
  - apply tick_frame_refl.
  - rframe_tac.
  - apply tick_frame_refl.
  - apply pattern_high_rframe.
Qed.

Ltac se_tac :=
  cbv zeta;
  repeat (st; match goal with |- context [if ?b then _ else _] => destruct b end);
  st; reflexivity.

Lemma sprite_eval_se p : scanline_end (sprite_eval p) = scanline_end p.
Proof.
  unfold sprite_eval.
  destruct ((64 <=? x p) && (x p <? 256) && (x p mod 2 =? 1)).
  - destruct (land3_cases (get OAMaddr (reg p))) as [H|[H|[H|H]]];
      rewrite H; cbn iota; unfold publish; se_tac.
  - cbn iota. se_tac.
Qed.

Lemma sprite_eval_rframe p : tick_frame p (sprite_eval p).
Proof.
  unfold sprite_eval.
  destruct ((64 <=? x p) && (x p <? 256) && (x p mod 2 =? 1)).
  - set (p1 := set_reg (incr OAMaddr (reg p)) p).
    assert (H1 : tick_frame p p1) by (subst p1; rframe_tac).
    destruct (land3_cases (get OAMaddr (reg p))) as [H|[H|[H|H]]]; rewrite H; cbn iota;
      unfold publish; (eapply tick_frame_trans; [exact H1|]); rframe_tac.
  - cbn iota. rframe_tac.
Qed.

Lemma rendering_tick_rframe g p : tick_frame p (rendering_tick g p).
Proof. eapply tick_frame_trans; [apply fetch_phase_rframe|apply sprite_eval_rframe]. Qed.

Lemma beam_frame_refl n : beam_frame n n.
Proof. unfold beam_frame. repeat split; auto. Qed.

Lemma beam_frame_trans n m k : beam_frame n m -> beam_frame m k -> beam_frame n k.
Proof.
  unfold beam_frame.
  intros (X1 & S1 & L1 & C1 & M1 & E1 & V1 & P1 & B1 & G1 & F1)
         (X2 & S2 & L2 & C2 & M2 & E2 & V2 & P2 & B2 & G2 & F2).
  repeat split; try congruence.
  - lia.
  - auto.
  - intros i. destruct (F2 i) as [H|H]; [destruct (F1 i) as [H'|H']; [left; congruence|right; exact H']|].
    right. rewrite <- X1, <- S1. exact H.
Qed.

Lemma status_low_put (f : RegBit) v w :
  0 <= rb_off f -> 0 <= rb_len f -> (rb_off f + rb_len f <= 16 \/ 21 <= rb_off f) ->
  bits (put f v w) 16 5 = bits w 16 5.
Proof. intros. apply (get_put_other f (mkRegBit 16 5)); cbn; lia. Qed.

Lemma status_low_put_status_0 w : bits (put status 0 w) 16 5 = 0.
Proof.
  apply (get_put_sub status (mkRegBit 16 5)); field_solve.
Qed.

Lemma vblank_service_beam n :
  beam_frame n (vblank_service n) /\
  VBlankState (ppu (vblank_service n)) = vbs_step (VBlankState (ppu n)) /\
  cycle_counter (ppu (vblank_service n)) = cycle_counter (ppu n).
Proof.
  unfold vblank_service, beam_frame, vbs_step. cbv zeta.
  destruct (Z.eqb_spec (VBlankState (ppu n)) (-5)) as [E5|E5]; st.
  - rewrite E5. cbn. rewrite status_low_put_status_0.
    rewrite (get_put_other status ShowBG) by field_solve. repeat split; auto.
  - destruct (Z.eqb_spec (VBlankState (ppu n)) 2) as [E2|E2]; st.
    + rewrite E2. change (2 =? 0) with false. change (2 <? 0) with false. cbv iota. st.
      rewrite status_low_put by field_solve.
      rewrite (get_put_other InVBlank ShowBG) by field_solve. repeat split; auto.
    + destruct (Z.eqb_spec (VBlankState (ppu n)) 0) as [E0|E0]; st.
      * rewrite E0. cbn. repeat split; auto.
      * apply Z.eqb_neq in E0. rewrite E0. st. repeat split; auto.
Qed.

Lemma open_bus_decay_beam n :
  beam_frame n (set_ppu_with open_bus_decay n) /\
  VBlankState (ppu (set_ppu_with open_bus_decay n)) = VBlankState (ppu n) /\
  cycle_counter (ppu (set_ppu_with open_bus_decay n)) = cycle_counter (ppu n).
Proof.
  unfold beam_frame, open_bus_decay. st.
  destruct (open_bus_decay_timer (ppu n) =? 0); st; [repeat split; auto|].
  destruct (open_bus_decay_timer (ppu n) - 1 =? 0); st; repeat split; auto.
Qed.

Lemma compose_pixel_index h p : snd (fst (compose_pixel h p)) = Z.shiftl (scanline p) 8 + x p.
Proof.
  unfold compose_pixel. cbv zeta.
  repeat match goal with |- context [let '(_, _) := ?e in _] => destruct e end.
  destruct b; reflexivity.
Qed.

Lemma render_pixel_beam h n :
  0 <= scanline (ppu n) < 240 -> x (ppu n) < 256 ->
  beam_frame n (render_pixel h n) /\
  VBlankState (ppu (render_pixel h n)) = VBlankState (ppu n) /\
  cycle_counter (ppu (render_pixel h n)) = cycle_counter (ppu n).
Proof.
  intros Hs Hx. unfold render_pixel.
  rewrite compose_pixel_index, Z.shiftl_mul_pow2 by lia. change (2 ^ 8) with 256.
  destruct (compose_pixel_ppu h (ppu n)) as [Hp|Hp]; rewrite Hp; unfold beam_frame; st.
  - repeat split; auto. intros i. unfold upd. destruct (Z.eqb_spec i (scanline (ppu n) * 256 + x (ppu n))).
    + right. split; [lia|split; [lia|lia]].
    + left. reflexivity.
  - rewrite status_low_put, (get_put_other SP0hit ShowBG) by field_solve.
    repeat split; auto. intros i. unfold upd. destruct (Z.eqb_spec i (scanline (ppu n) * 256 + x (ppu n))).
    + right. split; [lia|split; [lia|lia]].
    + left. reflexivity.
Qed.

Lemma rendering_tick_beam n :
  beam_frame n (set_ppu (rendering_tick (pak n) (ppu n)) n) /\
  VBlankState (ppu (set_ppu (rendering_tick (pak n) (ppu n)) n)) = VBlankState (ppu n) /\
  cycle_counter (ppu (set_ppu (rendering_tick (pak n) (ppu n)) n)) = cycle_counter (ppu n).
Proof.
  destruct (rendering_tick_rframe (pak n) (ppu n))
    as (R & X & S & V & C & K & M & E & P & L).
  unfold beam_frame. st. rewrite X, S, V, C, K, M, E.
  assert (Hb : bits (reg (rendering_tick (pak n) (ppu n))) 16 5 = bits (reg (ppu n)) 16 5)
    by (apply (R (mkRegBit 16 5)); cbn; lia).
  assert (Hg : get ShowBG (reg (rendering_tick (pak n) (ppu n))) = get ShowBG (reg (ppu n)))
    by (apply R; field_solve).
  repeat split; auto; try (intros; congruence).
Qed.

Lemma graphics_beam h n :
  beam_frame n (graphics h n) /\
  VBlankState (ppu (graphics h n)) = VBlankState (ppu n) /\
  cycle_counter (ppu (graphics h n)) = cycle_counter (ppu n).
Proof.
  unfold graphics.
  destruct (Z.ltb_spec (scanline (ppu n)) 240); [|split; [apply beam_frame_refl|auto]].
  set (n1 := if flag ShowBGSP (reg (ppu n)) then set_ppu (rendering_tick (pak n) (ppu n)) n else n).
  assert (H1 : beam_frame n n1 /\ VBlankState (ppu n1) = VBlankState (ppu n) /\
               cycle_counter (ppu n1) = cycle_counter (ppu n)).
  { subst n1. destruct (flag ShowBGSP (reg (ppu n))); [apply rendering_tick_beam|].
    split; [apply beam_frame_refl|auto]. }
  destruct H1 as (H1 & V1 & C1).
  destruct ((0 <=? scanline (ppu n1)) && (x (ppu n1) <? 256)) eqn:E; [|auto].
  apply andb_prop in E as [E1 E2]. apply Z.leb_le in E1. apply Z.ltb_lt in E2.
  assert (Hs : scanline (ppu n1) = scanline (ppu n)) by apply H1.
  destruct (render_pixel_beam h n1 ltac:(lia) E2) as (H2 & V2 & C2).
  split; [eapply beam_frame_trans; eassumption|split; congruence].
Qed.

Lemma cc_step_beam n :
  beam_frame n (set_ppu_with cc_step n) /\
  VBlankState (ppu (set_ppu_with cc_step n)) = VBlankState (ppu n) /\
  cycle_counter (ppu (set_ppu_with cc_step n)) =
    (if cycle_counter (ppu n) + 1 =? 3 then 0 else cycle_counter (ppu n) + 1).
Proof. unfold beam_frame, cc_step. st. repeat split; auto. Qed.

Lemma sp0_hack_beam n :
  beam_frame n (set_ppu_with sp0_hack n) /\
  VBlankState (ppu (set_ppu_with sp0_hack n)) = VBlankState (ppu n) /\
  cycle_counter (ppu (set_ppu_with sp0_hack n)) = cycle_counter (ppu n).
Proof.
  unfold beam_frame, sp0_hack. st.
  destruct ((scanline (ppu n) =? 260) && (328 <=? x (ppu n)) && (x (ppu n) <=? 339)); st;
    [rewrite status_low_put, (get_put_other SP0hit ShowBG) by field_solve|]; repeat split; auto.
Qed.

Lemma ShowBG_ShowBGSP w : flag ShowBG w = true -> flag ShowBGSP w = true.
Proof.
  unfold flag, get, bits. cbn [rb_off rb_len ShowBG ShowBGSP].
  change (Z.ones 1) with 1. change (Z.ones 2) with 3.
  rewrite !negb_true_iff, !Z.eqb_neq. intros H H'. apply H.
  replace (Z.land (Z.shiftr w 11) 1) with (Z.land (Z.land (Z.shiftr w 11) 3) 1)
    by (rewrite <- Z.land_assoc; reflexivity).
  rewrite H'. reflexivity.
Qed.

Lemma rendering_tick_se g p :
  scanline_end (rendering_tick g p) = if skip_cond p then 340 else scanline_end p.
Proof.
  unfold rendering_tick. rewrite sprite_eval_se.
  destruct (Z.eqb_spec (x p mod 8) 1) as [E|E].
  - unfold fetch_phase. rewrite E. cbn iota. unfold nametable_access, skip_cond.
    destruct ((x p =? 337) && (scanline p =? -1) && even_odd_toggle p && flag ShowBG (reg p)
              && (match mode_ p with NTSC => true | PAL => false end)); se_tac.
  - assert (Hx : x p <> 337) by (intros Hx; rewrite Hx in E; apply E; reflexivity).
    unfold skip_cond. apply Z.eqb_neq in Hx as Hx'. rewrite Hx'. cbn [andb].
    destruct (fetch_phase_rframe g p) as (_ & _ & _ & _ & _ & _ & _ & _ & _ & [L|L]); lia.
Qed.

Lemma graphics_se h n :
  scanline_end (ppu (graphics h n)) =
  if (scanline (ppu n) <? 240) && flag ShowBGSP (reg (ppu n)) && skip_cond (ppu n)
  then 340 else scanline_end (ppu n).
Proof.
  unfold graphics.
  destruct (scanline (ppu n) <? 240); cbn [andb]; [|reflexivity].
  set (n1 := if flag ShowBGSP (reg (ppu n)) then set_ppu (rendering_tick (pak n) (ppu n)) n else n).
  assert (H1 : scanline_end (ppu n1) =
               if flag ShowBGSP (reg (ppu n)) && skip_cond (ppu n) then 340 else scanline_end (ppu n)).
  { subst n1. destruct (flag ShowBGSP (reg (ppu n))); cbn [andb]; [|reflexivity].
    st. apply rendering_tick_se. }
  rewrite <- H1.
  destruct ((0 <=? scanline (ppu n1)) && (x (ppu n1) <? 256)); [|reflexivity].
  unfold render_pixel. destruct (compose_pixel_ppu h (ppu n1)) as [Hp|Hp]; rewrite Hp; st; reflexivity.
Qed.

Lemma vblank_service_skip n :
  skip_cond (ppu (vblank_service n)) = skip_cond (ppu n) /\
  flag ShowBGSP (reg (ppu (vblank_service n))) = flag ShowBGSP (reg (ppu n)) /\
  scanline_end (ppu (vblank_service n)) = scanline_end (ppu n).
Proof.
  unfold vblank_service, skip_cond, flag. cbv zeta.
  repeat (st; match goal with |- context [if ?b then _ else _] =>
                match b with context [put] => fail 1 | _ => destruct b end end);
  st; rewrite ?(get_put_other status), ?(get_put_other InVBlank) by field_solve; auto.
Qed.

Lemma open_bus_decay_skip p :
  skip_cond (open_bus_decay p) = skip_cond p /\
  flag ShowBGSP (reg (open_bus_decay p)) = flag ShowBGSP (reg p) /\
  scanline_end (open_bus_decay p) = scanline_end p.
Proof.
  unfold open_bus_decay, skip_cond.
  destruct (open_bus_decay_timer p =? 0); st; [auto|].
  destruct (open_bus_decay_timer p - 1 =? 0); st; auto.
Qed.

Lemma pre_graphics_se h n :
  scanline_end (ppu (pre_graphics h n)) =
  if skip_cond (ppu n) then 340 else scanline_end (ppu n).
Proof.
  unfold pre_graphics. rewrite graphics_se. unfold set_ppu_with. st.
  destruct (vblank_service_skip n) as (S1 & S2 & S3).
  destruct (open_bus_decay_skip (ppu (vblank_service n))) as (O1 & O2 & O3).
  rewrite O1, O2, O3, S1, S2, S3.
  destruct (skip_cond (ppu n)) eqn:K; [|rewrite andb_false_r; reflexivity].
  unfold skip_cond in K. apply andb_prop in K as [K K5]. apply andb_prop in K as [K K4].
  apply andb_prop in K as [K K3]. apply andb_prop in K as [K1 K2].
  apply Z.eqb_eq in K2.
  destruct (vblank_service_facts n) as (_ & _ & _ & _ & Vs & _).
  destruct (open_bus_decay_facts (ppu (vblank_service n))) as (_ & Ds & _).
  rewrite Ds, Vs, K2, ShowBG_ShowBGSP by exact K4. reflexivity.
Qed.

Lemma advance_end_spec last h n m :
  beam_frame n m -> VBlankState (ppu m) = vbs_step (VBlankState (ppu n)) ->
  scanline_end (ppu m) = (if skip_cond (ppu n) then 340 else scanline_end (ppu n)) ->
  340 <= scanline_end (ppu n) ->
  beat_spec last n (end_of_beat h (advance_column last m)).
Proof.
  intros (X & S & _ & C & M & E & V & P & _) Hv Hse Hl.
  assert (W : (x (ppu m) + 1 =? scanline_end (ppu m)) = (x (ppu n) + 1 =? scanline_end (ppu n))).
  { rewrite X, Hse. destruct (skip_cond (ppu n)) eqn:K; [|reflexivity].
    unfold skip_cond in K. apply andb_prop in K as [K _]. apply andb_prop in K as [K _].
    apply andb_prop in K as [K _]. apply andb_prop in K as [K1 _]. apply Z.eqb_eq in K1.
    rewrite K1. change (337 + 1 =? 340) with false. symmetry. apply Z.eqb_neq. lia. }
  unfold beat_spec, advance_column, end_of_beat, set_ppu_with. cbv zeta. st.
  rewrite W, S.
  destruct (x (ppu n) + 1 =? scanline_end (ppu n)) eqn:Wn.
  - destruct (scanline (ppu n) =? 239); st;
    destruct (scanline (ppu n) + 1 =? last); st;
    try destruct (scanline (ppu n) + 1 =? 241); st; cbn [negb andb];
    rewrite ?V, <- ?app_assoc; cbn [app]; rewrite ?app_nil_r; repeat split; auto; try congruence.
  - st. repeat split; auto; try congruence.
Qed.

Lemma advance_end_keeps last h m :
  reg (ppu (end_of_beat h (advance_column last m))) = reg (ppu m) /\
  cycle_counter (ppu (end_of_beat h (advance_column last m))) = cycle_counter (ppu m) /\
  frame_buffer (end_of_beat h (advance_column last m)) = frame_buffer m /\
  mode_ (ppu (end_of_beat h (advance_column last m))) = mode_ (ppu m).
Proof.
  unfold advance_column, end_of_beat, set_ppu_with. cbv zeta. st.
  repeat (st; match goal with |- context [if ?b then _ else _] => destruct b end); st; auto.
Qed.

Lemma pre_graphics_beam h n :
  beam_frame n (pre_graphics h n) /\
  VBlankState (ppu (pre_graphics h n)) = vbs_step (VBlankState (ppu n)) /\
  cycle_counter (ppu (pre_graphics h n)) = cycle_counter (ppu n).
Proof.
  unfold pre_graphics.
  destruct (vblank_service_beam n) as (B1 & V1 & C1).
  destruct (open_bus_decay_beam (vblank_service n)) as (B2 & V2 & C2).
  destruct (graphics_beam h (set_ppu_with open_bus_decay (vblank_service n))) as (B3 & V3 & C3).
  split; [eapply beam_frame_trans; [exact B1|eapply beam_frame_trans; [exact B2|exact B3]]|].
  split; congruence.
Qed.

Lemma beat_ntsc_split h n : beat_ntsc h n = end_of_beat h (advance_column 261 (ntsc_mid h n)).
Proof. reflexivity. Qed.

Lemma beat_pal_split h n : beat_pal h n = end_of_beat h (advance_column 311 (pre_graphics h n)).
Proof. reflexivity. Qed.

Lemma ntsc_mid_beam h n :
  beam_frame n (ntsc_mid h n) /\
  VBlankState (ppu (ntsc_mid h n)) = vbs_step (VBlankState (ppu n)) /\
  cycle_counter (ppu (ntsc_mid h n)) =
    (if cycle_counter (ppu n) + 1 =? 3 then 0 else cycle_counter (ppu n) + 1) /\
  scanline_end (ppu (ntsc_mid h n)) = scanline_end (ppu (pre_graphics h n)).
Proof.
  destruct (pre_graphics_beam h n) as (B1 & V1 & C1).
  destruct (cc_step_beam (pre_graphics h n)) as (B2 & V2 & C2).
  destruct (sp0_hack_beam (set_ppu_with cc_step (pre_graphics h n))) as (B3 & V3 & C3).
  unfold ntsc_mid. split; [eapply beam_frame_trans; [exact B1|eapply beam_frame_trans; [exact B2|exact B3]]|].
  rewrite V3, V2, C3, C2, C1. split; [exact V1|split; [reflexivity|]].
  unfold sp0_hack, cc_step, set_ppu_with. st.
  destruct ((scanline (ppu (pre_graphics h n)) =? 260) && (328 <=? x (ppu (pre_graphics h n)))
            && (x (ppu (pre_graphics h n)) <=? 339)); st; reflexivity.
Qed.

Lemma beat_ntsc_step_core h n :
  340 <= scanline_end (ppu n) -> beat_spec 261 n (beat_ntsc h n).
Proof.
  intros Hl. rewrite beat_ntsc_split.
  destruct (ntsc_mid_beam h n) as (B & V & _ & Se).
  apply advance_end_spec; auto. rewrite Se. apply pre_graphics_se.
Qed.

Lemma beat_pal_step_core h n :
  340 <= scanline_end (ppu n) -> beat_spec 311 n (beat_pal h n).
Proof.
  intros Hl. rewrite beat_pal_split.
  destruct (pre_graphics_beam h n) as (B & V & _).
  apply advance_end_spec; auto. apply pre_graphics_se.
Qed.

Lemma vbs_step_range v : -5 <= v <= 2 -> -5 <= vbs_step v <= 2.
Proof.
  unfold vbs_step. intros H.
  destruct (Z.eqb_spec v 0); [lia|]. destruct (Z.ltb_spec v 0); lia.
Qed.

Lemma beat_spec_beam last n m :
  0 <= last -> beam_ok last (ppu n) -> -5 <= VBlankState (ppu n) <= 2 ->
  beat_spec last n m ->
  beam_ok last (ppu m) /\ -5 <= VBlankState (ppu m) <= 2 /\ mode_ (ppu m) = mode_ (ppu n).
Proof.
  unfold beam_ok, beat_spec. cbv zeta. intros Hl (Hx & Hse & Hs) Hv (_ & Hm & _ & H).
  split; [|split; [|exact Hm]].
  - destruct (Z.eqb_spec (x (ppu n) + 1) (scanline_end (ppu n))) as [W|W].
    + destruct H as (X & Se & S & _). rewrite X, Se, S.
      destruct (Z.eqb_spec (scanline (ppu n) + 1) last); lia.
    + destruct H as (X & S & Se & _). rewrite X, S, Se.
      destruct (skip_cond (ppu n)) eqn:K; [|lia].
      unfold skip_cond in K. apply andb_prop in K as [K _]. apply andb_prop in K as [K _].
      apply andb_prop in K as [K _]. apply andb_prop in K as [K1 _]. apply Z.eqb_eq in K1. lia.
  - destruct (x (ppu n) + 1 =? scanline_end (ppu n)).
    + destruct H as (_ & _ & _ & _ & V & _). rewrite V.
      destruct (scanline (ppu n) + 1 =? last); [lia|].
      destruct (scanline (ppu n) + 1 =? 241); [lia|]. apply vbs_step_range; exact Hv.
    + destruct H as (_ & _ & _ & _ & V & _). rewrite V. apply vbs_step_range; exact Hv.
Qed.

Lemma status_low_clear_bits p : status_low_clear p <-> bits (reg p) 16 5 = 0.
Proof. unfold status_low_clear. rewrite status_low_bits. reflexivity. Qed.

Lemma beat_ntsc_inv h n :
  mode_ (ppu n) = NTSC -> ppu_inv (ppu n) ->
  ppu_inv (ppu (beat_ntsc h n)) /\ mode_ (ppu (beat_ntsc h n)) = NTSC.
Proof.
  intros Hm (Hb & Hv & Hc & Hs). rewrite Hm in Hb. cbn [last_line] in Hb.
  assert (Hspec := beat_ntsc_step_core h n ltac:(unfold beam_ok in Hb; lia)).
  destruct (beat_spec_beam 261 n _ ltac:(lia) Hb Hv Hspec) as (B & V & M).
  rewrite Hm in M. unfold ppu_inv. rewrite M. cbn [last_line].
  split; [|reflexivity]. split; [exact B|split; [exact V|]].
  rewrite beat_ntsc_split.
  destruct (advance_end_keeps 261 h (ntsc_mid h n)) as (R & C & _).
  destruct (ntsc_mid_beam h n) as ((_ & _ & _ & _ & _ & _ & _ & _ & Bs & _) & _ & Cc & _).
  split.
  - rewrite C, Cc. destruct (Z.eqb_spec (cycle_counter (ppu n) + 1) 3); lia.
  - refine (proj2 (status_low_clear_bits _) _). rewrite R. apply Bs.
    exact (proj1 (status_low_clear_bits _) Hs).
Qed.

Lemma beat_pal_inv h n :
  mode_ (ppu n) = PAL -> ppu_inv (ppu n) ->
  ppu_inv (ppu (beat_pal h n)) /\ mode_ (ppu (beat_pal h n)) = PAL.
Proof.
  intros Hm (Hb & Hv & Hc & Hs). rewrite Hm in Hb. cbn [last_line] in Hb.
  assert (Hspec := beat_pal_step_core h n ltac:(unfold beam_ok in Hb; lia)).
  destruct (beat_spec_beam 311 n _ ltac:(lia) Hb Hv Hspec) as (B & V & M).
  rewrite Hm in M. unfold ppu_inv. rewrite M. cbn [last_line].
  split; [|reflexivity]. split; [exact B|split; [exact V|]].
  rewrite beat_pal_split.
  destruct (advance_end_keeps 311 h (pre_graphics h n)) as (R & C & _).
  destruct (pre_graphics_beam h n) as ((_ & _ & _ & _ & _ & _ & _ & _ & Bs & _) & _ & Cc).
  split.
  - rewrite C, Cc. exact Hc.
  - refine (proj2 (status_low_clear_bits _) _). rewrite R. apply Bs.
    exact (proj1 (status_low_clear_bits _) Hs).
Qed.

Lemma beats_inv (b : Host -> Nes -> Nes) (md : Mode) h :
  (forall n, mode_ (ppu n) = md -> ppu_inv (ppu n) ->
             ppu_inv (ppu (b h n)) /\ mode_ (ppu (b h n)) = md) ->
  forall k n, mode_ (ppu n) = md -> ppu_inv (ppu n) ->
  ppu_inv (ppu (beats b h k n)) /\ mode_ (ppu (beats b h k n)) = md.
Proof.
  intros Hb k. induction k as [|k IH]; intros n Hm Hi; [auto|].
  cbn [beats]. destruct (Hb n Hm Hi) as [Hi' Hm']. apply IH; assumption.
Qed.

(** X16: [Tick] preserves the PPU invariant [ppu_inv] (beam inside its line and frame, VBlank countdown in -5..2, pixel counter in 0..2, low status bits clear) and the video mode. *)
Theorem Tick_inv h n :
  ppu_inv (ppu n) -> ppu_inv (ppu (Tick h n)) /\ mode_ (ppu (Tick h n)) = mode_ (ppu n).
Proof.
  intros Hi. unfold Tick.
  destruct (mode_ (ppu n)) eqn:Hm.
  - apply (beats_inv beat_ntsc NTSC h (beat_ntsc_inv h) 3 n Hm Hi).
  - unfold TickPAL. destruct (cpu_cycles n mod 5 =? 4).
    + apply (beats_inv beat_pal PAL h (beat_pal_inv h) 4 n Hm Hi).
    + apply (beats_inv beat_pal PAL h (beat_pal_inv h) 3 n Hm Hi).
Qed.

Lemma Tick_inv_witness :
  ppu_inv (ppu power_on) /\ ppu_inv (ppu (Tick host0 power_on)).
Proof.
  assert (H : ppu_inv (ppu power_on)).
  { unfold ppu_inv, beam_ok, status_low_clear. vm_compute. repeat split; discriminate. }
  exact (conj H (proj1 (Tick_inv host0 power_on H))).
Defined.

Lemma inv_frame_ok p q : inv_frame p q -> ppu_inv p -> ppu_inv q.
Proof.
  unfold inv_frame, ppu_inv, beam_ok. rewrite !status_low_clear_bits.
  intros (X & S & Se & M & C & B & V) (Hb & Hv & Hc & Hs).
  rewrite X, S, Se, M, C, B. split; [exact Hb|]. split; [destruct V as [V|V]; rewrite V; lia|auto].
Qed.

Ltac inv_frame_tac :=
  unfold inv_frame; st;
  rewrite ?status_low_put by field_solve;
  repeat split; auto.

Lemma Read_inv_frame a n : inv_frame (ppu n) (ppu (fst (Read a n))).
Proof.
  destruct (land7_cases a) as [H|[H|[H|[H|[H|[H|[H|H]]]]]]];
    unfold Read; rewrite H; cbn iota; cbv zeta; try (st; inv_frame_tac; fail).
  - cbn [fst]. st. destruct (VBlankState (ppu n) =? -5); inv_frame_tac.
  - destruct (Z.land (get raw (vaddr (ppu n))) 0x3F00 =? 0x3F00); cbn [fst];
      unfold vaddr_advance, RefreshOpenBus; inv_frame_tac.
Qed.

Lemma store_ppu_frame l v n : inv_frame (ppu n) (ppu (store l v n)).
Proof. destruct l; unfold store, set_ppu_with; inv_frame_tac. Qed.

Lemma Write_inv_frame a d n : inv_frame (ppu n) (ppu (Write a d n)).
Proof.
  destruct (land7_cases a) as [H|[H|[H|[H|[H|[H|[H|H]]]]]]];
    unfold Write; rewrite H; cbn iota; cbv zeta; unfold RefreshOpenBus; st;
    try (inv_frame_tac; fail).
  all: try (unfold incr; inv_frame_tac; fail).
  all: try (destruct (offset_toggle_ (ppu n)); inv_frame_tac; fail).
  unfold vaddr_advance. st.
  match goal with |- context [store ?l ?v ?m] =>
    destruct (store_ppu_frame l v m) as (X & S & Se & M & C & B & V) end.
  revert X S Se M C B V. st. intros.
  unfold inv_frame. st. rewrite X, S, Se, M, C, B. repeat split; auto.
Qed.

Lemma lifecycle_low r :
  bits (put status (Z.land (get status (put dispctrl (Z.land (get dispctrl (put sysctrl 0 r)) 0x6)
                                          (put sysctrl 0 r))) 0x1F)
             (put dispctrl (Z.land (get dispctrl (put sysctrl 0 r)) 0x6) (put sysctrl 0 r))) 16 5 =
  bits r 16 5.
Proof.
  destruct (lifecycle_reg r) as (_ & _ & R3 & _). cbv zeta in R3.
  rewrite <- !status_low_bits, R3, <- Z.land_assoc. reflexivity.
Qed.

Lemma Power_inv_frame n : inv_frame (ppu n) (ppu (Power n)).
Proof.
  unfold Power. cbv zeta. unfold inv_frame. st.
  rewrite status_low_put by field_solve. rewrite lifecycle_low. repeat split; auto.
Qed.

Lemma Reset_inv_frame n : inv_frame (ppu n) (ppu (Reset n)).
Proof.
  unfold Reset. cbv zeta. unfold inv_frame. st.
  rewrite lifecycle_low. repeat split; auto.
Qed.

(** X14: [Initialize] establishes the PPU invariant [ppu_inv] whatever state it starts from. *)
Lemma Initialize_inv p : ppu_inv (Initialize p).
Proof.
  unfold ppu_inv, beam_ok, status_low_clear, Initialize. st.
  assert (H : get status (put value 0 (reg p)) = 0).
  { rewrite (get_put_sub value status) by field_solve. reflexivity. }
  rewrite H. destruct (mode_ p); cbn [last_line]; repeat split; try lia; reflexivity.
Qed.

Lemma advance_end_cycles last h m :
  cycles (ppu (end_of_beat h (advance_column last m))) = cycles (ppu m) + 1 /\
  cpu_cycles (end_of_beat h (advance_column last m)) = cpu_cycles m.
Proof.
  unfold advance_column, end_of_beat, set_ppu_with. cbv zeta. st.
  repeat (st; match goal with |- context [if ?b then _ else _] => destruct b end); st; auto.
Qed.

Lemma beat_ntsc_cycles h n :
  cycles (ppu (beat_ntsc h n)) = cycles (ppu n) + 1 /\
  mode_ (ppu (beat_ntsc h n)) = mode_ (ppu n) /\ cpu_cycles (beat_ntsc h n) = cpu_cycles n.
Proof.
  rewrite beat_ntsc_split.
  destruct (advance_end_cycles 261 h (ntsc_mid h n)) as [C P].
  destruct (advance_end_keeps 261 h (ntsc_mid h n)) as (_ & _ & _ & M).
  destruct (ntsc_mid_beam h n) as ((_ & _ & _ & C' & M' & _ & _ & P' & _) & _).
  rewrite C, P, M, C', M', P'. auto.
Qed.

Lemma beat_pal_cycles h n :
  cycles (ppu (beat_pal h n)) = cycles (ppu n) + 1 /\
  mode_ (ppu (beat_pal h n)) = mode_ (ppu n) /\ cpu_cycles (beat_pal h n) = cpu_cycles n.
Proof.
  rewrite beat_pal_split.
  destruct (advance_end_cycles 311 h (pre_graphics h n)) as [C P].
  destruct (advance_end_keeps 311 h (pre_graphics h n)) as (_ & _ & _ & M).
  destruct (pre_graphics_beam h n) as ((_ & _ & _ & C' & M' & _ & _ & P' & _) & _).
  rewrite C, P, M, C', M', P'. auto.
Qed.

Lemma beats_cycles (b : Host -> Nes -> Nes) h :
  (forall n, cycles (ppu (b h n)) = cycles (ppu n) + 1 /\ mode_ (ppu (b h n)) = mode_ (ppu n)) ->
  forall k n, cycles (ppu (beats b h k n)) = cycles (ppu n) + Z.of_nat k /\
              mode_ (ppu (beats b h k n)) = mode_ (ppu n).
Proof.
  intros Hb k. induction k as [|k IH]; intros n; cbn [beats]; [split; [lia|reflexivity]|].
  destruct (Hb n) as [C M]. destruct (IH (b h n)) as [C' M']. rewrite C', M', C, M. split; [lia|reflexivity].
Qed.

(** X17: a [Tick] adds 3 to the PPU cycle count in NTSC mode, and in PAL mode 4 when the CPU cycle count is 4 mod 5 and 3 otherwise. *)
Theorem Tick_cycles h n :
  cycles (ppu (Tick h n)) =
    cycles (ppu n) + (match mode_ (ppu n) with
                      | NTSC => 3
                      | PAL => if cpu_cycles n mod 5 =? 4 then 4 else 3 end) /\
  mode_ (ppu (Tick h n)) = mode_ (ppu n).
Proof.
  assert (Hn : forall n, cycles (ppu (beat_ntsc h n)) = cycles (ppu n) + 1 /\
                         mode_ (ppu (beat_ntsc h n)) = mode_ (ppu n))
    by (intros m; destruct (beat_ntsc_cycles h m) as (C & M & _); auto).
  assert (Hp : forall n, cycles (ppu (beat_pal h n)) = cycles (ppu n) + 1 /\
                         mode_ (ppu (beat_pal h n)) = mode_ (ppu n))
    by (intros m; destruct (beat_pal_cycles h m) as (C & M & _); auto).
  unfold Tick. destruct (mode_ (ppu n)) eqn:Hm.
  - unfold TickNTSC. destruct (beats_cycles beat_ntsc h Hn 3 n) as [C M]. rewrite C, M, Hm. auto.
  - unfold TickPAL. destruct (cpu_cycles n mod 5 =? 4).
    + destruct (beats_cycles beat_pal h Hp 4 n) as [C M]. rewrite C, M, Hm. auto.
    + destruct (beats_cycles beat_pal h Hp 3 n) as [C M]. rewrite C, M, Hm. auto.
Qed.

(** X20: a beat writes at most one frame-buffer entry: the pixel at the beam position, and only on a visible line below column 256. *)
Theorem beat_frame_buffer h n i :
  (frame_buffer (beat_ntsc h n) i = frame_buffer n i \/ beam_pixel n i) /\
  (frame_buffer (beat_pal h n) i = frame_buffer n i \/ beam_pixel n i).
Proof.
  rewrite beat_ntsc_split, beat_pal_split.
  destruct (advance_end_keeps 261 h (ntsc_mid h n)) as (_ & _ & F1 & _).
  destruct (advance_end_keeps 311 h (pre_graphics h n)) as (_ & _ & F2 & _).
  destruct (ntsc_mid_beam h n) as ((_ & _ & _ & _ & _ & _ & _ & _ & _ & _ & B1) & _).
  destruct (pre_graphics_beam h n) as ((_ & _ & _ & _ & _ & _ & _ & _ & _ & _ & B2) & _).
  rewrite F1, F2. unfold beam_pixel. split; [apply B1|apply B2].
Qed.

Lemma Read_status_nmi_state a n :
  Z.land a 7 = 2 -> VBlankState (ppu n) <> -5 ->
  VBlankState (ppu (fst (Read a n))) = 0 /\ flag InVBlank (reg (ppu (fst (Read a n)))) = false.
Proof.
  intros H Hv. unfold Read. rewrite H. cbv zeta. cbn [fst]. st.
  apply Z.eqb_neq in Hv. rewrite Hv. st. split; [reflexivity|].
  rewrite flag_put_same by field_solve. reflexivity.
Qed.

(** X21: a port-2 read outside the -5 VBlank state cancels the pending VBlank, so the next beat raises no NMI, in NTSC and in PAL. *)
Theorem status_read_suppresses_nmi a h n :
  Z.land a 7 = 2 -> VBlankState (ppu n) <> -5 ->
  VBlankState (ppu (fst (Read a n))) = 0 /\ flag InVBlank (reg (ppu (fst (Read a n)))) = false /\
  nmi (beat_ntsc h (fst (Read a n))) = false /\ nmi (beat_pal h (fst (Read a n))) = false.
Proof.
  intros H Hv. destruct (Read_status_nmi_state a n H Hv) as [V F].
  split; [exact V|]. split; [exact F|].
  set (m := fst (Read a n)) in *.
  destruct (beat_ntsc_facts h m) as (N1 & _). destruct (beat_pal_facts h m) as (N2 & _).
  destruct (pre_graphics_facts h m) as (N3 & _). destruct (vblank_service_facts m) as (N4 & _).
  rewrite N1, N2, N3, N4, V, F. split; reflexivity.
Qed.

Lemma sprite_overlay_nohit o3 xx fuel : forall sno pixel attr,
  (255 <= xx \/ pixel = 0) -> snd (sprite_overlay o3 xx sno fuel pixel attr false) = false.
Proof.
  induction fuel as [|fuel IH]; intros sno pixel attr H; cbn [sprite_overlay]; [reflexivity|].
  cbv zeta.
  destruct (8 <=? u32 (xx - Sprite.x (o3 sno))); [apply IH; exact H|].
  match goal with |- context [if pattern_pixel ?a ?b =? 0 then _ else _] =>
    destruct (pattern_pixel a b =? 0) end; [apply IH; exact H|].
  assert (Hh : (xx <? 255) && negb (pixel =? 0) && (Sprite.sprindex (o3 sno) =? 0) = false).
  { destruct H as [H|H].
    - replace (xx <? 255) with false by (symmetry; apply Z.ltb_ge; lia). reflexivity.
    - rewrite H. rewrite andb_false_r. reflexivity. }
  rewrite Hh. cbn [orb].
  destruct ((Z.land (Sprite.attr (o3 sno)) 0x20 =? 0) || (pixel =? 0)); reflexivity.
Qed.

Lemma ShowSP_ShowBGSP w : flag ShowSP w = true -> flag ShowBGSP w = true.
Proof.
  unfold flag, get, bits. cbn [rb_off rb_len ShowSP ShowBGSP].
  change (Z.ones 1) with 1. change (Z.ones 2) with 3.
  rewrite !negb_true_iff, !Z.eqb_neq. intros H H'. apply H.
  assert (T : Z.testbit (Z.land (Z.shiftr w 11) 3) 1 = Z.testbit w 12)
    by (rewrite Z.land_spec, Z.shiftr_spec by lia; cbn [Z.add Pos.add]; rewrite andb_true_r; reflexivity).
  rewrite H' in T. change (Z.testbit 0 1) with false in T.
  apply Z.bits_inj'. intros i Hi. rewrite Z.land_spec, Z.shiftr_spec, Z.bits_0 by lia.
  destruct (Z.eq_dec i 0) as [->|Hi']; [change (0 + 12) with 12; rewrite <- T; reflexivity|].
  rewrite (Z.bits_above_log2 1 i) by (cbn; lia). apply andb_false_r.
Qed.

(** X22: composing a pixel leaves the PPU unchanged (no sprite-0 hit) at columns from 255 on, with sprites hidden, or with the background hidden. *)
Theorem sprite0_hit_needs h p :
  255 <= x p \/ flag ShowSP (reg p) = false \/ flag ShowBG (reg p) = false ->
  fst (fst (compose_pixel h p)) = p.
Proof.
  intros H. unfold compose_pixel. cbv zeta.
  set (bgp := if flag ShowBG (reg p) && _ then _ else _).
  assert (Hbg : 255 <= x p \/ fst bgp = 0 \/
                flag ShowSP (reg p) && (negb (Z.land (x p + 8) 0xFF <? 16) || flag ShowSP8 (reg p)) = false).
  { destruct H as [H|[H|H]]; [left; exact H|right; right; rewrite H; reflexivity|].
    destruct (flag ShowSP (reg p)) eqn:Esp; [|right; right; reflexivity].
    right; left. subst bgp. rewrite H. cbn [andb].
    rewrite (ShowSP_ShowBGSP _ Esp), andb_false_r. reflexivity. }
  clearbody bgp. destruct bgp as [pixel attr]. cbn [fst] in Hbg.
  destruct (flag ShowSP (reg p) && (negb (Z.land (x p + 8) 0xFF <? 16) || flag ShowSP8 (reg p))) eqn:Esp.
  - destruct (sprite_overlay (OAM3 p) (x p) 0 (Z.to_nat (sprrenpos p)) pixel attr false)
      as [[px at'] hit] eqn:So.
    assert (Hh : hit = false).
    { change hit with (snd (px, at', hit)). rewrite <- So. apply sprite_overlay_nohit.
      destruct Hbg as [Hb|[Hb|Hb]]; [left; exact Hb|right; exact Hb|discriminate]. }
    rewrite Hh. reflexivity.
  - reflexivity.
Qed.

Ltac gp := repeat match goal with
  | |- context [get ?f (put ?f ?v ?w)] => rewrite (get_put_same f v w) by field_solve
  | |- context [get ?g (put ?f ?v ?w)] => rewrite (get_put_other f g v w) by field_solve
  end.

Lemma mod_succ a m : 0 <= a < m -> (a + 1) mod m = if a + 1 =? m then 0 else a + 1.
Proof.
  intros H. destruct (Z.eqb_spec (a + 1) m) as [E|E].
  - rewrite E. apply Z.mod_same. lia.
  - apply Z.mod_small. lia.
Qed.

Lemma bit_flip b : 0 <= b < 2 -> (1 - b) mod 2 = 1 - b.
Proof. intros H. apply Z.mod_small. lia. Qed.

Lemma next_tile_h v :
  let v2 := (let v := incr xcoarse v in
             if get xcoarse v =? 0 then put basenta_h (1 - get basenta_h v) v else v) in
  get xcoarse v2 = (get xcoarse v + 1) mod 32 /\
  get basenta_h v2 = (if get xcoarse v =? 31 then 1 - get basenta_h v else get basenta_h v) /\
  get xfine v2 = get xfine v /\ get yfine v2 = get yfine v /\
  get ycoarse v2 = get ycoarse v /\ get basenta_v v2 = get basenta_v v.
Proof.
  cbv zeta. unfold incr. gp.
  pose proof (get_range xcoarse v ltac:(field_solve)) as Rx.
  pose proof (get_range basenta_h v ltac:(field_solve)) as Rb.
  unfold_fields. change (2 ^ 5) with 32 in *. change (2 ^ 1) with 2 in *.
  rewrite mod_succ by lia.
  destruct (Z.eqb_spec (get (mkRegBit 3 5) v + 1) 32) as [E|E];
    [replace (get (mkRegBit 3 5) v =? 31) with true by (symmetry; apply Z.eqb_eq; lia)
    |replace (get (mkRegBit 3 5) v =? 31) with false by (symmetry; apply Z.eqb_neq; lia)];
    cbn [Z.eqb];
    [|destruct (Z.eqb_spec (get (mkRegBit 3 5) v + 1) 0); [lia|]];
    gp; unfold_fields; change (2 ^ 1) with 2; rewrite ?bit_flip by lia; repeat split; auto.
all: change (2 ^ 5) with 32; rewrite mod_succ by lia; destruct (Z.eqb_spec (get (mkRegBit 3 5) v + 1) 32); lia.
Qed.

Ltac mod_close :=
  cbn [rb_off rb_len] in *; change (2 ^ 3) with 8 in *; change (2 ^ 5) with 32 in *;
  change (2 ^ 1) with 2 in *; rewrite ?mod_succ by lia;
  repeat match goal with |- context [?a =? ?b] => destruct (Z.eqb_spec a b) end; lia.

Lemma next_tile_v v :
  let v3 := (let v := incr yfine v in
             if get yfine v =? 0 then
               let v := incr ycoarse v in
               if get ycoarse v =? 30
               then put basenta_v (1 - get basenta_v v) (put ycoarse 0 v)
               else v
             else v) in
  get yfine v3 = (get yfine v + 1) mod 8 /\
  (if get yfine v =? 7 then
     get ycoarse v3 = (if get ycoarse v =? 29 then 0 else (get ycoarse v + 1) mod 32) /\
     get basenta_v v3 = (if get ycoarse v =? 29 then 1 - get basenta_v v else get basenta_v v)
   else get ycoarse v3 = get ycoarse v /\ get basenta_v v3 = get basenta_v v) /\
  get xfine v3 = get xfine v /\ get xcoarse v3 = get xcoarse v /\
  get basenta_h v3 = get basenta_h v.
Proof.
  cbv zeta. unfold incr. gp.
  pose proof (get_range yfine v ltac:(field_solve)) as Ry.
  pose proof (get_range ycoarse v ltac:(field_solve)) as Rc.
  pose proof (get_range basenta_v v ltac:(field_solve)) as Rb.
  unfold_fields. change (2 ^ 3) with 8 in *. change (2 ^ 5) with 32 in *. change (2 ^ 1) with 2 in *.
  set (fy := get (mkRegBit 15 3) v) in *. set (yc := get (mkRegBit 8 5) v) in *.
  rewrite (mod_succ fy) by lia.
  destruct (Z.eqb_spec (fy + 1) 8) as [E|E].
  - replace (fy =? 7) with true by (symmetry; apply Z.eqb_eq; lia). cbn [Z.eqb].
    gp. unfold_fields. change (2 ^ 5) with 32. change (2 ^ 1) with 2.
    rewrite (mod_succ yc) by lia.
    destruct (Z.eqb_spec (yc + 1) 32) as [E'|E'].
    + replace (yc =? 29) with false by (symmetry; apply Z.eqb_neq; lia). cbn [Z.eqb].
      gp. repeat split; auto; try mod_close.
    + destruct (Z.eqb_spec (yc + 1) 30) as [E2|E2].
      * replace (yc =? 29) with true by (symmetry; apply Z.eqb_eq; lia).
        gp. unfold_fields. change (2 ^ 5) with 32. change (2 ^ 1) with 2.
        rewrite bit_flip by lia. repeat split; auto; try mod_close.
      * replace (yc =? 29) with false by (symmetry; apply Z.eqb_neq; lia).
        gp; repeat split; auto; try mod_close.
  - replace (fy =? 7) with false by (symmetry; apply Z.eqb_neq; lia).
    destruct (Z.eqb_spec (fy + 1) 0); [lia|]. gp; repeat split; auto; try mod_close.
Qed.

(** X23: advancing to the next tile increments the coarse X scroll mod 32, flipping the horizontal nametable bit on wrap; at column 251 it also increments the fine Y scroll mod 8, carrying into the coarse Y scroll, which wraps (flipping the vertical nametable bit) after row 29. *)
Theorem next_tile_vaddr_spec xx v :
  let v' := next_tile_vaddr xx v in
  get xfine v' = get xfine v /\
  get xcoarse v' = (get xcoarse v + 1) mod 32 /\
  get basenta_h v' = (if get xcoarse v =? 31 then 1 - get basenta_h v else get basenta_h v) /\
  (if xx =? 251 then
     get yfine v' = (get yfine v + 1) mod 8 /\
     (if get yfine v =? 7 then
        get ycoarse v' = (if get ycoarse v =? 29 then 0 else (get ycoarse v + 1) mod 32) /\
        get basenta_v v' = (if get ycoarse v =? 29 then 1 - get basenta_v v else get basenta_v v)
      else get ycoarse v' = get ycoarse v /\ get basenta_v v' = get basenta_v v)
   else get yfine v' = get yfine v /\ get ycoarse v' = get ycoarse v /\
        get basenta_v v' = get basenta_v v).
Proof.
  pose proof (next_tile_h v) as Hh. cbv zeta in Hh.
  unfold next_tile_vaddr. cbv zeta.
  set (v2 := if get xcoarse (incr xcoarse v) =? 0
             then put basenta_h (1 - get basenta_h (incr xcoarse v)) (incr xcoarse v)
             else incr xcoarse v) in *.
  destruct Hh as (H1 & H2 & H3 & H4 & H5 & H6).
  destruct (xx =? 251).
  - pose proof (next_tile_v v2) as Hv. cbv zeta in Hv.
    destruct Hv as (V1 & V2 & V3 & V4 & V5).
    rewrite V3, V4, V5, H1, H2, H3. split; [reflexivity|split; [reflexivity|split; [reflexivity|]]].
    rewrite V1, H4. split; [reflexivity|]. rewrite H4, H5, H6 in V2. exact V2.
  - rewrite H1, H2, H3, H4, H5, H6. repeat split.
Qed.

Lemma Write6_pair a hi lo n :
  Z.land a 7 = 6 -> 0 <= hi < 256 -> 0 <= lo < 256 -> offset_toggle_ (ppu n) = false ->
  let m := Write a lo (Write a hi n) in
  get raw (vaddr (ppu m)) = Z.lor (Z.shiftl (Z.land hi 0x3F) 8) lo /\
  offset_toggle_ (ppu m) = false /\ pak m = pak n /\ palette (ppu m) = palette (ppu n).
Proof.
  intros H Hhi Hlo Ht m. subst m.
  unfold Write. rewrite H. do 2 (st; rewrite ?Ht; cbn [negb]). st.
  rewrite !byte_land by lia.
  assert (Hh : 0 <= Z.land hi 0x3F < 64).
  { change 0x3F with (Z.ones 6). rewrite Z.land_ones by lia.
    apply Z.mod_pos_bound. lia. }
  assert (Hr := get_range raw (put vaddrlo lo (put vaddrhi (Z.land hi 0x3F) (scroll (ppu n))))).
  rewrite get_put_same by field_solve. cbn [rb_len raw] in *.
  rewrite Z.mod_small by lia.
  split; [apply raw_from_halves; lia | auto].
Qed.

Lemma Write7_at a d n :
  Z.land a 7 = 7 ->
  vram (Write a d n) (get raw (vaddr (ppu n))) = Z.land d 0xFF /\
  offset_toggle_ (ppu (Write a d n)) = offset_toggle_ (ppu n).
Proof.
  intros H. unfold Write. rewrite H. cbv zeta.
  set (n1 := set_ppu (RefreshOpenBus (Z.land d 255) (ppu n)) n).
  set (t := mmap (pak n1) (get raw (vaddr (ppu n1)))).
  destruct (store_pak_banks t (Z.land d 255) n1) as [Hb Hn].
  split.
  - unfold vram. st.
    rewrite (mmap_congr (pak (store t (Z.land d 255) n1)) (pak n1)) by auto.
    rewrite !load_set_ppu_with by (intros; unfold vaddr_advance, RefreshOpenBus; st; reflexivity).
    apply load_store_same.
  - unfold set_ppu_with, vaddr_advance, RefreshOpenBus. st.
    destruct t; unfold store; st; reflexivity.
Qed.

Lemma vram_congr n m i :
  pak m = pak n -> palette (ppu m) = palette (ppu n) -> vram m i = vram n i.
Proof.
  intros Hp Hl. unfold vram, load, loadp. rewrite Hp.
  destruct (mmap (pak n) i); rewrite ?Hl; reflexivity.
Qed.

Lemma Read7_buffered a n :
  Z.land a 7 = 7 -> Z.land (get raw (vaddr (ppu n))) 0x3F00 <> 0x3F00 ->
  read_buffer (ppu (fst (Read a n))) = vram n (get raw (vaddr (ppu n))) /\
  snd (Read a n) = read_buffer (ppu n).
Proof.
  intros H Hv. apply Z.eqb_neq in Hv. unfold Read. rewrite H. cbv zeta. rewrite Hv.
  cbn [fst snd]. unfold vaddr_advance, RefreshOpenBus. st. auto.
Qed.

(** X24: writing a non-palette VRAM address through port 6, a byte through port 7, the address again and reading port 7 leaves the byte in the read buffer, and a second port-7 read returns it unless the address has reached the palettes. *)
Theorem data_port_round_trip a6 a7 hi lo d n :
  Z.land a6 7 = 6 -> Z.land a7 7 = 7 -> 0 <= hi < 256 -> 0 <= lo < 256 ->
  offset_toggle_ (ppu n) = false ->
  Z.land (Z.lor (Z.shiftl (Z.land hi 0x3F) 8) lo) 0x3F00 <> 0x3F00 ->
  let n' := writes [(a6, hi); (a6, lo); (a7, d); (a6, hi); (a6, lo)] n in
  let n'' := fst (Read a7 n') in
  read_buffer (ppu n'') = Z.land d 0xFF /\
  (Z.land (get raw (vaddr (ppu n''))) 0x3F00 <> 0x3F00 -> snd (Read a7 n'') = Z.land d 0xFF).
Proof.
  intros H6 H7 Hhi Hlo Ht Hp n' n''.
  set (A := Z.lor (Z.shiftl (Z.land hi 0x3F) 8) lo) in *.
  set (n1 := Write a6 lo (Write a6 hi n)).
  destruct (Write6_pair a6 hi lo n H6 Hhi Hlo Ht) as (R1 & T1 & _).
  fold n1 in R1, T1.
  set (n2 := Write a7 d n1).
  destruct (Write7_at a7 d n1 H7) as [V2 T2]. fold n2 in V2, T2. rewrite R1 in V2.
  destruct (Write6_pair a6 hi lo n2 H6 Hhi Hlo ltac:(rewrite T2; exact T1)) as (R3 & _ & P3 & L3).
  assert (En : n' = Write a6 lo (Write a6 hi n2)) by reflexivity.
  rewrite <- En in R3, P3, L3.
  assert (B : read_buffer (ppu n'') = Z.land d 0xFF).
  { destruct (Read7_buffered a7 n' H7 ltac:(rewrite R3; exact Hp)) as [B _].
    subst n''. rewrite B, R3, (vram_congr n2 n') by auto. exact V2. }
  split; [exact B|].
  intros Hv. destruct (Read7_buffered a7 n'' H7 Hv) as [_ S]. rewrite S. exact B.
Qed.

Lemma fetch_nametable_ioaddr p :
  ioaddr (fetch_nametable p) = 0x2000 + Z.land (get raw (vaddr p)) 0xFFF.
Proof.
  unfold fetch_nametable. cbv zeta.
  repeat (st; match goal with |- context [if ?b then _ else _] => destruct b end); st; reflexivity.
Qed.

Lemma land_FFF_range v : 0 <= Z.land v 0xFFF < 0x1000.
Proof. change 0xFFF with (Z.ones 12). rewrite Z.land_ones by lia. apply Z.mod_pos_bound. lia. Qed.

(** X25: a fetch phase at column 0 or 2 mod 8 addresses the nametables: the attribute table of the current base nametable on attribute fetches at decode columns, and 0x2000..0x2FFF otherwise. *)
Theorem fetch_ioaddr g p :
  x p mod 8 = 0 \/ x p mod 8 = 2 ->
  let q := fetch_phase g p in
  if (x p mod 8 =? 2) && tile_decode_mode (x p)
  then 0x23C0 + 0x400 * get basenta (vaddr p) <= ioaddr q < 0x2400 + 0x400 * get basenta (vaddr p)
  else 0x2000 <= ioaddr q < 0x3000.
Proof.
  intros H q. subst q. unfold fetch_phase.
  destruct H as [H|H]; rewrite H; cbn iota; cbn [Z.eqb Pos.eqb andb].
  - rewrite fetch_nametable_ioaddr. pose proof (land_FFF_range (get raw (vaddr p))). lia.
  - destruct (tile_decode_mode (x p)); cbn [andb].
    + st. pose proof (get_range ycoarse (vaddr p) ltac:(field_solve)).
      pose proof (get_range xcoarse (vaddr p) ltac:(field_solve)).
      unfold_fields. change (2 ^ 5) with 32 in *.
      pose proof (Z.div_mod (get (mkRegBit 8 5) (vaddr p)) 4 ltac:(lia)).
      pose proof (Z.mod_pos_bound (get (mkRegBit 8 5) (vaddr p)) 4 ltac:(lia)).
      pose proof (Z.div_mod (get (mkRegBit 3 5) (vaddr p)) 4 ltac:(lia)).
      pose proof (Z.mod_pos_bound (get (mkRegBit 3 5) (vaddr p)) 4 ltac:(lia)).
      lia.
    + rewrite fetch_nametable_ioaddr. st. pose proof (land_FFF_range (get raw (vaddr p))). lia.
Qed.

Lemma status_low_clear_Read a n :
  status_low_clear (ppu n) -> status_low_clear (ppu (fst (Read a n))).
Proof.
  rewrite !status_low_clear_bits. destruct (Read_inv_frame a n) as (_ & _ & _ & _ & _ & B & _).
  rewrite B. auto.
Qed.

(** X15: register reads and writes, [Power] and [Reset] preserve the PPU invariant [ppu_inv]. *)
Theorem access_inv a d n :
  ppu_inv (ppu n) ->
  ppu_inv (ppu (fst (Read a n))) /\ ppu_inv (ppu (Write a d n)) /\
  ppu_inv (ppu (Power n)) /\ ppu_inv (ppu (Reset n)).
Proof.
  intros Hi. split; [|split; [|split]]; apply (inv_frame_ok (ppu n)); auto.
  - apply Read_inv_frame.
  - apply Write_inv_frame.
  - apply Power_inv_frame.
  - apply Reset_inv_frame.
Qed.

Lemma access_inv_witness :
  ppu_inv (ppu power_on) /\ ppu_inv (ppu (Write 0x2001 0x1E power_on)).
Proof.
  assert (H : ppu_inv (ppu power_on)).
  { unfold ppu_inv, beam_ok, status_low_clear. vm_compute. repeat split; discriminate. }
  exact (conj H (proj1 (proj2 (access_inv 0x2001 0x1E power_on H)))).
Defined.

(** X18: one NTSC beat, from a state whose line end is 340 or 341, counts a cycle and advances the beam one column, or at the line end wraps to the next line (to line -1 after line 260, flipping the even/odd toggle), with the VBlank countdown and the render and VBlank events as [beat_spec] states them. *)
Theorem beat_ntsc_step h n :
  340 <= scanline_end (ppu n) -> beat_spec 261 n (beat_ntsc h n).
Proof. apply beat_ntsc_step_core. Qed.

Lemma beat_ntsc_step_witness :
  340 <= scanline_end (ppu power_on) /\ beat_spec 261 power_on (beat_ntsc host0 power_on).
Proof.
  assert (H : 340 <= scanline_end (ppu power_on)) by (vm_compute; discriminate).
  exact (conj H (beat_ntsc_step host0 power_on H)).
Defined.

(** X19: one PAL beat satisfies the same step description as an NTSC beat, with 311 as the line after the last. *)
Theorem beat_pal_step h n :
  340 <= scanline_end (ppu n) -> beat_spec 311 n (beat_pal h n).
Proof. apply beat_pal_step_core. Qed.

Lemma beat_pal_step_witness :
  340 <= scanline_end (ppu power_on) /\ beat_spec 311 power_on (beat_pal host0 power_on).
Proof.
  assert (H : 340 <= scanline_end (ppu power_on)) by (vm_compute; discriminate).
  exact (conj H (beat_pal_step host0 power_on H)).
Defined.

Lemma status_read_suppresses_nmi_witness :
  (VBlankState (ppu vblank_entry), flag InVBlank (reg (ppu vblank_entry)),
   flag NMIenabled (reg (ppu vblank_entry))) = (1, true, true) /\
  nmi (beat_ntsc host0 (beat_ntsc host0 vblank_entry)) = true /\
  (VBlankState (ppu (fst (Read 0x2002 vblank_entry))) = 0 /\
   flag InVBlank (reg (ppu (fst (Read 0x2002 vblank_entry)))) = false /\
   nmi (beat_ntsc host0 (fst (Read 0x2002 vblank_entry))) = false /\
   nmi (beat_pal host0 (fst (Read 0x2002 vblank_entry))) = false).
Proof.
  split; [vm_compute; reflexivity|]. split; [vm_compute; reflexivity|].
  refine (status_read_suppresses_nmi 0x2002 host0 vblank_entry _ _);
    [reflexivity | vm_compute; discriminate].
Defined.

Lemma sprite0_hit_needs_witness :
  fst (fst (compose_pixel host0 (ppu power_on))) = ppu power_on.
Proof.
  refine (sprite0_hit_needs host0 (ppu power_on) (or_intror (or_introl _))).
  vm_compute. reflexivity.
Defined.

Lemma data_port_round_trip_witness :
  let n' := writes [(0x2006, 0x21); (0x2006, 0x08); (0x2007, 0x5A); (0x2006, 0x21); (0x2006, 0x08)]
              power_on in
  let n'' := fst (Read 0x2007 n') in
  read_buffer (ppu n'') = Z.land 0x5A 0xFF /\
  (Z.land (get raw (vaddr (ppu n''))) 0x3F00 <> 0x3F00 -> snd (Read 0x2007 n'') = Z.land 0x5A 0xFF).
Proof.
  refine (data_port_round_trip 0x2006 0x2007 0x21 0x08 0x5A power_on _ _ _ _ _ _);
    [reflexivity | reflexivity | lia | lia | vm_compute; reflexivity | vm_compute; discriminate].
Defined.

Lemma fetch_ioaddr_witness :
  let q := fetch_phase pak0 (ppu power_on) in
  if (x (ppu power_on) mod 8 =? 2) && tile_decode_mode (x (ppu power_on))
  then 0x23C0 + 0x400 * get basenta (vaddr (ppu power_on)) <= ioaddr q <
       0x2400 + 0x400 * get basenta (vaddr (ppu power_on))
  else 0x2000 <= ioaddr q < 0x3000.
Proof.
  refine (fetch_ioaddr pak0 (ppu power_on) (or_introl _)). vm_compute. reflexivity.
Defined.
